(** * Multimodal-RAG front end: streaming client, orchestrator and staging.

  A shallow embedding of the data-flow layer of the React client:
  - [ChatAPI]: the server-sent-event decoder of [src/api/chat.ts]
    ([streamChat]);
  - [App]: the orchestrator and the staging pipeline of [src/App.tsx]
    ([handleSend], [handleStop], [processPDF], the upload handlers);
  - [InputBar]: the send gate of the input bar component;
  - [MessageBubble]: the citation resolver of [MessageBubble.tsx];
  - [Send]: the rest of [handleSend], from the history to the request
    and the [catch];
  - [Component]: the handlers of [App] as a transition system over what
    the user and the network do;
  - [Shell]: the panels of [App] and the handlers that open and close
    them, as a transition system over the gestures of the user;
  - [Keyboard]: the key handler of the input bar.

  Platform functions the sources call but do not define ([JSON.parse],
  [TextDecoder]) are fields of the [Platform] class; every general theorem
  holds for every platform.  [Sample] instantiates it for the worked
  examples. *)

From Stdlib Require Import List String Ascii Bool Arith ZArith QArith Lia.
From Stdlib Require Import DecimalString DecimalZ DecimalPos Permutation.
Import ListNotations.

Open Scope string_scope.
Open Scope list_scope.
Open Scope Z_scope.

Set Implicit Arguments.

(* ===================================================================== *)
(** * JavaScript values and string primitives *)
(* ===================================================================== *)

(** A string is its sequence of code units; the model has the code units
    below 256 ([ascii]).  Numbers of JSON are rationals.  An absent
    property or variable ([undefined]) is [None]. *)

Module JS.

Definition byte := Byte.byte.

(** The values [JSON.parse] can return.  An object is its list of own
    properties, one binding per key. *)
#[warnings="-register-all"]
Inductive json : Type :=
| JNull
| JBool (b : bool)
| JNum (q : Q)
| JStr (s : string)
| JArr (items : list json)
| JObj (fields : list (string * json)).

(** A thrown value: an [Error] instance with its message, or anything
    else ([error instanceof Error] is false). *)
Inductive thrown : Type :=
| JsError (message : string)
| NonError.

(** [error instanceof Error ? error.message : 'Unknown error'] *)
Definition error_message (error : thrown) : string :=
  match error with
  | JsError message => message
  | NonError => "Unknown error"
  end.

(** How a block of code is left. *)
Inductive completion : Type :=
| Normal
| Throws (e : thrown).

Fixpoint assoc (k : string) (fields : list (string * json)) : option json :=
  match fields with
  | [] => None
  | (k', v) :: rest => if String.eqb k k' then Some v else assoc k rest
  end.

(** [d.k] for a non-null [d] and one of the property names the sources
    read ([None] is [undefined]).  Primitives, strings and arrays have
    none of them, except [length]. *)
Definition get (k : string) (d : json) : option json :=
  match d with
  | JObj fields => assoc k fields
  | JArr items =>
      if String.eqb k "length"
      then Some (JNum (inject_Z (Z.of_nat (List.length items)))) else None
  | JStr s =>
      if String.eqb k "length"
      then Some (JNum (inject_Z (Z.of_nat (String.length s)))) else None
  | _ => None
  end.

(** ToBoolean. *)
Definition truthy (v : option json) : bool :=
  match v with
  | None | Some JNull => false
  | Some (JBool b) => b
  | Some (JNum q) => negb (Qeq_bool q 0)
  | Some (JStr s) => negb (String.eqb s "")
  | Some (JArr _) | Some (JObj _) => true
  end.

(** [v === s] for a string literal [s] *)
Definition is_string (v : option json) (s : string) : bool :=
  match v with
  | Some (JStr s') => String.eqb s' s
  | _ => false
  end.

(** [a || b] *)
Definition or_else (a : option json) (b : json) : json :=
  match a with
  | Some v => if truthy a then v else b
  | None => b
  end.

(** [s.startsWith(p)] *)
Fixpoint startsWith (p s : string) : bool :=
  match p, s with
  | EmptyString, _ => true
  | String a p', String b s' => Ascii.eqb a b && startsWith p' s'
  | String _ _, EmptyString => false
  end.

(** [s.slice(n)] for a non-negative [n] *)
Fixpoint slice (n : nat) (s : string) : string :=
  match n, s with
  | O, _ => s
  | S n', String _ s' => slice n' s'
  | S _, EmptyString => EmptyString
  end.

Definition newline : ascii := "010"%char.

(** [s.split('\n')]: never empty; the last element is what follows the
    last line feed. *)
Fixpoint split_nl (s : string) : list string :=
  match s with
  | EmptyString => [EmptyString]
  | String c s' =>
      if Ascii.eqb c newline then EmptyString :: split_nl s'
      else match split_nl s' with
           | [] => [String c EmptyString]
           | l :: ls => String c l :: ls
           end
  end.

(** White space and line terminators among the code units below 256. *)
Definition is_space (c : ascii) : bool :=
  match nat_of_ascii c with
  | 9%nat | 10%nat | 11%nat | 12%nat | 13%nat | 32%nat | 160%nat => true
  | _ => false
  end.

Fixpoint trimStart (s : string) : string :=
  match s with
  | String c s' => if is_space c then trimStart s' else s
  | EmptyString => EmptyString
  end.

Fixpoint trimEnd (s : string) : string :=
  match s with
  | EmptyString => EmptyString
  | String c s' =>
      match trimEnd s' with
      | EmptyString => if is_space c then EmptyString else String c EmptyString
      | t => String c t
      end
  end.

(** [s.trim()] *)
Definition trim (s : string) : string := trimEnd (trimStart s).

(** A string in a boolean position. *)
Definition nonempty (s : string) : bool := negb (String.eqb s "").

(** [n.toString()] for an integer [n] (decimal; exact for every integer
    of magnitude below 1e21, which covers clock readings and status
    codes). *)
Definition toString (n : Z) : string := NilZero.string_of_int (Z.to_int n).

(** What the sources take from the platform. *)
Class Platform : Type := {
  (** [JSON.parse(text)]; [None] when it throws a [SyntaxError]. *)
  JSON_parse : string -> option json;
  (** [new TextDecoder()] used with [{stream: true}]: bytes are consumed
      one at a time, each emits zero or more code units, and what is
      pending of an unfinished sequence stays in the decoder. *)
  decoder_state : Type;
  decoder_start : decoder_state;
  decoder_step : decoder_state -> byte -> decoder_state * string;
  (** The coercions of a value that is not known to be a number or a
      string: [v > 0] and [v] inside a template literal. *)
  gt_zero : json -> bool;
  to_text : json -> string;
}.

(** [v.length] of a value that is neither [null] nor [undefined]: the
    number of items or code units, the own member of an object, or
    [undefined]. *)
Inductive length_value : Type :=
| Count (n : nat)
| Member (v : json)
| Undefined.

Definition length_of (v : json) : length_value :=
  match v with
  | JArr items => Count (List.length items)
  | JStr s => Count (String.length s)
  | JObj fields =>
      match assoc "length" fields with
      | Some l => Member l
      | None => Undefined
      end
  | _ => Undefined
  end.

(** [v.length > 0] *)
Definition length_gt_zero `{Platform} (v : json) : bool :=
  match length_of v with
  | Count n => (0 <? n)%nat
  | Member l => gt_zero l
  | Undefined => false
  end.

(** [`${v.length}`] *)
Definition length_text `{Platform} (v : json) : string :=
  match length_of v with
  | Count n => toString (Z.of_nat n)
  | Member l => to_text l
  | Undefined => "undefined"
  end.

(** [x.toFixed(1)] for [x = size / 1024 / 1024] and an integer
    [size >= 0]: the nearest tenth, the larger one on a tie. *)
Definition megabytes_toFixed1 (size : Z) : string :=
  let n := (size * 20 + 1048576) / 2097152 in
  (toString (n / 10) ++ "." ++ toString (n mod 10))%string.

(** [decoder.decode(value, {stream: true})] *)
Fixpoint decode `{Platform} (st : decoder_state) (value : list byte)
  : decoder_state * string :=
  match value with
  | [] => (st, "")
  | b :: rest =>
      let (st1, out1) := decoder_step st b in
      let (st2, out2) := decode st1 rest in
      (st2, (out1 ++ out2)%string)
  end.

End JS.

(* ===================================================================== *)
(** * src/api/chat.ts *)
(* ===================================================================== *)

Module ChatAPI.
Import JS.

(** What a run of the generator shows: a frame handed to the consumer,
    or the [console.warn] of a line that could not be used. *)
Inductive effect : Type :=
| Yield (frame : json)
| Warn (line : string).

Definition frames (out : list effect) : list json :=
  flat_map (fun e => match e with Yield d => [d] | Warn _ => [] end) out.

(** One [reader.read()] that is not [{done: true}]. *)
Inductive read_result : Type :=
| Chunk (value : list byte)
| ReadError (e : thrown).

(** The response of [fetch]; [body = None] is a response without a
    readable body, otherwise the reads before [{done: true}]. *)
Record Response : Type := {
  ok : bool;
  status : Z;
  text : thrown + string;
  body : option (list read_result);
}.

Inductive fetch_result : Type :=
| Rejected (e : thrown)
| Resolved (response : Response).

(** Did the [for] loop leave the generator through [return]? *)
Inductive flow : Type := Continue | Return.

(** [data.type === 'message_complete' || data.type === 'error'] *)
Definition is_terminal (data : json) : bool :=
  is_string (get "type" data) "message_complete"
  || is_string (get "type" data) "error".

Section Decoder.
Context `{Platform}.

(** The body of the inner [try]: [JSON.parse], then the [console.log]
    that reads [data.type] (a TypeError on [null]) and calls
    [data.content?.substring] (a TypeError unless [content] is absent,
    [null] or a string). *)
Definition parse_frame (line : string) : option json :=
  match JSON_parse (slice 6 line) with
  | None => None
  | Some JNull => None
  | Some data =>
      match get "content" data with
      | None | Some JNull | Some (JStr _) => Some data
      | Some _ => None
      end
  end.

(** [for (const line of lines) { ... }] *)
Fixpoint for_lines (lines : list string) : list effect * flow :=
  match lines with
  | [] => ([], Continue)
  | line :: rest =>
      if startsWith "data: " line then
        match parse_frame line with
        | Some data =>
            if is_terminal data then ([Yield data], Return)
            else let (out, fl) := for_lines rest in (Yield data :: out, fl)
        | None =>
            let (out, fl) := for_lines rest in (Warn line :: out, fl)
        end
      else for_lines rest
  end.

(** [while (true) { const {done, value} = await reader.read(); ... }] *)
Fixpoint read_loop (decoder : decoder_state) (buffer : string)
         (reads : list read_result) : list effect * completion :=
  match reads with
  | [] => ([], Normal)
  | ReadError e :: _ => ([], Throws e)
  | Chunk value :: rest =>
      let (decoder', decoded) := decode decoder value in
      let lines := split_nl (buffer ++ decoded) in
      let buffer' := last lines "" in
      match for_lines (removelast lines) with
      | (out, Return) => (out, Normal)
      | (out, Continue) =>
          let (out', c) := read_loop decoder' buffer' rest in
          (out ++ out', c)
      end
  end.

(** The [try] block of [streamChat]. *)
Definition streamChat_try (net : fetch_result) : list effect * completion :=
  match net with
  | Rejected e => ([], Throws e)
  | Resolved response =>
      if negb (ok response) then
        match text response with
        | inl e => ([], Throws e)
        | inr errorText =>
            ([], Throws (JsError ("HTTP error! status: "
                                  ++ toString (status response)
                                  ++ ", body: " ++ errorText)))
        end
      else
        match body response with
        | None => ([], Throws (JsError "Unable to read response stream"))
        | Some reads => read_loop decoder_start "" reads
        end
  end.

(** The frame the [catch] clause yields. *)
Definition error_frame (error : thrown) (now : string) : json :=
  JObj [("type", JStr "error");
        ("error", JStr (error_message error));
        ("timestamp", JStr now)].

(** [async *streamChat(request)]: the effects in order and how the
    generator ends.  [now] is [new Date().toISOString()] at the time
    the [catch] clause runs. *)
Definition streamChat (net : fetch_result) (now : string)
  : list effect * completion :=
  match streamChat_try net with
  | (out, Normal) => (out, Normal)
  | (out, Throws error) => (out ++ [Yield (error_frame error now)], Normal)
  end.

(** A response with status 200 and the given chunks. *)
Definition streaming (chunks : list (list byte)) : fetch_result :=
  Resolved {| ok := true; status := 200; text := inr "";
              body := Some (map Chunk chunks) |}.

End Decoder.

End ChatAPI.

(* ===================================================================== *)
(** * src/components/MessageBubble.tsx *)
(* ===================================================================== *)

Module MessageBubble.
Import JS.

Inductive BlockType : Type := text | image | audio | pdf.

Record ContentBlock : Type := {
  type : BlockType;
  content : string;
  thumbnail : option string;
  transcription : option string;
  filename : option string;
  filesize : option Z;
}.

Record Reference : Type := {
  ref_id : Z;
  ref_text : string;
  source : string;
  page : Z;
  chunk_id : Z;
  source_info : string;
}.

Inductive Role : Type := user | assistant | tool.

(** [timestamp] is the [Date] as milliseconds since the epoch; an optional
    field that is absent is [None]. *)
Record Message : Type := {
  id : string;
  role : Role;
  contentBlocks : list ContentBlock;
  references : option (list Reference);
  timestamp : Z;
  isStreaming : option bool;
}.

(** [{ type: 'text', content: c }] *)
Definition text_block (c : string) : ContentBlock :=
  {| type := text; content := c; thumbnail := None; transcription := None;
     filename := None; filesize := None |}.

(** What [onClick] of a citation does: log and call [onReferenceClick]
    with the reference, or only log that the reference data is missing. *)
Inductive click : Type :=
| OpenReference (ref : Reference)
| LogInvalid.

(** The elements [processContent] returns. *)
Inductive element : Type :=
| ReferenceSuperscript (key : nat) (number : string) (onClick : click)
                       (className : option string)
| ReactMarkdown (key : nat) (children : string)
| span (key : nat) (children : string).

(** [\d] *)
Definition is_digit (c : ascii) : bool :=
  (48 <=? nat_of_ascii c)%nat && (nat_of_ascii c <=? 57)%nat.

(** The longest run of digits at the head of [s], and what follows. *)
Fixpoint digits_of (s : string) : string * string :=
  match s with
  | String c s' =>
      if is_digit c then let (ds, rest) := digits_of s' in (String c ds, rest)
      else (EmptyString, s)
  | EmptyString => (EmptyString, EmptyString)
  end.

(** [/\[(\d+)\]/] anchored at the head of [s]: the captured digits. *)
Definition marker_at (s : string) : option string :=
  match s with
  | String "["%char s' =>
      match digits_of s' with
      | (String d ds, String "]"%char _) => Some (String d ds)
      | _ => None
      end
  | _ => None
  end.

(** [part.match(/\[(\d+)\]/)]: the capture of the leftmost match. *)
Fixpoint match_marker (part : string) : option string :=
  match marker_at part with
  | Some digits => Some digits
  | None =>
      match part with
      | String _ rest => match_marker rest
      | EmptyString => None
      end
  end.

(** [content.split(/(\[\d+\])/g)]: the scan goes left to right; [acc] is
    the text since the last match, and [skip] counts the characters of a
    match still to be passed over. *)
Fixpoint split_from (skip : nat) (acc s : string) : list string :=
  match s with
  | EmptyString => [acc]
  | String c s' =>
      match skip with
      | S n => split_from n acc s'
      | O =>
          match marker_at s with
          | Some digits =>
              acc :: ("[" ++ digits ++ "]")%string
                  :: split_from (S (String.length digits)) "" s'
          | None => split_from 0 (acc ++ String c "") s'
          end
      end
  end.

Definition split_markers (s : string) : list string := split_from 0 "" s.

Definition digit_value (c : ascii) : Z := Z.of_nat (nat_of_ascii c) - 48.

(** [parseInt(digits)] on a string of decimal digits.  The value is exact
    below 2^53; beyond it the index is past the end of every array, as it
    is here. *)
Definition parseInt (digits : string) : Z :=
  fold_left (fun n c => 10 * n + digit_value c) (list_ascii_of_string digits) 0.

(** [references[refIndex]] *)
Definition index (refs : list Reference) (refIndex : Z) : option Reference :=
  if refIndex <? 0 then None else nth_error refs (Z.to_nat refIndex).

(** The callback of [parts.map] in [processContent]. *)
Definition render_part (refs : option (list Reference)) (i : nat)
           (part : string) : element :=
  match match_marker part with
  | Some digits =>
      let unresolved :=
        ReferenceSuperscript i digits LogInvalid
                             (Some "opacity-50 cursor-not-allowed") in
      match refs with
      | Some (r :: rs) =>
          match index (r :: rs) (parseInt digits - 1) with
          | Some ref => ReferenceSuperscript i digits (OpenReference ref) None
          | None => unresolved
          end
      | _ => unresolved
      end
  | None =>
      if nonempty part then ReactMarkdown i part else span i part
  end.

Fixpoint mapi {A B : Type} (f : nat -> A -> B) (i : nat) (l : list A) : list B :=
  match l with
  | [] => []
  | x :: rest => f i x :: mapi f (S i) rest
  end.

(** [processContent()] for the text block [block] of [message]. *)
Definition processContent (message : Message) (block : ContentBlock)
  : list element :=
  mapi (render_part (references message)) 0 (split_markers (content block)).

End MessageBubble.

(* ===================================================================== *)
(** * src/App.tsx *)
(* ===================================================================== *)

Module App.
Import JS.
Import MessageBubble.

(** The part of a [File] the handlers read. *)
Record File : Type := {
  name : string;
  size : Z;
}.

Record PendingImage : Type := {
  image_id : string;
  image_file : File;
  dataUrl : string;
  image_thumbnail : string;
}.

Record PendingPDF : Type := {
  pdf_id : string;
  pdf_file : File;
  pdf_filename : string;
  pdf_size : Z;
  processed : option bool;
  chunks : option json;
}.

Record PendingAudio : Type := {
  audio_id : string;
  audio_file : File;
  audio_filename : string;
  duration : Q;
  audio_transcription : option string;
  audio_processed : option bool;
}.

Inductive ToastType : Type := success | error | warning | info.

Record ToastMessage : Type := {
  toast_id : string;
  toast_type : ToastType;
  title : string;
  description : option string;
}.

Record PdfProcessing : Type := {
  isProcessing : bool;
  progress : json;
  step : json;
  message : json;
}.

(** The [useState] cells the handlers below read or write. *)
Record State : Type := {
  inputValue : string;
  messages : list Message;
  isStreaming : bool;
  pendingImages : list PendingImage;
  pendingPDFs : list PendingPDF;
  pendingAudios : list PendingAudio;
  pdfProcessing : PdfProcessing;
  toast : option ToastMessage;
}.

Definition idle : PdfProcessing :=
  {| isProcessing := false; progress := JNum 0; step := JStr "";
     message := JStr "" |}.

Definition initial : State :=
  {| inputValue := ""; messages := []; isStreaming := false;
     pendingImages := []; pendingPDFs := []; pendingAudios := [];
     pdfProcessing := idle; toast := None |}.

Definition setInputValue (v : string) (st : State) : State :=
  {| inputValue := v; messages := messages st; isStreaming := isStreaming st;
     pendingImages := pendingImages st; pendingPDFs := pendingPDFs st;
     pendingAudios := pendingAudios st; pdfProcessing := pdfProcessing st;
     toast := toast st |}.

(** [setMessages(prev => f prev)] *)
Definition setMessages (f : list Message -> list Message) (st : State) : State :=
  {| inputValue := inputValue st; messages := f (messages st);
     isStreaming := isStreaming st;
     pendingImages := pendingImages st; pendingPDFs := pendingPDFs st;
     pendingAudios := pendingAudios st; pdfProcessing := pdfProcessing st;
     toast := toast st |}.

Definition setIsStreaming (b : bool) (st : State) : State :=
  {| inputValue := inputValue st; messages := messages st; isStreaming := b;
     pendingImages := pendingImages st; pendingPDFs := pendingPDFs st;
     pendingAudios := pendingAudios st; pdfProcessing := pdfProcessing st;
     toast := toast st |}.

Definition setPendingImages (f : list PendingImage -> list PendingImage)
           (st : State) : State :=
  {| inputValue := inputValue st; messages := messages st;
     isStreaming := isStreaming st;
     pendingImages := f (pendingImages st); pendingPDFs := pendingPDFs st;
     pendingAudios := pendingAudios st; pdfProcessing := pdfProcessing st;
     toast := toast st |}.

Definition setPendingPDFs (f : list PendingPDF -> list PendingPDF)
           (st : State) : State :=
  {| inputValue := inputValue st; messages := messages st;
     isStreaming := isStreaming st;
     pendingImages := pendingImages st; pendingPDFs := f (pendingPDFs st);
     pendingAudios := pendingAudios st; pdfProcessing := pdfProcessing st;
     toast := toast st |}.

Definition setPendingAudios (f : list PendingAudio -> list PendingAudio)
           (st : State) : State :=
  {| inputValue := inputValue st; messages := messages st;
     isStreaming := isStreaming st;
     pendingImages := pendingImages st; pendingPDFs := pendingPDFs st;
     pendingAudios := f (pendingAudios st); pdfProcessing := pdfProcessing st;
     toast := toast st |}.

Definition setPdfProcessing (p : PdfProcessing) (st : State) : State :=
  {| inputValue := inputValue st; messages := messages st;
     isStreaming := isStreaming st;
     pendingImages := pendingImages st; pendingPDFs := pendingPDFs st;
     pendingAudios := pendingAudios st; pdfProcessing := p;
     toast := toast st |}.

Definition showToast (t : ToastMessage) (st : State) : State :=
  {| inputValue := inputValue st; messages := messages st;
     isStreaming := isStreaming st;
     pendingImages := pendingImages st; pendingPDFs := pendingPDFs st;
     pendingAudios := pendingAudios st; pdfProcessing := pdfProcessing st;
     toast := Some t |}.

Definition clearPendingImages : State -> State := setPendingImages (fun _ => []).
Definition clearPendingPDFs : State -> State := setPendingPDFs (fun _ => []).
Definition clearPendingAudios : State -> State := setPendingAudios (fun _ => []).

(* --------------------------------------------------------------------- *)
(** ** handleSend *)

(** The frames as [handleSend] reads them ([StreamingResponse] of
    [src/api/chat.ts]). *)
Record StreamingResponse : Type := {
  chunk_type : string;
  chunk_content : option string;
  chunk_error : option string;
  chunk_references : option (list Reference);
}.

(** The clock readings of one [handleSend]: [Date.now()] and [new Date()]
    for the user message, then for the assistant message. *)
Record SendClock : Type := {
  user_now : Z;
  user_date : Z;
  assistant_now : Z;
  assistant_date : Z;
}.

(** The locals of a [handleSend] that has passed its gate. *)
Record Session : Type := {
  currentInput : string;
  pdfDocuments : option (list PendingPDF);
  assistantMessageId : string;
  fullContent : string;
}.

(** The gate on the first line of [handleSend]: [true] when it returns. *)
Definition handleSend_returns (st : State) : bool :=
  (negb (nonempty (trim (inputValue st)))
   && (List.length (pendingImages st) =? 0)%nat
   && (List.length (pendingAudios st) =? 0)%nat)
  || isStreaming st.

Definition image_block (img : PendingImage) : ContentBlock :=
  {| type := image; content := dataUrl img;
     thumbnail := Some (image_thumbnail img); transcription := None;
     filename := None; filesize := None |}.

Definition audio_block (a : PendingAudio) : ContentBlock :=
  {| type := audio; content := ""; thumbnail := None;
     transcription := Some match audio_transcription a with
                           | Some t => t
                           | None => ""
                           end;
     filename := None; filesize := None |}.

Definition pdf_block (p : PendingPDF) : ContentBlock :=
  {| type := pdf; content := pdf_filename p; thumbnail := None;
     transcription := None; filename := Some (pdf_filename p);
     filesize := Some (pdf_size p) |}.

(** The first part of [handleSend], from its first line to the assistant
    placeholder.  The result is the state and, when the gate is passed,
    the locals the rest of the handler goes on with; [None] is the early
    [return].  The second part, from the placeholder to the call of
    [streamChat] (the collection of the chunks of the staged documents,
    the request, the [catch] clause), is [Send.prepare]; the two together
    are [Send.handleSend_request], and the loop that follows is
    [on_chunk]. *)
Definition handleSend (clock : SendClock) (st : State)
  : State * option Session :=
  if handleSend_returns st then (st, None)
  else
    let currentInput := inputValue st in
    let contentBlocks :=
      (if nonempty (trim currentInput) then [text_block currentInput] else [])
        ++ map image_block (pendingImages st)
        ++ map audio_block (pendingAudios st)
        ++ map pdf_block (pendingPDFs st) in
    let pdfDocuments :=
      match pendingPDFs st with
      | [] => None
      | pdfs => Some pdfs
      end in
    let userMessage :=
      {| id := toString (user_now clock); role := user;
         contentBlocks := contentBlocks; references := None;
         timestamp := user_date clock; MessageBubble.isStreaming := None |} in
    let st := setMessages (fun prev => prev ++ [userMessage]) st in
    let st := setInputValue "" st in
    let st := clearPendingImages st in
    let st := clearPendingAudios st in
    let st := setIsStreaming true st in
    let assistantMessageId := toString (assistant_now clock + 1) in
    let assistantMessage :=
      {| id := assistantMessageId; role := assistant;
         contentBlocks := [text_block ""]; references := Some [];
         timestamp := assistant_date clock;
         MessageBubble.isStreaming := Some true |} in
    let st := setMessages (fun prev => prev ++ [assistantMessage]) st in
    (st, Some {| currentInput := currentInput; pdfDocuments := pdfDocuments;
                 assistantMessageId := assistantMessageId;
                 fullContent := "" |}).

Definition with_contentBlocks (blocks : list ContentBlock) (msg : Message)
  : Message :=
  {| id := id msg; role := role msg; contentBlocks := blocks;
     references := references msg; timestamp := timestamp msg;
     MessageBubble.isStreaming := MessageBubble.isStreaming msg |}.

Definition with_isStreaming (b : bool) (msg : Message) : Message :=
  {| id := id msg; role := role msg; contentBlocks := contentBlocks msg;
     references := references msg; timestamp := timestamp msg;
     MessageBubble.isStreaming := Some b |}.

Definition with_references (refs : list Reference) (msg : Message) : Message :=
  {| id := id msg; role := role msg; contentBlocks := contentBlocks msg;
     references := Some refs; timestamp := timestamp msg;
     MessageBubble.isStreaming := MessageBubble.isStreaming msg |}.

(** [prev.map(msg => msg.id === assistantMessageId ? f msg : msg)] *)
Definition update_message (assistantMessageId : string)
           (f : Message -> Message) (prev : list Message) : list Message :=
  map (fun msg => if String.eqb (id msg) assistantMessageId then f msg else msg)
      prev.

Definition with_fullContent (c : string) (s : Session) : Session :=
  {| currentInput := currentInput s; pdfDocuments := pdfDocuments s;
     assistantMessageId := assistantMessageId s; fullContent := c |}.

(** Did the [for await] loop [break]? *)
Inductive loop : Type := Next | Break.

(** The body of [for await (const chunk of chatAPI.streamChat(...))]. *)
Definition on_chunk (chunk : StreamingResponse) (s : Session) (st : State)
  : Session * State * loop :=
  if String.eqb (chunk_type chunk) "content_delta"
     && match chunk_content chunk with Some c => nonempty c | None => false end
  then
    let fullContent :=
      (fullContent s ++ match chunk_content chunk with
                        | Some c => c
                        | None => ""
                        end)%string in
    (with_fullContent fullContent s,
     setMessages (update_message (assistantMessageId s)
                    (with_contentBlocks [text_block fullContent])) st,
     Next)
  else if String.eqb (chunk_type chunk) "message_complete" then
    let refs := match chunk_references chunk with
                | Some refs => refs
                | None => []
                end in
    let st := setMessages (update_message (assistantMessageId s)
                (fun msg => with_references refs (with_isStreaming false msg)))
                st in
    let st := setIsStreaming false st in
    (s, clearPendingAudios (clearPendingPDFs st), Break)
  else if String.eqb (chunk_type chunk) "error" then
    let notice :=
      ("Sorry, an error occurred: "
         ++ match chunk_error chunk with
            | Some e => e
            | None => "undefined"
            end)%string in
    let st := setMessages (update_message (assistantMessageId s)
                (fun msg => with_isStreaming false
                              (with_contentBlocks [text_block notice] msg)))
                st in
    let st := setIsStreaming false st in
    (s, clearPendingAudios (clearPendingPDFs st), Break)
  else (s, st, Next).

(** ** handleStop *)
Definition handleStop (st : State) : State :=
  setMessages (map (with_isStreaming false)) (setIsStreaming false st).

(** What happens while the loop of a send runs: the next frame reaches
    the loop, or the user presses stop. *)
Inductive event : Type :=
| Frame (chunk : StreamingResponse)
| Stop.

(** The loop ([None] once it has left through [break]) and the state. *)
Definition world : Type := (option Session * State)%type.

Definition on_event (w : world) (ev : event) : world :=
  match ev, w with
  | Stop, (l, st) => (l, handleStop st)
  | Frame chunk, (Some s, st) =>
      match on_chunk chunk s st with
      | (s', st', Next) => (Some s', st')
      | (_, st', Break) => (None, st')
      end
  | Frame _, (None, st) => (None, st)
  end.

Definition run (w : world) (events : list event) : world :=
  fold_left on_event events w.

(* --------------------------------------------------------------------- *)
(** ** processPDF *)

(** What [processPDF] meets: the result of reading the file as a data URL
    ([None] when the reader fails and the promise rejects with the event)
    and the response of the processing endpoint. *)
Record pdf_transport : Type := {
  fileData : option string;
  response : ChatAPI.fetch_result;
}.

(** How [processPDF] ends: [return] (of [parsed.chunks], or of nothing at
    the end of the function) or [throw]. *)
Inductive outcome : Type :=
| Returned (chunks : option json)
| Threw (e : thrown).

(** After a line: go on, or [return parsed.chunks]. *)
Inductive pdf_next : Type :=
| Go
| Return (chunks : option json).

(** What [processPDF] reports with [console.warn], besides the value it
    has caught: for a line of the loop the first 200 code units of the
    payload ([data.slice(0, 200)]), for the final buffer nothing. *)
Inductive pdf_warning : Type :=
| ResponseWarning (data : string)
| BufferWarning.

(** After the [while] loop. *)
Inductive pdf_end : Type :=
| Done (buffer : string)
| Left (chunks : option json)
| Failed (e : thrown).

Definition with_result (chunks : option json) (pdf : PendingPDF) : PendingPDF :=
  {| pdf_id := pdf_id pdf; pdf_file := pdf_file pdf;
     pdf_filename := pdf_filename pdf; pdf_size := pdf_size pdf;
     processed := Some true; App.chunks := chunks |}.

(** [prev.map(pdf => pdf.id === id ? {...pdf, processed: true, chunks} : pdf)] *)
Definition mark_processed (id : string) (chunks : option json)
           (prev : list PendingPDF) : list PendingPDF :=
  map (fun pdf => if String.eqb (pdf_id pdf) id then with_result chunks pdf
                  else pdf) prev.

(** [prev.filter(p => p.id !== id)] *)
Definition remove_pdf (id : string) (prev : list PendingPDF) : list PendingPDF :=
  filter (fun p => negb (String.eqb (pdf_id p) id)) prev.

Section Processing.
Context `{Platform}.

(** The body of [for (const line of lines)] in [processPDF].  The second
    component lists the calls of [console.warn]; the [throw] of the
    [error] branch is inside the [try] whose [catch] warns and
    continues. *)
Definition pdf_line (pdfFile : PendingPDF) (line : string) (st : State)
  : State * list pdf_warning * pdf_next :=
  if startsWith "data: " line then
    let data := trim (slice 6 line) in
    if String.eqb data "[DONE]" then (st, [], Go)
    else if negb (nonempty data) then (st, [], Go)
    else
      match JSON_parse data with
      | None | Some JNull => (st, [ResponseWarning (substring 0 200 data)], Go)
      | Some parsed =>
          if is_string (get "type" parsed) "progress" then
            (setPdfProcessing
               {| isProcessing := true;
                  progress := or_else (get "progress" parsed) (JNum 0);
                  step := or_else (get "step" parsed) (JStr "");
                  message := or_else (get "message" parsed) (JStr "") |} st,
             [], Go)
          else if is_string (get "type" parsed) "result" then
            (setPendingPDFs
               (mark_processed (pdf_id pdfFile) (get "chunks" parsed)) st,
             [], Return (get "chunks" parsed))
          else if is_string (get "type" parsed) "error" then
            (st, [ResponseWarning (substring 0 200 data)], Go)
          else (st, [], Go)
      end
  else (st, [], Go).

Fixpoint pdf_for_lines (pdfFile : PendingPDF) (lines : list string)
         (st : State) : State * list pdf_warning * pdf_next :=
  match lines with
  | [] => (st, [], Go)
  | line :: rest =>
      match pdf_line pdfFile line st with
      | (st', warned, Return c) => (st', warned, Return c)
      | (st', warned, Go) =>
          let '(st'', warned', next) := pdf_for_lines pdfFile rest st' in
          (st'', warned ++ warned', next)
      end
  end.

(** [while (true) { const {done, value} = await reader2.read(); ... }] *)
Fixpoint pdf_read_loop (pdfFile : PendingPDF) (decoder : decoder_state)
         (buffer : string) (reads : list ChatAPI.read_result) (st : State)
  : State * list pdf_warning * pdf_end :=
  match reads with
  | [] => (st, [], Done buffer)
  | ChatAPI.ReadError e :: _ => (st, [], Failed e)
  | ChatAPI.Chunk value :: rest =>
      let (decoder', chunk) := decode decoder value in
      let lines := split_nl (buffer ++ chunk) in
      let buffer' := last lines "" in
      match pdf_for_lines pdfFile (removelast lines) st with
      | (st', warned, Return c) => (st', warned, Left c)
      | (st', warned, Go) =>
          let '(st'', warned', e) :=
            pdf_read_loop pdfFile decoder' buffer' rest st' in
          (st'', warned ++ warned', e)
      end
  end.

(** [// Process final buffer data] *)
Definition final_buffer (pdfFile : PendingPDF) (buffer : string) (st : State)
  : State * list pdf_warning * outcome :=
  if nonempty (trim buffer) && startsWith "data: " buffer then
    let data := trim (slice 6 buffer) in
    if negb (String.eqb data "[DONE]") && nonempty data then
      match JSON_parse data with
      | None | Some JNull => (st, [BufferWarning], Returned None)
      | Some parsed =>
          if is_string (get "type" parsed) "result" then
            (setPendingPDFs
               (mark_processed (pdf_id pdfFile) (get "chunks" parsed)) st,
             [], Returned (get "chunks" parsed))
          else (st, [], Returned None)
      end
    else (st, [], Returned None)
  else (st, [], Returned None).

(** The outer [try] block of [processPDF]. *)
Definition processPDF_try (pdfFile : PendingPDF) (net : pdf_transport)
           (st : State) : State * list pdf_warning * outcome :=
  match fileData net with
  | None => (st, [], Threw NonError)
  | Some _ =>
      match response net with
      | ChatAPI.Rejected e => (st, [], Threw e)
      | ChatAPI.Resolved r =>
          match ChatAPI.body r with
          | None => (st, [], Threw (JsError "Response body is empty"))
          | Some reads =>
              match pdf_read_loop pdfFile decoder_start "" reads st with
              | (st', warned, Failed e) => (st', warned, Threw e)
              | (st', warned, Left c) => (st', warned, Returned c)
              | (st', warned, Done buffer) =>
                  let '(st'', warned', o) := final_buffer pdfFile buffer st' in
                  (st'', warned ++ warned', o)
              end
          end
      end
  end.

(** [processPDF(pdfFile)]: [try], then [catch] (toast and rethrow), then
    [finally].  [now] is [Date.now()] in the [catch] clause. *)
Definition processPDF (pdfFile : PendingPDF) (net : pdf_transport) (now : Z)
           (st : State) : State * list pdf_warning * outcome :=
  let st := setPdfProcessing
              {| isProcessing := true; progress := JNum 0;
                 step := JStr "preparing";
                 message := JStr "Preparing to process PDF..." |} st in
  let '(st, warned, o) := processPDF_try pdfFile net st in
  let st :=
    match o with
    | Threw e =>
        showToast
          {| toast_id := toString now; toast_type := error;
             title := "PDF Processing Failed";
             description :=
               Some ("Error processing " ++ name (pdf_file pdfFile) ++ ": "
                       ++ error_message e)%string |} st
    | Returned _ => st
    end in
  (setPdfProcessing idle st, warned, o).

(* --------------------------------------------------------------------- *)
(** ** The upload handlers *)

(** The clock readings of an upload: [Date.now()] for the staged id (or,
    for a document over the limit, for the toast), for the toast that
    follows, and for the toast after the remote call. *)
Record UploadClock : Type := {
  id_now : Z;
  toast_now : Z;
  late_now : Z;
}.

Definition maxSize : Z := 50 * 1024 * 1024.

(** [handleUploadPDFNew(file)] *)
Definition handleUploadPDFNew (file : File) (net : pdf_transport)
           (clock : UploadClock) (st : State) : State :=
  if isStreaming st || isProcessing (pdfProcessing st) then st
  else if size file >? maxSize then
    showToast
      {| toast_id := toString (id_now clock); toast_type := error;
         title := "PDF File Too Large";
         description :=
           Some ("File size " ++ megabytes_toFixed1 (size file)
                   ++ "MB exceeds limit (50MB)")%string |} st
  else
    let pendingPDF :=
      {| pdf_id := toString (id_now clock); pdf_file := file;
         pdf_filename := name file; pdf_size := size file;
         processed := Some false; chunks := None |} in
    let st := setPendingPDFs (fun prev => prev ++ [pendingPDF]) st in
    let st := showToast
                {| toast_id := toString (toast_now clock); toast_type := info;
                   title := "PDF Processing";
                   description :=
                     Some ("Parsing " ++ name file ++ "...")%string |} st in
    match processPDF pendingPDF net (late_now clock) st with
    | (st, _, Returned (Some chunks)) =>
        if truthy (Some chunks) && length_gt_zero chunks then
          let st := setPendingPDFs
                      (mark_processed (pdf_id pendingPDF) (Some chunks)) st in
          showToast
            {| toast_id := toString (late_now clock); toast_type := success;
               title := "PDF Processing Complete";
               description :=
                 Some (name file ++ " parsed, " ++ length_text chunks
                         ++ " document chunks. Please enter your question and send.")%string
            |} st
        else setPendingPDFs (remove_pdf (pdf_id pendingPDF)) st
    | (st, _, Returned None) =>
        setPendingPDFs (remove_pdf (pdf_id pendingPDF)) st
    | (st, _, Threw _) =>
        setPendingPDFs (remove_pdf (pdf_id pendingPDF)) st
    end.

End Processing.

(** [handleUploadImage(file)]; [result] is what the file reader hands to
    [onload], [None] when the read fails and [onload] never runs. *)
Definition handleUploadImage (file : File) (result : option string)
           (clock : UploadClock) (st : State) : State :=
  if isStreaming st then st
  else
    match result with
    | None => st
    | Some imageData =>
        let pendingImage :=
          {| image_id := toString (id_now clock); image_file := file;
             dataUrl := imageData; image_thumbnail := imageData |} in
        let st := setPendingImages (fun prev => prev ++ [pendingImage]) st in
        showToast
          {| toast_id := toString (toast_now clock); toast_type := info;
             title := "Image Uploaded";
             description := Some "Please enter your question, then click send"
          |} st
    end.

(** The body of a successful answer of the audio endpoint. *)
Record AudioResult : Type := {
  result_filename : string;
  result_duration : Q;
  result_transcription : string;
}.

(** What [handleUploadAudio] meets: [fetch] rejects, the response is not
    [ok] (with the [detail] of its body), or it carries a result. *)
Inductive audio_response : Type :=
| AudioRejected (e : thrown)
| AudioNotOk (detail : option string)
| AudioOk (result : AudioResult).

(** [handleUploadAudio(file)]; here [toast_now] is the reading for the
    first toast and [late_now] the one for the last. *)
Definition handleUploadAudio (file : File) (net : audio_response)
           (clock : UploadClock) (st : State) : State :=
  let st := showToast
              {| toast_id := toString (toast_now clock); toast_type := info;
                 title := "Processing Audio...";
                 description :=
                   Some "Please wait, transcribing speech to text" |} st in
  let failed (e : thrown) :=
    showToast
      {| toast_id := toString (late_now clock); toast_type := error;
         title := "Audio Processing Failed";
         description := Some (error_message e) |} st in
  match net with
  | AudioRejected e => failed e
  | AudioNotOk detail =>
      failed (JsError match detail with
                      | Some d => if nonempty d then d
                                  else "Audio processing failed"
                      | None => "Audio processing failed"
                      end)
  | AudioOk result =>
      let pendingAudio :=
        {| audio_id := toString (id_now clock); audio_file := file;
           audio_filename := result_filename result;
           duration := result_duration result;
           audio_transcription := Some (result_transcription result);
           audio_processed := Some true |} in
      let st := setPendingAudios (fun prev => prev ++ [pendingAudio]) st in
      showToast
        {| toast_id := toString (late_now clock); toast_type := success;
           title := "Audio Processing Complete";
           description :=
             Some ("Transcription: "
                     ++ substring 0 50 (result_transcription result)
                     ++ (if (50 <? String.length (result_transcription result))%nat
                         then "..." else ""))%string |} st
  end.

(** [onRemoveImage], [onRemovePDF], [onRemoveAudio] *)
Definition onRemoveImage (id : string) : State -> State :=
  setPendingImages (filter (fun img => negb (String.eqb (image_id img) id))).
Definition onRemovePDF (id : string) : State -> State :=
  setPendingPDFs (filter (fun pdf => negb (String.eqb (pdf_id pdf) id))).
Definition onRemoveAudio (id : string) : State -> State :=
  setPendingAudios (filter (fun a => negb (String.eqb (audio_id a) id))).


End App.

(* ===================================================================== *)
(** * src/components/InputBar.tsx *)
(* ===================================================================== *)

Module InputBar.
Import JS.

(** The props of [InputBar] that its gates read. *)
Record Props : Type := {
  value : string;
  isStreaming : bool;
  disabled : bool;
  pendingImages : list App.PendingImage;
  pendingPDFs : list App.PendingPDF;
  pendingAudios : list App.PendingAudio;
}.

Definition props_of (st : App.State) : Props :=
  {| value := App.inputValue st; isStreaming := App.isStreaming st;
     disabled := false;
     pendingImages := App.pendingImages st;
     pendingPDFs := App.pendingPDFs st;
     pendingAudios := App.pendingAudios st |}.

(** The condition under which [handleKeyDown] calls [onSend] on Enter. *)
Definition handleKeyDown_sends (p : Props) : bool :=
  (nonempty (trim (value p))
   || (0 <? List.length (pendingImages p))%nat
   || (0 <? List.length (pendingPDFs p))%nat
   || (0 <? List.length (pendingAudios p))%nat)
  && negb (isStreaming p).

(** The [disabled] attribute of the send button. *)
Definition send_disabled (p : Props) : bool :=
  (negb (nonempty (trim (value p)))
   && (List.length (pendingImages p) =? 0)%nat
   && (List.length (pendingPDFs p) =? 0)%nat
   && (List.length (pendingAudios p) =? 0)%nat)
  || disabled p.

End InputBar.

(* ===================================================================== *)
(** * Vocabulary of the statements *)
(* ===================================================================== *)

Module Stream.
Import JS.

(** A line feed. *)
Definition nl : string := String newline EmptyString.

(** The text of a stream made of complete lines, each ended by a line
    feed. *)
Fixpoint of_lines (lines : list string) : string :=
  match lines with
  | [] => EmptyString
  | line :: rest => (line ++ nl ++ of_lines rest)%string
  end.

(** A text without line feed. *)
Definition one_line (s : string) : Prop := split_nl s = [s].

(** The text a fresh decoder makes of the chunks of a stream. *)
Definition decoded `{Platform} (chunks : list (list byte)) : string :=
  snd (decode decoder_start (List.concat chunks)).

(** The transport failures [streamChat] can meet, each with the value
    that is thrown inside its [try] block: the connection is refused; the
    status is not a success (and the body of the answer can, or cannot, be
    read); the response has no readable body; a read fails after
    [chunks], before any frame that ends the stream. *)
Inductive failure `{Platform} : ChatAPI.fetch_result -> thrown -> Prop :=
| connection_refused (e : thrown) :
    failure (ChatAPI.Rejected e) e
| bad_status (r : ChatAPI.Response) (errorText : string) :
    ChatAPI.ok r = false ->
    ChatAPI.text r = inr errorText ->
    failure (ChatAPI.Resolved r)
            (JsError ("HTTP error! status: " ++ toString (ChatAPI.status r)
                        ++ ", body: " ++ errorText))
| bad_status_unread (r : ChatAPI.Response) (e : thrown) :
    ChatAPI.ok r = false ->
    ChatAPI.text r = inl e ->
    failure (ChatAPI.Resolved r) e
| unreadable_body (r : ChatAPI.Response) :
    ChatAPI.ok r = true ->
    ChatAPI.body r = None ->
    failure (ChatAPI.Resolved r) (JsError "Unable to read response stream")
| read_error (r : ChatAPI.Response) (chunks : list (list byte)) (e : thrown)
             (rest : list ChatAPI.read_result) :
    ChatAPI.ok r = true ->
    ChatAPI.body r
    = Some (map ChatAPI.Chunk chunks ++ ChatAPI.ReadError e :: rest) ->
    Forall (fun d => ChatAPI.is_terminal d = false)
           (ChatAPI.frames
              (fst (ChatAPI.read_loop decoder_start ""
                                      (map ChatAPI.Chunk chunks)))) ->
    failure (ChatAPI.Resolved r) e.

(** The response of the document endpoint that streams [chunks]. *)
Definition pdf_stream (chunks : list (list byte)) : App.pdf_transport :=
  {| App.fileData := Some "data:application/pdf;base64,";
     App.response := ChatAPI.streaming chunks |}.

End Stream.

Module Conversation.
Import JS MessageBubble App.

(** A frame of type [content_delta]. *)
Definition is_delta (chunk : StreamingResponse) : Prop :=
  chunk_type chunk = "content_delta".

(** The text a [content_delta] frame carries, if any. *)
Definition delta_text (chunk : StreamingResponse) : string :=
  match chunk_content chunk with
  | Some c => c
  | None => ""
  end.

(** The deltas of a list of frames, concatenated. *)
Fixpoint deltas (chunks : list StreamingResponse) : string :=
  match chunks with
  | [] => ""
  | chunk :: rest => (delta_text chunk ++ deltas rest)%string
  end.

(** The last message of the history. *)
Definition last_message (st : State) : option Message :=
  nth_error (messages st) (List.length (messages st) - 1).

(** Every message has its streaming flag cleared. *)
Definition none_streaming (st : State) : Prop :=
  Forall (fun msg => MessageBubble.isStreaming msg = Some false) (messages st).

End Conversation.

Module Citations.
Import JS MessageBubble.

(** A text as the resolver is to read it: spans of literal text and
    markers. *)
Inductive segment : Type :=
| Literal (t : string)
| Marker (digits : string).

(** The text of a segment; a marker is its number in brackets. *)
Definition part_of (seg : segment) : string :=
  match seg with
  | Literal t => t
  | Marker digits => ("[" ++ digits ++ "]")%string
  end.

(** A text that opens with the literal [first] and goes on with markers,
    each followed by a literal: its segments and its characters. *)
Fixpoint segments (rest : list (string * string)) : list segment :=
  match rest with
  | [] => []
  | (digits, t) :: rest' => Marker digits :: Literal t :: segments rest'
  end.

Fixpoint flatten (segs : list segment) : string :=
  match segs with
  | [] => EmptyString
  | seg :: segs' => (part_of seg ++ flatten segs')%string
  end.

(** A number: one decimal digit or more.  A literal: a text in which
    the resolver finds no marker. *)
Definition is_number (digits : string) : Prop :=
  digits <> EmptyString /\ digits_of digits = (digits, EmptyString).

Definition is_literal (t : string) : Prop := match_marker t = None.

(** The reference a marker numbered [digits] stands for: [references[k-1]]
    when there is a list and [k] is between 1 and its length. *)
Definition resolve (refs : option (list Reference)) (digits : string)
  : option Reference :=
  match refs with
  | Some l =>
      if (1 <=? parseInt digits) && (parseInt digits <=? Z.of_nat (List.length l))
      then nth_error l (Z.to_nat (parseInt digits - 1))
      else None
  | None => None
  end.

(** What a segment is to be rendered as: a literal as a text span that
    holds it unchanged; a marker as a citation, one that opens its
    reference when it resolves, a dimmed one without action otherwise. *)
Definition element_of (refs : option (list Reference)) (i : nat)
           (seg : segment) : element :=
  match seg with
  | Literal t => if nonempty t then ReactMarkdown i t else span i t
  | Marker digits =>
      match resolve refs digits with
      | Some ref => ReferenceSuperscript i digits (OpenReference ref) None
      | None => ReferenceSuperscript i digits LogInvalid
                                     (Some "opacity-50 cursor-not-allowed")
      end
  end.

(** Past the end of a text, or at an opening bracket, nothing that
    comes later can complete a marker that began before. *)
Definition boundary (v : string) : Prop :=
  v = EmptyString \/ exists v', v = String "["%char v'.

(** The well-formed texts: the literals hold no marker, the markers are
    numbers. *)
Definition well_formed (first : string) (rest : list (string * string)) : Prop :=
  is_literal first
  /\ Forall (fun kt => is_number (fst kt) /\ is_literal (snd kt)) rest.

End Citations.

Module Staging.
Import JS App.


(** Two states with the same staged images and audios, and documents
    with the same ids in the same order. *)
Definition same_ids (st st' : State) : Prop :=
  pendingImages st' = pendingImages st
  /\ map pdf_id (pendingPDFs st') = map pdf_id (pendingPDFs st)
  /\ pendingAudios st' = pendingAudios st.

End Staging.

(* ===================================================================== *)
(** * A platform for the worked examples *)
(* ===================================================================== *)

Module Sample.
Import JS.
Local Open Scope string_scope.

Definition delta (c : string) : json :=
  JObj [("type", JStr "content_delta"); ("content", JStr c)].

Definition complete : json :=
  JObj [("type", JStr "message_complete"); ("references", JArr [])].

Definition failure (e : string) : json :=
  JObj [("type", JStr "error"); ("error", JStr e)].

Definition result_one_chunk : json :=
  JObj [("type", JStr "result");
        ("chunks", JArr [JObj [("id", JStr "c0"); ("content", JStr "Intro")]])].

Definition progress_load : json :=
  JObj [("type", JStr "progress"); ("progress", JNum 40);
        ("step", JStr "load"); ("message", JStr "Loading document")].

Definition samples : list json :=
  [delta "Hel"; delta "lo"; complete; failure "OCR failed"; result_one_chunk;
   progress_load].

Definition quote : string := String (ascii_of_nat 34) EmptyString.

(** The JSON text of a value whose strings need no escape and whose
    numbers are integers. *)
Fixpoint stringify (v : json) : string :=
  match v with
  | JNull => "null"
  | JBool true => "true"
  | JBool false => "false"
  | JNum q => toString (Qnum q)
  | JStr s => quote ++ s ++ quote
  | JArr items => "[" ++ String.concat "," (map stringify items) ++ "]"
  | JObj fields =>
      "{" ++ String.concat ","
               (map (fun kv => quote ++ fst kv ++ quote ++ ":"
                                 ++ stringify (snd kv)) fields) ++ "}"
  end.

(** [JSON.parse] on the texts the examples pass to it: the JSON text of a
    sample is read back as that sample; every other text in the examples
    is not JSON, and [JSON.parse] throws. *)
Definition parse (payload : string) : option json :=
  find (fun v => String.eqb (stringify v) payload) samples.

(** An event-stream line carrying a payload. *)
Definition data_line (payload : string) : string :=
  "data: " ++ payload ++ Stream.nl.

(** The UTF-8 decoder on bytes below 128, which is all the examples send:
    one code unit per byte. *)
Definition ascii_step (st : unit) (b : byte) : unit * string :=
  (st, String (ascii_of_byte b) EmptyString).

(** The coercions on numbers, booleans, [null] and plain objects; the
    examples reach them with no other value. *)
Definition number_gt_zero (v : json) : bool :=
  match v with
  | JNum q => negb (Qle_bool q 0)
  | JBool b => b
  | _ => false
  end.

Definition template (v : json) : string :=
  match v with
  | JNum q => toString (Qnum q)
  | JStr s => s
  | JBool true => "true"
  | JBool false => "false"
  | JNull => "null"
  | _ => "[object Object]"
  end.

#[export] Instance platform : Platform :=
  {| JSON_parse := parse;
     decoder_state := unit;
     decoder_start := tt;
     decoder_step := ascii_step;
     gt_zero := number_gt_zero;
     to_text := template |}.

(** The bytes of an ASCII text. *)
Definition bytes (s : string) : list byte := list_byte_of_string s.

(** A document, staged and processed, and nothing else. *)
Definition report : App.File := {| App.name := "report.pdf"; App.size := 2048 |}.

Definition staged_report : App.PendingPDF :=
  {| App.pdf_id := "1700000000000"; App.pdf_file := report;
     App.pdf_filename := "report.pdf"; App.pdf_size := 2048;
     App.processed := Some true;
     App.chunks := get "chunks" result_one_chunk |}.

(** The same document, staged and not yet processed. *)
Definition pending_report : App.PendingPDF :=
  {| App.pdf_id := "1700000000000"; App.pdf_file := report;
     App.pdf_filename := "report.pdf"; App.pdf_size := 2048;
     App.processed := Some false; App.chunks := None |}.

Definition upload_clock : App.UploadClock :=
  {| App.id_now := 1700000000000; App.toast_now := 1700000000001;
     App.late_now := 1700000000950 |}.

Definition photo : App.File := {| App.name := "photo.png"; App.size := 4096 |}.

Definition only_a_document : App.State :=
  App.setPendingPDFs (fun _ => [staged_report]) App.initial.

(** A question typed into an otherwise fresh component. *)
Definition question : App.State := App.setInputValue "What is RAG?" App.initial.

Definition send_clock : App.SendClock :=
  {| App.user_now := 1700000000000; App.user_date := 1700000000000;
     App.assistant_now := 1700000000000; App.assistant_date := 1700000000001 |}.

Definition delta_frame (c : string) : App.StreamingResponse :=
  {| App.chunk_type := "content_delta"; App.chunk_content := Some c;
     App.chunk_error := None; App.chunk_references := None |}.

(** The world once [question] has been sent: with no document staged,
    [handleSend] goes from the placeholder to its loop without touching
    the state again. *)
Definition asked : App.world :=
  match App.handleSend send_clock question with
  | (st, l) => (l, st)
  end.

(** A reference, and a message that cites it. *)
Definition handbook : MessageBubble.Reference :=
  {| MessageBubble.ref_id := 1;
     MessageBubble.ref_text := "Retrieval grounds the answer.";
     MessageBubble.source := "handbook.pdf"; MessageBubble.page := 3;
     MessageBubble.chunk_id := 0;
     MessageBubble.source_info := "handbook.pdf - Page 3" |}.

Definition cited : MessageBubble.Message :=
  {| MessageBubble.id := "1700000000001";
     MessageBubble.role := MessageBubble.assistant;
     MessageBubble.contentBlocks := [MessageBubble.text_block "See [1] and [9]"];
     MessageBubble.references := Some [handbook];
     MessageBubble.timestamp := 1700000000001;
     MessageBubble.isStreaming := Some false |}.

(** The text blocks of the last message. *)
Definition answer (w : App.world) : option (list string) :=
  option_map (fun msg => map MessageBubble.content
                             (MessageBubble.contentBlocks msg))
             (Conversation.last_message (snd w)).

End Sample.

(* ===================================================================== *)
(** * src/App.tsx: the request of [handleSend] *)
(* ===================================================================== *)

Module Send.
Import JS MessageBubble App.

(** The [useState] cells of the selectors in the top bar. *)
Record Settings : Type := {
  knowledgeBase : string;
  model : string;
}.

Definition defaults : Settings :=
  {| knowledgeBase := "default"; model := "gpt-4o" |}.

(** An entry of [history]: the role, the contents of the blocks joined
    without separator, and the blocks with the four fields the handler
    copies. *)
Record HistoryBlock : Type := {
  history_type : BlockType;
  history_block_content : string;
  history_thumbnail : option string;
  history_transcription : option string;
}.

Record HistoryEntry : Type := {
  history_role : Role;
  history_content : string;
  history_blocks : list HistoryBlock;
}.

Definition history_block (block : ContentBlock) : HistoryBlock :=
  {| history_type := type block; history_block_content := content block;
     history_thumbnail := thumbnail block;
     history_transcription := transcription block |}.

(** [blocks.map(block => block.content).join('')] *)
Fixpoint join_contents (blocks : list ContentBlock) : string :=
  match blocks with
  | [] => ""
  | block :: rest => (content block ++ join_contents rest)%string
  end.

(** The callback of [messages.map] that builds [history]. *)
Definition history_entry (msg : Message) : HistoryEntry :=
  {| history_role := role msg;
     history_content := join_contents (contentBlocks msg);
     history_blocks := map history_block (contentBlocks msg) |}.

(** The argument of [chatAPI.streamChat]. *)
Record ChatRequest : Type := {
  request_content : string;
  content_blocks : list ContentBlock;
  pdf_chunks : list json;
  history : list HistoryEntry;
  request_model : string;
  knowledge_base : string;
}.

(** The messages of the [TypeError]s the collection of the document chunks
    can meet, whose wording is the engine's: calling [pdf.chunks.map], or
    [chunks.map], when it is no function; reading [chunk.content] of
    [null]; in the debug preview, reading [c.id] of [null] and calling
    [c.content.substring] when it is no function. *)
Class Engine : Type := {
  pdf_chunks_map_is_not_a_function : string;
  chunks_map_is_not_a_function : string;
  content_of_null : string;
  id_of_null : string;
  substring_is_not_a_function : string;
}.

(** What a document meets when [handleSend] has to process it because it
    is not processed yet: the transport of [processPDF], the clock reading
    of its [catch] clause, and the clock readings and the date of the
    error message in the chat. *)
Record Retry : Type := {
  retry_net : pdf_transport;
  retry_now : Z;
  error_now : Z;
  error_date : Z;
}.

Definition quote : string := String (ascii_of_nat 34) EmptyString.

Section Collect.
Context `{Platform} `{Engine}.

(** [chunks.map((chunk) => chunk.content)]: the contents, or the
    [TypeError] of a value without [map] ([no_map] is its message) or of
    a [null] chunk.  The [join] that follows coerces each content to
    text; as for the other coercions to text ([to_text]), the model takes
    it to return. *)
Definition chunk_contents (no_map : string) (chunks : json)
  : thrown + list (option json) :=
  match chunks with
  | JArr items =>
      if existsb (fun chunk => match chunk with JNull => true | _ => false end)
                 items
      then inl (JsError content_of_null)
      else inr (map (get "content") items)
  | _ => inl (JsError no_map)
  end.

(** [allProcessedPdfChunks.concat(chunks)] *)
Definition concat_chunks (all : list json) (chunks : json) : list json :=
  match chunks with
  | JArr items => all ++ items
  | other => all ++ [other]
  end.

(** [pdf.processed && pdf.chunks && pdf.chunks.length > 0] *)
Definition preprocessed (pdf : PendingPDF) : bool :=
  match processed pdf, chunks pdf with
  | Some true, Some c => truthy (Some c) && length_gt_zero c
  | _, _ => false
  end.

(** The [catch] clause inside the loop over the documents: the document
    leaves the staging collection and an assistant message reports the
    error. *)
Definition report_failure (pdf : PendingPDF) (error : thrown) (r : Retry)
           (st : State) : State :=
  let st := setPendingPDFs (remove_pdf (pdf_id pdf)) st in
  let errorMsg :=
    {| id := toString (error_now r); role := assistant;
       contentBlocks :=
         [text_block ("Error processing PDF document " ++ quote
                        ++ pdf_filename pdf ++ quote ++ ": "
                        ++ error_message error)];
       references := None; timestamp := error_date r;
       MessageBubble.isStreaming := None |} in
  setMessages (fun prev => prev ++ [errorMsg]) st.

(** [for (const pdf of pdfDocuments) { ... }]: [i] is the position of the
    next document, [all] is [allProcessedPdfChunks].  A [TypeError] on the
    chunks of a processed document leaves the loop. *)
Fixpoint collect (env : nat -> Retry) (i : nat) (pdfs : list PendingPDF)
         (all : list json) (st : State) : State * (thrown + list json) :=
  match pdfs with
  | [] => (st, inr all)
  | document :: rest =>
      if preprocessed document then
        match chunks document with
        | Some c =>
            match chunk_contents pdf_chunks_map_is_not_a_function c with
            | inl e => (st, inl e)
            | inr _ => collect env (S i) rest (concat_chunks all c) st
            end
        | None => collect env (S i) rest all st
        end
      else
        match processPDF document (retry_net (env i)) (retry_now (env i)) st
        with
        | (st, _, Returned (Some c)) =>
            if truthy (Some c) && length_gt_zero c then
              match chunk_contents chunks_map_is_not_a_function c with
              | inl e =>
                  collect env (S i) rest all
                          (report_failure document e (env i) st)
              | inr _ => collect env (S i) rest (concat_chunks all c) st
              end
            else collect env (S i) rest all st
        | (st, _, Returned None) => collect env (S i) rest all st
        | (st, _, Threw e) =>
            collect env (S i) rest all (report_failure document e (env i) st)
        end
  end.

(** The callback of the debug preview, [c => ({id: c.id, contentPreview:
    c.content?.substring(0, 50) + '...', source: c.metadata?.source})]:
    what it throws, if it does. *)
Definition preview_throws (c : json) : option thrown :=
  match c with
  | JNull => Some (JsError id_of_null)
  | _ =>
      match get "content" c with
      | None | Some JNull | Some (JStr _) => None
      | Some _ => Some (JsError substring_is_not_a_function)
      end
  end.

(** [allProcessedPdfChunks.slice(0, 2).map(...)] *)
Fixpoint previews (first : list json) : option thrown :=
  match first with
  | [] => None
  | c :: rest =>
      match preview_throws c with
      | Some e => Some e
      | None => previews rest
      end
  end.

(** [handleSend] from the assistant placeholder to the call of
    [streamChat]: the request, or the value thrown on the way.  [closure]
    is the state the handler was created in, whose [messages],
    [pendingImages] and [pendingAudios] it still reads; [st] is the state
    by now. *)
Definition prepare (settings : Settings) (env : nat -> Retry)
           (closure : State) (s : Session) (st : State)
  : State * (thrown + ChatRequest) :=
  let history := map history_entry (messages closure) in
  let collected :=
    match pdfDocuments s with
    | Some pdfs => collect env 0 pdfs [] st
    | None => (st, inr [])
    end in
  match collected with
  | (st, inl e) => (st, inl e)
  | (st, inr allProcessedPdfChunks) =>
      let apiContentBlocks :=
        map image_block (pendingImages closure)
            ++ map audio_block (pendingAudios closure) in
      match previews (firstn 2 allProcessedPdfChunks) with
      | Some e => (st, inl e)
      | None =>
          (st, inr {| request_content := currentInput s;
                      content_blocks := apiContentBlocks;
                      pdf_chunks := allProcessedPdfChunks;
                      history := history;
                      request_model := model settings;
                      knowledge_base := knowledgeBase settings |})
      end
  end.

(** The [catch] clause of [handleSend]; [now] is its [Date.now()]. *)
Definition handleSend_catch (now : Z) (st : State) : State :=
  let st := showToast
              {| toast_id := toString now; toast_type := error;
                 title := "Connection Failed";
                 description :=
                   Some "Unable to connect to backend service, please check if service is running"
              |} st in
  let st := setIsStreaming false st in
  clearPendingAudios (clearPendingPDFs st).

(** [handleSend] up to the stream loop: the state, and the locals and the
    request the loop starts with; [None] when the handler has returned at
    its gate or has left through its [catch] clause. *)
Definition handleSend_request (settings : Settings) (env : nat -> Retry)
           (clock : SendClock) (catch_now : Z) (st : State)
  : State * option (Session * ChatRequest) :=
  match handleSend clock st with
  | (st1, None) => (st1, None)
  | (st1, Some s) =>
      match prepare settings env st s st1 with
      | (st2, inr request) => (st2, Some (s, request))
      | (st2, inl _) => (handleSend_catch catch_now st2, None)
      end
  end.

(* --------------------------------------------------------------------- *)
(** ** The frames as the loop reads them *)

(** A number that is an integer. *)
Definition integer (q : Q) : option Z :=
  if (Zpos (Qden (Qred q)) =? 1)%Z then Some (Qnum (Qred q)) else None.

(** An item of [references] that has the six fields of [Reference] with
    their types. *)
Definition as_Reference (v : json) : option Reference :=
  match get "id" v, get "text" v, get "source" v,
        get "page" v, get "chunk_id" v, get "source_info" v with
  | Some (JNum i), Some (JStr t), Some (JStr s),
    Some (JNum p), Some (JNum c), Some (JStr si) =>
      match integer i, integer p, integer c with
      | Some i, Some p, Some c =>
          Some {| ref_id := i; ref_text := t; source := s; page := p;
                  chunk_id := c; source_info := si |}
      | _, _, _ => None
      end
  | _, _, _, _, _, _ => None
  end.

Fixpoint as_References (items : list json) : option (list Reference) :=
  match items with
  | [] => Some []
  | v :: rest =>
      match as_Reference v, as_References rest with
      | Some r, Some rs => Some (r :: rs)
      | _, _ => None
      end
  end.

(** [data as StreamingResponse]: the frame as the typed loop reads it,
    for a frame whose fields have the declared types ([content] a string
    when present, [references] a list of references when it is not
    falsy).  [type] is only ever compared with string literals, and
    [error] only ever spliced into a template. *)
Definition as_StreamingResponse (data : json) : option StreamingResponse :=
  match data with
  | JNull => None
  | _ =>
      let chunk_type :=
        match get "type" data with
        | Some (JStr t) => t
        | _ => ""
        end in
      let chunk_error :=
        match get "error" data with
        | Some (JStr e) => Some e
        | Some v => Some (to_text v)
        | None => None
        end in
      let typed (c : option string) (refs : option (list Reference)) :=
        Some {| chunk_type := chunk_type; chunk_content := c;
                chunk_error := chunk_error; chunk_references := refs |} in
      let with_content (refs : option (list Reference)) :=
        match get "content" data with
        | None | Some JNull => typed None refs
        | Some (JStr c) => typed (Some c) refs
        | Some _ => None
        end in
      match get "references" data with
      | None => with_content None
      | Some (JArr items) =>
          match as_References items with
          | Some refs => with_content (Some refs)
          | None => None
          end
      | Some v => if truthy (Some v) then None else with_content None
      end
  end.

Fixpoint as_StreamingResponses (frames : list json)
  : option (list StreamingResponse) :=
  match frames with
  | [] => Some []
  | data :: rest =>
      match as_StreamingResponse data, as_StreamingResponses rest with
      | Some chunk, Some chunks => Some (chunk :: chunks)
      | _, _ => None
      end
  end.

End Collect.

End Send.

(* ===================================================================== *)
(** * src/App.tsx: the component as a transition system *)
(* ===================================================================== *)

Module Component.
Import JS MessageBubble App Send.

(** What a send meets: the wording of the engine, the selections of the
    top bar, what each document that is not processed yet meets, and the
    clock readings of the handler and of its [catch] clause. *)
Record SendEnv : Type := {
  send_engine : Engine;
  send_settings : Settings;
  send_retry : nat -> Retry;
  send_clock : SendClock;
  send_catch_now : Z;
}.

(** [handleSend()] up to its stream loop. *)
Definition send `{Platform} (e : SendEnv) (st : State)
  : State * option (Session * ChatRequest) :=
  @handleSend_request _ (send_engine e) (send_settings e) (send_retry e)
                      (send_clock e) (send_catch_now e) st.

(** What the user and the network can do to the component.  A new send
    starts a new loop; the model follows the loop of the latest send. *)
Inductive action : Type :=
| Send (e : SendEnv)
| Stream (ev : event)
| UploadImage (file : File) (result : option string) (clock : UploadClock)
| UploadPDF (file : File) (net : pdf_transport) (clock : UploadClock)
| UploadAudio (file : File) (net : audio_response) (clock : UploadClock)
| RemoveImage (id : string)
| RemovePDF (id : string)
| RemoveAudio (id : string).

Definition perform `{Platform} (w : world) (a : action) : world :=
  let (l, st) := w in
  match a with
  | Send e =>
      match send e st with
      | (st', Some (s, _)) => (Some s, st')
      | (st', None) => (l, st')
      end
  | Stream ev => on_event w ev
  | UploadImage file result clock => (l, handleUploadImage file result clock st)
  | UploadPDF file net clock => (l, handleUploadPDFNew file net clock st)
  | UploadAudio file net clock => (l, handleUploadAudio file net clock st)
  | RemoveImage id => (l, onRemoveImage id st)
  | RemovePDF id => (l, onRemovePDF id st)
  | RemoveAudio id => (l, onRemoveAudio id st)
  end.





End Component.

(* ===================================================================== *)
(** * src/App.tsx: the panels and the conversation list *)
(* ===================================================================== *)

Module Shell.
Import JS MessageBubble App Component.

Record ConversationItem : Type := {
  conversation_id : string;
  conversation_title : string;
  conversation_timestamp : Z;
  messageCount : Z;
}.

(** The [useState] cells of the drawers, the dialogs and the sidebar. *)
Record Panels : Type := {
  referenceDrawerOpen : bool;
  selectedReferences : list Reference;
  selectedReference : option Reference;
  logDrawerOpen : bool;
  settingsOpen : bool;
  helpOpen : bool;
  sidebarCollapsed : bool;
  conversations : list ConversationItem;
  activeConversationId : string;
}.

(** The initial values; [now1], [now2] and [now3] are the readings of
    [Date.now()] for the three conversations the list starts with. *)
Definition mounted (now1 now2 now3 : Z) : Panels :=
  {| referenceDrawerOpen := false; selectedReferences := [];
     selectedReference := None; logDrawerOpen := false;
     settingsOpen := false; helpOpen := false; sidebarCollapsed := false;
     conversations :=
       [{| conversation_id := "1";
           conversation_title := "Multimodal RAG System Architecture Design";
           conversation_timestamp := now1 - 86400000; messageCount := 12 |};
        {| conversation_id := "2";
           conversation_title := "Vector Database Optimization Strategy";
           conversation_timestamp := now2 - 172800000; messageCount := 8 |};
        {| conversation_id := "3";
           conversation_title := "OCR Technology in Document Parsing";
           conversation_timestamp := now3 - 259200000; messageCount := 15 |}];
     activeConversationId := "1" |}.

Definition setReferenceDrawerOpen (b : bool) (p : Panels) : Panels :=
  {| referenceDrawerOpen := b; selectedReferences := selectedReferences p;
     selectedReference := selectedReference p;
     logDrawerOpen := logDrawerOpen p; settingsOpen := settingsOpen p;
     helpOpen := helpOpen p; sidebarCollapsed := sidebarCollapsed p;
     conversations := conversations p;
     activeConversationId := activeConversationId p |}.

Definition setSelectedReferences (l : list Reference) (p : Panels) : Panels :=
  {| referenceDrawerOpen := referenceDrawerOpen p; selectedReferences := l;
     selectedReference := selectedReference p;
     logDrawerOpen := logDrawerOpen p; settingsOpen := settingsOpen p;
     helpOpen := helpOpen p; sidebarCollapsed := sidebarCollapsed p;
     conversations := conversations p;
     activeConversationId := activeConversationId p |}.

Definition setSelectedReference (r : option Reference) (p : Panels) : Panels :=
  {| referenceDrawerOpen := referenceDrawerOpen p;
     selectedReferences := selectedReferences p; selectedReference := r;
     logDrawerOpen := logDrawerOpen p; settingsOpen := settingsOpen p;
     helpOpen := helpOpen p; sidebarCollapsed := sidebarCollapsed p;
     conversations := conversations p;
     activeConversationId := activeConversationId p |}.

Definition setLogDrawerOpen (b : bool) (p : Panels) : Panels :=
  {| referenceDrawerOpen := referenceDrawerOpen p;
     selectedReferences := selectedReferences p;
     selectedReference := selectedReference p;
     logDrawerOpen := b; settingsOpen := settingsOpen p;
     helpOpen := helpOpen p; sidebarCollapsed := sidebarCollapsed p;
     conversations := conversations p;
     activeConversationId := activeConversationId p |}.

Definition setSettingsOpen (b : bool) (p : Panels) : Panels :=
  {| referenceDrawerOpen := referenceDrawerOpen p;
     selectedReferences := selectedReferences p;
     selectedReference := selectedReference p;
     logDrawerOpen := logDrawerOpen p; settingsOpen := b;
     helpOpen := helpOpen p; sidebarCollapsed := sidebarCollapsed p;
     conversations := conversations p;
     activeConversationId := activeConversationId p |}.

Definition setHelpOpen (b : bool) (p : Panels) : Panels :=
  {| referenceDrawerOpen := referenceDrawerOpen p;
     selectedReferences := selectedReferences p;
     selectedReference := selectedReference p;
     logDrawerOpen := logDrawerOpen p; settingsOpen := settingsOpen p;
     helpOpen := b; sidebarCollapsed := sidebarCollapsed p;
     conversations := conversations p;
     activeConversationId := activeConversationId p |}.

Definition setSidebarCollapsed (b : bool) (p : Panels) : Panels :=
  {| referenceDrawerOpen := referenceDrawerOpen p;
     selectedReferences := selectedReferences p;
     selectedReference := selectedReference p;
     logDrawerOpen := logDrawerOpen p; settingsOpen := settingsOpen p;
     helpOpen := helpOpen p; sidebarCollapsed := b;
     conversations := conversations p;
     activeConversationId := activeConversationId p |}.

Definition setConversations
           (f : list ConversationItem -> list ConversationItem) (p : Panels)
  : Panels :=
  {| referenceDrawerOpen := referenceDrawerOpen p;
     selectedReferences := selectedReferences p;
     selectedReference := selectedReference p;
     logDrawerOpen := logDrawerOpen p; settingsOpen := settingsOpen p;
     helpOpen := helpOpen p; sidebarCollapsed := sidebarCollapsed p;
     conversations := f (conversations p);
     activeConversationId := activeConversationId p |}.

Definition setActiveConversationId (id : string) (p : Panels) : Panels :=
  {| referenceDrawerOpen := referenceDrawerOpen p;
     selectedReferences := selectedReferences p;
     selectedReference := selectedReference p;
     logDrawerOpen := logDrawerOpen p; settingsOpen := settingsOpen p;
     helpOpen := helpOpen p; sidebarCollapsed := sidebarCollapsed p;
     conversations := conversations p; activeConversationId := id |}.

(** The component: the cells of the staging pipeline and the panels. *)
Record UI : Type := {
  app : State;
  panels : Panels;
}.

(** [text.substring(0, n) + (text.length > n ? '...' : '')] *)
Definition preview (n : nat) (t : string) : string :=
  (substring 0 n t ++ (if (n <? String.length t)%nat then "..." else ""))%string.

(** [handleReferenceClick(references)]; [now] is its [Date.now()]. *)
Definition handleReferenceClick (references : list Reference) (now : Z)
           (ui : UI) : UI :=
  match references with
  | [] => ui
  | ref :: _ =>
      {| app :=
           showToast
             {| toast_id := toString now; toast_type := info;
                title := "Reference Source: " ++ source_info ref;
                description := Some (preview 100 (ref_text ref)) |} (app ui);
         panels :=
           setReferenceDrawerOpen true
             (setSelectedReference (Some ref)
                (setSelectedReferences references (panels ui))) |}
  end.

(** The [onClick] of a citation of [MessageBubble], whose
    [onReferenceClick] is [handleReferenceClick]. *)
Definition onClick (c : click) (now : Z) (ui : UI) : UI :=
  match c with
  | OpenReference ref => handleReferenceClick [ref] now ui
  | LogInvalid => ui
  end.

(** The [keydown] listener of the document. *)
Definition handleKeyDown (key : string) (p : Panels) : Panels :=
  if String.eqb key "Escape"
  then setHelpOpen false
         (setSettingsOpen false
            (setLogDrawerOpen false (setReferenceDrawerOpen false p)))
  else p.

(** [handleNewConversation()]; [now] is its [Date.now()] and [date] its
    [new Date()]. *)
Definition handleNewConversation (now date : Z) (ui : UI) : UI :=
  let newId := toString now in
  let newConversation :=
    {| conversation_id := newId; conversation_title := "New Conversation";
       conversation_timestamp := date; messageCount := 0 |} in
  {| app := setMessages (fun _ => []) (app ui);
     panels :=
       setActiveConversationId newId
         (setConversations (fun prev => newConversation :: prev) (panels ui))
  |}.

(** [handleConversationSelect(id)] *)
Definition handleConversationSelect (id : string) (ui : UI) : UI :=
  {| app := setMessages (fun _ => []) (app ui);
     panels := setActiveConversationId id (panels ui) |}.

(** What the user can do to the component besides the actions of the
    staging pipeline: click a citation that is on display, press a key,
    click an entry of the reference drawer or close the drawer, start a
    conversation or click one of the list, fold the sidebar, open or
    close a dialog. *)
Inductive gesture : Type :=
| Pipeline (a : action)
| ClickCitation (c : click) (now : Z)
| PressKey (key : string)
| SelectReference (i : nat)
| CloseReferenceDrawer
| CloseLogDrawer
| NewConversation (now date : Z)
| SelectConversation (i : nat)
| ToggleSidebar
| Settings (open : bool)
| Help (open : bool).

Definition with_panels (f : Panels -> Panels) (ui : UI) : UI :=
  {| app := app ui; panels := f (panels ui) |}.

(** The loop of the latest send, and the component. *)
Definition screen : Type := (option Session * UI)%type.

Definition act `{Platform} (w : screen) (g : gesture) : screen :=
  let (l, ui) := w in
  match g with
  | Pipeline a =>
      let (l', st') := perform (l, app ui) a in
      (l', {| app := st'; panels := panels ui |})
  | ClickCitation c now => (l, onClick c now ui)
  | PressKey key => (l, with_panels (handleKeyDown key) ui)
  | SelectReference i =>
      match nth_error (selectedReferences (panels ui)) i with
      | Some ref => (l, with_panels (setSelectedReference (Some ref)) ui)
      | None => (l, ui)
      end
  | CloseReferenceDrawer => (l, with_panels (setReferenceDrawerOpen false) ui)
  | CloseLogDrawer => (l, with_panels (setLogDrawerOpen false) ui)
  | NewConversation now date => (l, handleNewConversation now date ui)
  | SelectConversation i =>
      match nth_error (conversations (panels ui)) i with
      | Some c => (l, handleConversationSelect (conversation_id c) ui)
      | None => (l, ui)
      end
  | ToggleSidebar =>
      (l, with_panels
            (fun p => setSidebarCollapsed (negb (sidebarCollapsed p)) p) ui)
  | Settings open => (l, with_panels (setSettingsOpen open) ui)
  | Help open => (l, with_panels (setHelpOpen open) ui)
  end.

Definition act_all `{Platform} (w : screen) (gestures : list gesture)
  : screen :=
  fold_left act gestures w.

(** The component when it mounts. *)
Definition start (now1 now2 now3 : Z) : screen :=
  (None, {| app := initial; panels := mounted now1 now2 now3 |}).

End Shell.

(* ===================================================================== *)
(** * src/components/InputBar.tsx: the keyboard *)
(* ===================================================================== *)

Module Keyboard.
Import JS.

(** The part of a [KeyboardEvent] the handler reads. *)
Record KeyboardEvent : Type := {
  key : string;
  shiftKey : bool;
  ctrlKey : bool;
  metaKey : bool;
}.

(** What [handleKeyDown] does, in order. *)
Inductive effect : Type :=
| preventDefault
| onSend
| click_pdfInput
| click_imageInput
| click_audioInput.

(** [handleKeyDown(e)] of [InputBar]. *)
Definition handleKeyDown (p : InputBar.Props) (e : KeyboardEvent)
  : list effect :=
  (if String.eqb (key e) "Enter" && negb (shiftKey e)
   then preventDefault
          :: (if InputBar.handleKeyDown_sends p then [onSend] else [])
   else [])
  ++ (if ctrlKey e || metaKey e then
        if String.eqb (key e) "u" || String.eqb (key e) "U"
        then [preventDefault; click_pdfInput]
        else if String.eqb (key e) "i" || String.eqb (key e) "I"
        then [preventDefault; click_imageInput]
        else if String.eqb (key e) "m" || String.eqb (key e) "M"
        then [preventDefault; click_audioInput]
        else []
      else []).

End Keyboard.

(* ===================================================================== *)
(** * More vocabulary of the statements *)
(* ===================================================================== *)

Module Reading.
Import JS ChatAPI.

(** How the [try] block of [streamChat] ends, and what it has yielded by
    then: the transport is exhausted, and no frame ended the stream; or
    the loop has returned after a frame that ends the stream, the only
    such frame; or a value is thrown, and no frame ended the stream. *)
Inductive ending : list effect * completion -> Prop :=
| exhausted (out : list effect) :
    Forall (fun d => is_terminal d = false) (frames out) ->
    ending (out, Normal)
| returned (out : list effect) (pre : list json) (f : json) :
    frames out = pre ++ [f] ->
    Forall (fun d => is_terminal d = false) pre ->
    is_terminal f = true ->
    ending (out, Normal)
| thrown_inside (out : list effect) (e : thrown) :
    Forall (fun d => is_terminal d = false) (frames out) ->
    ending (out, Throws e).

(** A line that carries the frame [f]. *)
Definition frame_line `{Platform} (line : string) (f : json) : Prop :=
  startsWith "data: " line = true /\ parse_frame line = Some f.

(** The response [r] with another body. *)
Definition with_body (reads : list read_result) (r : Response) : Response :=
  {| ok := ok r; status := status r; text := text r; body := Some reads |}.

(** A line of the document stream that carries a [result] event with the
    chunks [c]. *)
Definition result_line `{Platform} (line : string) (c : option json) : Prop :=
  startsWith "data: " line = true
  /\ trim (slice 6 line) <> "[DONE]"
  /\ trim (slice 6 line) <> ""
  /\ exists parsed : json,
      JSON_parse (trim (slice 6 line)) = Some parsed
      /\ is_string (get "type" parsed) "result" = true
      /\ get "chunks" parsed = c.

(** A line of the document stream that carries a [progress] event,
    which sets the progress record to [p]. *)
Definition progress_line `{Platform} (line : string) (p : App.PdfProcessing)
  : Prop :=
  startsWith "data: " line = true
  /\ trim (slice 6 line) <> "[DONE]"
  /\ trim (slice 6 line) <> ""
  /\ exists parsed : json,
      JSON_parse (trim (slice 6 line)) = Some parsed
      /\ is_string (get "type" parsed) "progress" = true
      /\ p = {| App.isProcessing := true;
                App.progress := or_else (get "progress" parsed) (JNum 0);
                App.step := or_else (get "step" parsed) (JStr "");
                App.message := or_else (get "message" parsed) (JStr "") |}.

End Reading.

Module Processing.
Import JS App.

(** Two states that differ at most in the progress record. *)
Definition quiet (st st' : State) : Prop :=
  inputValue st' = inputValue st
  /\ messages st' = messages st
  /\ isStreaming st' = isStreaming st
  /\ pendingImages st' = pendingImages st
  /\ pendingPDFs st' = pendingPDFs st
  /\ pendingAudios st' = pendingAudios st
  /\ toast st' = toast st.

(** As [quiet], but the documents with the id [id] have been marked as
    processed, with the chunks [c]. *)
Definition marked (id : string) (c : option json) (st st' : State) : Prop :=
  inputValue st' = inputValue st
  /\ messages st' = messages st
  /\ isStreaming st' = isStreaming st
  /\ pendingImages st' = pendingImages st
  /\ pendingPDFs st' = mark_processed id c (pendingPDFs st)
  /\ pendingAudios st' = pendingAudios st
  /\ toast st' = toast st.

(** The toast of the [catch] clause of [processPDF]. *)
Definition failure_toast (pdfFile : PendingPDF) (e : thrown) (now : Z)
  : ToastMessage :=
  {| toast_id := toString now; toast_type := error;
     title := "PDF Processing Failed";
     description :=
       Some ("Error processing " ++ name (pdf_file pdfFile) ++ ": "
               ++ error_message e)%string |}.

(** The document an upload stages. *)
Definition staged (file : File) (clock : UploadClock) : PendingPDF :=
  {| pdf_id := toString (id_now clock); pdf_file := file;
     pdf_filename := name file; pdf_size := size file;
     processed := Some false; chunks := None |}.

(** The toast an upload shows before it calls [processPDF], and the
    state in which it calls it. *)
Definition started_toast (file : File) (clock : UploadClock) : ToastMessage :=
  {| toast_id := toString (toast_now clock); toast_type := info;
     title := "PDF Processing";
     description := Some ("Parsing " ++ name file ++ "...")%string |}.

Definition uploading (file : File) (clock : UploadClock) (st : State) : State :=
  showToast (started_toast file clock)
            (setPendingPDFs (fun prev => prev ++ [staged file clock]) st).

(** The toast of an upload that has got the chunks [c]. *)
Definition completed_toast `{Platform} (file : File) (c : json)
           (clock : UploadClock) : ToastMessage :=
  {| toast_id := toString (late_now clock); toast_type := success;
     title := "PDF Processing Complete";
     description :=
       Some (name file ++ " parsed, " ++ length_text c
               ++ " document chunks. Please enter your question and send.")%string
  |}.

(** The toast of an upload over the size limit. *)
Definition too_large_toast (file : File) (clock : UploadClock) : ToastMessage :=
  {| toast_id := toString (id_now clock); toast_type := error;
     title := "PDF File Too Large";
     description :=
       Some ("File size " ++ megabytes_toFixed1 (size file)
               ++ "MB exceeds limit (50MB)")%string |}.

End Processing.

Module Exchange.
Import JS MessageBubble App.

(** The blocks of the user message of a send: the text, if it is not
    blank, then the staged images, audios and documents. *)
Definition user_blocks (st : State) : list ContentBlock :=
  (if nonempty (trim (inputValue st)) then [text_block (inputValue st)] else [])
    ++ map image_block (pendingImages st)
    ++ map audio_block (pendingAudios st)
    ++ map pdf_block (pendingPDFs st).

Definition user_message (clock : SendClock) (st : State) : Message :=
  {| id := toString (user_now clock); role := user;
     contentBlocks := user_blocks st; references := None;
     timestamp := user_date clock; MessageBubble.isStreaming := None |}.

(** The assistant message of a send, with the text [c], the references
    [refs] and the streaming flag [streaming]. *)
Definition assistant_message (clock : SendClock) (c : string)
           (refs : list Reference) (streaming : bool) : Message :=
  {| id := toString (assistant_now clock + 1); role := assistant;
     contentBlocks := [text_block c]; references := Some refs;
     timestamp := assistant_date clock;
     MessageBubble.isStreaming := Some streaming |}.

(** [chunk.references || []] *)
Definition references_of (chunk : StreamingResponse) : list Reference :=
  match chunk_references chunk with
  | Some refs => refs
  | None => []
  end.

(** [`Sorry, an error occurred: ${chunk.error}`] *)
Definition apology (chunk : StreamingResponse) : string :=
  ("Sorry, an error occurred: "
     ++ match chunk_error chunk with
        | Some e => e
        | None => "undefined"
        end)%string.

(** The state in which a send finds nothing staged any more, no input and
    no stream, and the messages [l]. *)
Definition settled (l : list Message) (st : State) : State :=
  {| inputValue := ""; messages := l; isStreaming := false;
     pendingImages := []; pendingPDFs := []; pendingAudios := [];
     pdfProcessing := pdfProcessing st; toast := toast st |}.

(** The state while the answer of a send streams: [pre] are the messages
    up to the user message, [c] is the text so far. *)
Definition streaming_state (clock : SendClock) (pre : list Message)
           (c : string) (st : State) : State :=
  {| inputValue := ""; messages := pre ++ [assistant_message clock c [] true];
     isStreaming := true; pendingImages := [];
     pendingPDFs := pendingPDFs st; pendingAudios := [];
     pdfProcessing := pdfProcessing st; toast := toast st |}.

(** The locals of that send. *)
Definition session (clock : SendClock) (st : State) (c : string) : Session :=
  {| currentInput := inputValue st;
     pdfDocuments := match pendingPDFs st with
                     | [] => None
                     | pdfs => Some pdfs
                     end;
     assistantMessageId := toString (assistant_now clock + 1);
     fullContent := c |}.

(** Only documents are staged, and no text is typed. *)
Definition only_documents (st : State) : Prop :=
  trim (inputValue st) = "" /\ pendingImages st = []
  /\ pendingAudios st = [] /\ pendingPDFs st <> [].

End Exchange.

Module Rendering.
Import JS MessageBubble.

(** The text an element stands for: a citation is its number in
    brackets. *)
Definition source_text (e : element) : string :=
  match e with
  | ReferenceSuperscript _ number _ _ => ("[" ++ number ++ "]")%string
  | ReactMarkdown _ children => children
  | span _ children => children
  end.

Fixpoint text_of (elements : list element) : string :=
  match elements with
  | [] => ""
  | e :: rest => (source_text e ++ text_of rest)%string
  end.

(** The React key of an element. *)
Definition key_of (e : element) : nat :=
  match e with
  | ReferenceSuperscript key _ _ _ => key
  | ReactMarkdown key _ => key
  | span key _ => key
  end.

(** An element that is not a citation, or a citation that is dimmed and
    whose click only logs. *)
Definition dimmed (e : element) : Prop :=
  match e with
  | ReferenceSuperscript _ _ onClick className =>
      onClick = LogInvalid
      /\ className = Some "opacity-50 cursor-not-allowed"
  | _ => True
  end.

End Rendering.

Module Display.
Import JS MessageBubble App Component Shell.

(** The reference drawer has nothing to show and is closed, or it lists
    one reference, which is the selected one. *)
Definition drawer_shows_selection (p : Panels) : Prop :=
  (selectedReferences p = [] /\ selectedReference p = None
   /\ referenceDrawerOpen p = false)
  \/ exists ref : Reference,
      selectedReferences p = [ref] /\ selectedReference p = Some ref.

(** The active conversation is one of the list. *)
Definition active_is_listed (p : Panels) : Prop :=
  In (activeConversationId p) (map conversation_id (conversations p)).

(** A conversation as [handleNewConversation] makes it. *)
Definition fresh_conversation (c : ConversationItem) : Prop :=
  conversation_title c = "New Conversation" /\ messageCount c = 0.

(** The list of conversations is the one the component mounted with,
    preceded by conversations that are as they were made. *)
Definition only_grown (now1 now2 now3 : Z) (p : Panels) : Prop :=
  exists added : list ConversationItem,
    conversations p = added ++ conversations (mounted now1 now2 now3)
    /\ Forall fresh_conversation added.

(** The events of a stream as gestures. *)
Definition streamed (events : list event) : list gesture :=
  map (fun ev => Pipeline (Stream ev)) events.

End Display.

Module Sending.
Import JS MessageBubble App Send.

(** A staged document that has been processed, with the chunks [items]:
    a list that is not empty and holds no [null]. *)
Definition ready (document : PendingPDF) (items : list json) : Prop :=
  processed document = Some true
  /\ chunks document = Some (JArr items)
  /\ items <> []
  /\ Forall (fun chunk => chunk <> JNull) items.

(** A staged document that has been processed, with a list of chunks
    that is not empty. *)
Definition listed (document : PendingPDF) (items : list json) : Prop :=
  processed document = Some true
  /\ chunks document = Some (JArr items)
  /\ items <> [].

(** Is one of the chunks [null]? *)
Definition has_null (items : list json) : bool :=
  existsb (fun chunk => match chunk with JNull => true | _ => false end) items.

(** The request of a send from the state [st], with the document chunks
    [all]. *)
Definition request_of (settings : Settings) (st : State) (all : list json)
  : ChatRequest :=
  {| request_content := inputValue st;
     content_blocks :=
       map image_block (pendingImages st) ++ map audio_block (pendingAudios st);
     pdf_chunks := all;
     history := map history_entry (messages st);
     request_model := model settings;
     knowledge_base := knowledgeBase settings |}.

(** The toast of the [catch] clause of [handleSend]. *)
Definition connection_failed (now : Z) : ToastMessage :=
  {| toast_id := toString now; toast_type := error;
     title := "Connection Failed";
     description :=
       Some "Unable to connect to backend service, please check if service is running"
  |}.

(** The assistant message that reports a document that could not be
    processed. *)
Definition failure_message (document : PendingPDF) (e : thrown) (r : Retry)
  : Message :=
  {| id := toString (error_now r); role := assistant;
     contentBlocks :=
       [text_block ("Error processing PDF document " ++ quote
                      ++ pdf_filename document ++ quote ++ ": "
                      ++ error_message e)];
     references := None; timestamp := error_date r;
     MessageBubble.isStreaming := None |}.

(** The messages that report the documents a send from the state [st]
    could not process: each is the failure message of a document that
    was staged and not processed. *)
Definition reported `{Platform} (env : nat -> Retry) (st : State)
           (reports : list Message) : Prop :=
  Forall (fun m => exists (document : PendingPDF) (e : thrown) (i : nat),
              nth_error (pendingPDFs st) i = Some document
              /\ preprocessed document = false
              /\ m = failure_message document e (env i))
         reports.

End Sending.

(* ===================================================================== *)
(** * More worked examples *)
(* ===================================================================== *)

Module Scenario.
Import JS.
Local Open Scope string_scope.

(** The wording of one engine. *)
#[export] Instance engine : Send.Engine :=
  {| Send.pdf_chunks_map_is_not_a_function := "pdf.chunks.map is not a function";
     Send.chunks_map_is_not_a_function := "chunks.map is not a function";
     Send.content_of_null := "Cannot read properties of null (reading 'content')";
     Send.id_of_null := "Cannot read properties of null (reading 'id')";
     Send.substring_is_not_a_function := "c.content?.substring is not a function"
  |}.

(** A transport that refuses the connection. *)
Definition offline : App.pdf_transport :=
  {| App.fileData := Some "data:application/pdf;base64,";
     App.response := ChatAPI.Rejected (JsError "Failed to fetch") |}.

Definition retry (i : nat) : Send.Retry :=
  {| Send.retry_net := offline; Send.retry_now := 1700000000500;
     Send.error_now := 1700000000501; Send.error_date := 1700000000501 |}.

Definition staged_photo : App.PendingImage :=
  {| App.image_id := "1699999999000"; App.image_file := Sample.photo;
     App.dataUrl := "data:image/png;base64,AAAA";
     App.image_thumbnail := "data:image/png;base64,AAAA" |}.

(** A question typed, with a photo and a processed document staged. *)
Definition illustrated : App.State :=
  App.setPendingPDFs (fun _ => [Sample.staged_report])
    (App.setPendingImages (fun _ => [staged_photo]) Sample.question).

(** A question typed, with a document staged whose only chunk has a
    number as content. *)
Definition odd_report : App.PendingPDF :=
  {| App.pdf_id := "1700000000000"; App.pdf_file := Sample.report;
     App.pdf_filename := "report.pdf"; App.pdf_size := 2048;
     App.processed := Some true;
     App.chunks := Some (JArr [JObj [("id", JStr "c0"); ("content", JNum 7)]]) |}.

Definition odd : App.State :=
  App.setPendingPDFs (fun _ => [odd_report]) Sample.question.

(** A question typed, with a document staged one of whose chunks is
    [null]. *)
Definition torn_report : App.PendingPDF :=
  {| App.pdf_id := "1700000000000"; App.pdf_file := Sample.report;
     App.pdf_filename := "report.pdf"; App.pdf_size := 2048;
     App.processed := Some true;
     App.chunks :=
       Some (JArr [JObj [("id", JStr "c0"); ("content", JStr "Intro")];
                   JNull]) |}.

Definition torn : App.State :=
  App.setPendingPDFs (fun _ => [torn_report]) Sample.question.

(** A question typed, with a document staged that is not processed. *)
Definition unprocessed : App.State :=
  App.setPendingPDFs (fun _ => [Sample.pending_report]) Sample.question.

End Scenario.

(* ===================================================================== *)
(** * Facts about the string primitives *)
(* ===================================================================== *)

Module StringFacts.
Import JS.

Lemma append_nil_r (s : string) : (s ++ "")%string = s.
Proof. induction s as [|c s IH]; simpl; [reflexivity | now rewrite IH]. Qed.

Lemma append_assoc (a b c : string) :
  ((a ++ b) ++ c)%string = (a ++ (b ++ c))%string.
Proof. induction a as [|x a IH]; simpl; [reflexivity | now rewrite IH]. Qed.

Lemma length_append (a b : string) :
  String.length (a ++ b) = (String.length a + String.length b)%nat.
Proof. induction a as [|x a IH]; simpl; [reflexivity | now rewrite IH]. Qed.

Lemma last_app_ne {A : Type} (l l' : list A) (d : A) :
  l' <> [] -> last (l ++ l') d = last l' d.
Proof.
  intros Hne. induction l as [|x l IH]; [reflexivity|].
  cbn [app last]. destruct (l ++ l') eqn:E; [|exact IH].
  apply app_eq_nil in E. destruct E as [_ E]. contradiction.
Qed.

Lemma split_nl_not_nil (s : string) : split_nl s <> [].
Proof.
  destruct s as [|c s]; simpl; [discriminate|].
  destruct (Ascii.eqb c newline); [discriminate|].
  destruct (split_nl s); discriminate.
Qed.

(** Splitting a text that arrives in two pieces: the complete lines of
    the first piece, then the split of its last, unfinished, line followed
    by the second piece. *)
Lemma split_nl_app (a b : string) :
  split_nl (a ++ b)
  = removelast (split_nl a) ++ split_nl (last (split_nl a) "" ++ b).
Proof.
  induction a as [|c a IH]; [reflexivity|].
  cbn [String.append split_nl].
  destruct (Ascii.eqb c newline) eqn:E.
  - rewrite IH.
    pose proof (split_nl_not_nil a) as Hne.
    destruct (split_nl a) as [|l ls]; [contradiction|]. reflexivity.
  - rewrite IH.
    pose proof (split_nl_not_nil a) as Hne.
    destruct (split_nl a) as [|l ls]; [contradiction|].
    destruct ls as [|l' ls]; cbn [removelast last app].
    + cbn [String.append split_nl]. rewrite E. reflexivity.
    + reflexivity.
Qed.

Lemma lines_app (a b : string) :
  removelast (split_nl (a ++ b))
  = removelast (split_nl a)
      ++ removelast (split_nl (last (split_nl a) "" ++ b)).
Proof.
  rewrite split_nl_app. apply removelast_app, split_nl_not_nil.
Qed.

Lemma residual_app (a b : string) :
  last (split_nl (a ++ b)) ""
  = last (split_nl (last (split_nl a) "" ++ b)) "".
Proof.
  rewrite split_nl_app. apply last_app_ne, split_nl_not_nil.
Qed.

(** The residual holds no line feed: split again, it is one line. *)
Lemma residual_one_line (s : string) :
  split_nl (last (split_nl s) "") = [last (split_nl s) ""].
Proof.
  induction s as [|c s IH]; [reflexivity|].
  cbn [split_nl].
  pose proof (split_nl_not_nil s) as Hne.
  destruct (Ascii.eqb c newline) eqn:E.
  - destruct (split_nl s) as [|l ls]; [contradiction|]. exact IH.
  - destruct (split_nl s) as [|l ls]; [contradiction|].
    destruct ls as [|l' ls]; cbn [last] in *.
    + cbn [split_nl]. rewrite E, IH. reflexivity.
    + exact IH.
Qed.

End StringFacts.

(* ===================================================================== *)
(** * The frame decoder of [streamChat] *)
(* ===================================================================== *)

Module ChatAPIFacts.
Import JS ChatAPI StringFacts.

Section Decoder.
Context `{Platform}.

Lemma decode_app (st : decoder_state) (a b : list byte) :
  decode st (a ++ b)
  = let (st1, out1) := decode st a in
    let (st2, out2) := decode st1 b in
    (st2, (out1 ++ out2)%string).
Proof.
  revert st. induction a as [|x a IH]; intros st; cbn [app decode].
  - destruct (decode st b). reflexivity.
  - destruct (decoder_step st x) as [st1 o1]. rewrite IH.
    destruct (decode st1 a) as [st2 o2]. destruct (decode st2 b) as [st3 o3].
    now rewrite append_assoc.
Qed.

Lemma for_lines_app (l1 l2 : list string) :
  for_lines (l1 ++ l2)
  = match for_lines l1 with
    | (out, Return) => (out, Return)
    | (out, Continue) => let (out', fl) := for_lines l2 in (out ++ out', fl)
    end.
Proof.
  induction l1 as [|line l1 IH]; cbn [app for_lines].
  - destruct (for_lines l2). reflexivity.
  - destruct (startsWith "data: " line); [|exact IH].
    destruct (parse_frame line) as [data|].
    + destruct (is_terminal data); [reflexivity|].
      rewrite IH. destruct (for_lines l1) as [o [|]]; [|reflexivity].
      destruct (for_lines l2). reflexivity.
    + rewrite IH. destruct (for_lines l1) as [o [|]]; [|reflexivity].
      destruct (for_lines l2). reflexivity.
Qed.

(** Reading the chunks one by one, from a residual without line feed,
    is reading their concatenation at once. *)
Lemma read_loop_concat (chunks : list (list byte)) :
  forall (decoder : decoder_state) (buffer : string),
    split_nl buffer = [buffer] ->
    read_loop decoder buffer (map Chunk chunks)
    = read_loop decoder buffer [Chunk (List.concat chunks)].
Proof.
  induction chunks as [|value chunks IH]; intros decoder buffer Hbuf.
  - cbn [map List.concat read_loop decode]. rewrite append_nil_r, Hbuf.
    reflexivity.
  - cbn [map List.concat read_loop]. rewrite decode_app.
    destruct (decode decoder value) as [decoder1 decoded1].
    rewrite (IH decoder1 _ (residual_one_line (buffer ++ decoded1))).
    cbn [read_loop].
    destruct (decode decoder1 (List.concat chunks)) as [decoder2 decoded2].
    rewrite <- (append_assoc buffer decoded1 decoded2).
    rewrite (lines_app (buffer ++ decoded1) decoded2), for_lines_app.
    destruct (for_lines (removelast (split_nl (buffer ++ decoded1))))
      as [out [|]]; [|reflexivity].
    destruct (for_lines _) as [out' [|]]; [|reflexivity].
    now rewrite app_assoc.
Qed.

End Decoder.

(** C1.  Whatever the platform, and however the bytes of an event stream
    are cut into chunks (also in the middle of a line, or of a character),
    [streamChat] yields the frames, and reports the diagnostics, that it
    yields when the whole stream arrives as one chunk. *)
Theorem streamChat_chunking_invariant `{Platform}
        (chunks : list (list byte)) (now : string) :
  frames (fst (streamChat (streaming chunks) now))
  = frames (fst (streamChat (streaming [List.concat chunks]) now))
  /\ streamChat (streaming chunks) now
     = streamChat (streaming [List.concat chunks]) now.
Proof.
  assert (E : streamChat (streaming chunks) now
              = streamChat (streaming [List.concat chunks]) now).
  { unfold streamChat, streamChat_try, streaming.
    cbn [ok body negb]. now rewrite read_loop_concat. }
  now rewrite E.
Qed.

Section Lines.
Context `{Platform}.

Lemma frames_app (a b : list effect) : frames (a ++ b) = frames a ++ frames b.
Proof. apply flat_map_app. Qed.

(** The loop leaves through [return] exactly after a terminal frame. *)
Lemma for_lines_return (lines : list string) (out : list effect) :
  for_lines lines = (out, Return) ->
  Exists (fun d => is_terminal d = true) (frames out).
Proof.
  revert out. induction lines as [|line lines IH]; intros out; cbn [for_lines].
  - discriminate.
  - destruct (startsWith "data: " line); [|apply IH].
    destruct (parse_frame line) as [data|].
    + destruct (is_terminal data) eqn:T.
      * intros [= <-]. now constructor.
      * destruct (for_lines lines) as [o fl]. intros [= <- ->].
        cbn. apply Exists_cons_tl. now apply IH.
    + destruct (for_lines lines) as [o fl]. intros [= <- ->].
      cbn. now apply IH.
Qed.

Lemma not_both (P : json -> bool) (l : list json) :
  Forall (fun d => P d = false) l -> Exists (fun d => P d = true) l -> False.
Proof.
  intros Hall Hex. induction Hex as [d l Hd | d l _ IH].
  - inversion Hall; subst. congruence.
  - inversion Hall; subst. auto.
Qed.

(** A read that fails before any terminal frame: the frames decoded so
    far have been yielded, and the error is thrown. *)
Lemma read_loop_read_error (chunks : list (list byte)) (e : thrown)
      (rest : list read_result) :
  forall (decoder : decoder_state) (buffer : string),
    Forall (fun d => is_terminal d = false)
           (frames (fst (read_loop decoder buffer (map Chunk chunks)))) ->
    read_loop decoder buffer (map Chunk chunks ++ ReadError e :: rest)
    = (fst (read_loop decoder buffer (map Chunk chunks)), Throws e).
Proof.
  induction chunks as [|value chunks IH]; intros decoder buffer Hall.
  - reflexivity.
  - cbn [map app read_loop] in *.
    destruct (decode decoder value) as [decoder1 decoded1].
    destruct (for_lines _) as [out [|]] eqn:E.
    + specialize (IH decoder1 (last (split_nl (buffer ++ decoded1)) "")).
      destruct (read_loop decoder1 _ (map Chunk chunks)) as [out' c].
      cbn [fst] in *. rewrite frames_app in Hall.
      apply Forall_app in Hall. destruct Hall as [_ Hall].
      now rewrite (IH Hall).
    + cbn [fst] in Hall. exfalso.
      exact (not_both _ Hall (for_lines_return _ E)).
Qed.

(** A line without line feed, followed by a line feed. *)
Lemma split_nl_line (line rest : string) :
  Stream.one_line line ->
  split_nl (line ++ String newline rest) = line :: split_nl rest.
Proof.
  unfold Stream.one_line.
  induction line as [|c line IH]; intros Hone; [reflexivity|].
  cbn [String.append split_nl] in *.
  destruct (Ascii.eqb c newline); [discriminate|].
  pose proof (split_nl_not_nil line) as Hne.
  destruct (split_nl line) as [|l ls]; [contradiction|].
  injection Hone as -> ->. now rewrite IH.
Qed.

Lemma split_nl_of_lines (lines : list string) (residual : string) :
  Forall Stream.one_line lines ->
  Stream.one_line residual ->
  split_nl (Stream.of_lines lines ++ residual) = lines ++ [residual].
Proof.
  intros Hlines Hres.
  induction Hlines as [|line lines Hone _ IH]; [exact Hres|].
  cbn [Stream.of_lines app]. unfold Stream.nl. rewrite !append_assoc.
  cbn [String.append]. now rewrite split_nl_line, IH.
Qed.

(** The generator on a stream of complete lines followed by a residual
    without line feed, however the stream is cut into chunks: the [for]
    loop over the complete lines.  The residual is never looked at. *)
Lemma streamChat_ignores_residual (lines : list string) (residual : string)
      (chunks : list (list byte)) (now : string) :
  Forall Stream.one_line lines ->
  Stream.one_line residual ->
  Stream.decoded chunks = (Stream.of_lines lines ++ residual)%string ->
  streamChat (streaming chunks) now = (fst (for_lines lines), Normal).
Proof.
  intros Hlines Hres Hdec.
  unfold streamChat, streamChat_try, streaming. cbn [ok body negb].
  rewrite read_loop_concat by reflexivity.
  cbn [read_loop]. unfold Stream.decoded in Hdec.
  destruct (decode decoder_start (List.concat chunks)) as [d t].
  cbn [snd String.append] in *. subst t.
  rewrite (split_nl_of_lines Hlines Hres), removelast_last.
  destruct (for_lines lines) as [out [|]]; cbn [fst];
    [now rewrite app_nil_r | reflexivity].
Qed.

Lemma streamChat_of_lines (lines : list string) (chunks : list (list byte))
      (now : string) :
  Forall Stream.one_line lines ->
  Stream.decoded chunks = Stream.of_lines lines ->
  streamChat (streaming chunks) now = (fst (for_lines lines), Normal).
Proof.
  intros Hlines Hdec.
  apply (@streamChat_ignores_residual lines "" chunks now Hlines eq_refl).
  now rewrite append_nil_r.
Qed.

Lemma for_lines_frame (p : string) (f : json) (rest : list string) :
  parse_frame ("data: " ++ p) = Some f ->
  for_lines (("data: " ++ p)%string :: rest)
  = if is_terminal f then ([Yield f], Return)
    else (Yield f :: fst (for_lines rest), snd (for_lines rest)).
Proof.
  intros Hf. cbn [for_lines].
  change (startsWith "data: " ("data: " ++ p)) with true.
  cbv iota. rewrite Hf. now destruct (is_terminal f), (for_lines rest).
Qed.

Lemma for_lines_corrupt (payload : string) (rest : list string) :
  JSON_parse payload = None ->
  for_lines (("data: " ++ payload)%string :: rest)
  = (Warn ("data: " ++ payload) :: fst (for_lines rest), snd (for_lines rest)).
Proof.
  intros Hbad. cbn [for_lines].
  change (startsWith "data: " ("data: " ++ payload)) with true.
  unfold parse_frame at 1.
  change (slice 6 ("data: " ++ payload)) with payload.
  rewrite Hbad. now destruct (for_lines rest).
Qed.

Lemma one_line_data (payload : string) :
  Stream.one_line payload -> Stream.one_line ("data: " ++ payload).
Proof. unfold Stream.one_line. cbn. now intros ->. Qed.

End Lines.

Section Documents.
Context `{Platform}.
Import App Reading Processing.

Lemma pdf_for_lines_app (pdfFile : PendingPDF) (l1 l2 : list string)
      (st : State) :
  pdf_for_lines pdfFile (l1 ++ l2) st
  = match pdf_for_lines pdfFile l1 st with
    | (st', warned, App.Return c) => (st', warned, App.Return c)
    | (st', warned, Go) =>
        let '(st'', warned', next) := pdf_for_lines pdfFile l2 st' in
        (st'', warned ++ warned', next)
    end.
Proof.
  revert st. induction l1 as [|line l1 IH]; intros st; cbn [app pdf_for_lines].
  - destruct (pdf_for_lines pdfFile l2 st) as [[st' w] n]. reflexivity.
  - destruct (pdf_line pdfFile line st) as [[st1 w1] [|c]]; [|reflexivity].
    rewrite IH.
    destruct (pdf_for_lines pdfFile l1 st1) as [[st2 w2] [|c]]; [|reflexivity].
    destruct (pdf_for_lines pdfFile l2 st2) as [[st3 w3] n].
    now rewrite app_assoc.
Qed.

Lemma pdf_read_loop_concat (pdfFile : PendingPDF) (chunks : list (list byte)) :
  forall (decoder : decoder_state) (buffer : string) (st : State),
    split_nl buffer = [buffer] ->
    pdf_read_loop pdfFile decoder buffer (map Chunk chunks) st
    = pdf_read_loop pdfFile decoder buffer [Chunk (List.concat chunks)] st.
Proof.
  induction chunks as [|value chunks IH]; intros decoder buffer st Hbuf.
  - cbn [map List.concat pdf_read_loop decode]. rewrite append_nil_r, Hbuf.
    reflexivity.
  - cbn [map List.concat pdf_read_loop]. rewrite decode_app.
    destruct (decode decoder value) as [decoder1 decoded1].
    destruct (decode decoder1 (List.concat chunks)) as [decoder2 decoded2] eqn:D.
    rewrite <- (append_assoc buffer decoded1 decoded2).
    rewrite (lines_app (buffer ++ decoded1) decoded2), pdf_for_lines_app.
    rewrite (residual_app (buffer ++ decoded1) decoded2).
    destruct (pdf_for_lines pdfFile
                (removelast (split_nl (buffer ++ decoded1))) st)
      as [[st1 w1] [|c]]; [|reflexivity].
    rewrite (IH decoder1 _ st1 (residual_one_line (buffer ++ decoded1))).
    cbn [pdf_read_loop]. rewrite D.
    destruct (pdf_for_lines pdfFile _ st1) as [[st2 w2] [|c]];
      [now rewrite app_assoc | reflexivity].
Qed.

(** [processPDF] on a stream of complete lines: the loop over the lines;
    nothing is left for the final buffer. *)
Lemma processPDF_try_of_lines (pdfFile : PendingPDF) (lines : list string)
      (chunks : list (list byte)) (st : State) :
  Forall Stream.one_line lines ->
  Stream.decoded chunks = Stream.of_lines lines ->
  processPDF_try pdfFile (Stream.pdf_stream chunks) st
  = match pdf_for_lines pdfFile lines st with
    | (st', warned, App.Return c) => (st', warned, Returned c)
    | (st', warned, Go) => (st', warned, Returned None)
    end.
Proof.
  intros Hlines Hdec.
  unfold processPDF_try, Stream.pdf_stream, streaming.
  cbn [fileData response body].
  rewrite pdf_read_loop_concat by reflexivity.
  cbn [pdf_read_loop]. unfold Stream.decoded in Hdec.
  destruct (decode decoder_start (List.concat chunks)) as [d t].
  cbn [snd String.append] in *. subst t.
  pose proof (@split_nl_of_lines lines "" Hlines eq_refl) as Hsplit.
  rewrite append_nil_r in Hsplit.
  rewrite Hsplit, removelast_last, last_last.
  destruct (pdf_for_lines pdfFile lines st) as [[st' w] [|c]]; [|reflexivity].
  cbn. now rewrite !app_nil_r.
Qed.

(** A line whose payload cannot be parsed changes nothing. *)
Lemma pdf_line_corrupt (pdfFile : PendingPDF) (payload : string) (st : State) :
  JSON_parse (trim payload) = None ->
  exists warned,
    pdf_line pdfFile ("data: " ++ payload) st = (st, warned, Go).
Proof.
  intros Hbad. unfold pdf_line.
  change (startsWith "data: " ("data: " ++ payload)) with true.
  change (slice 6 ("data: " ++ payload)) with payload.
  cbv iota. destruct (String.eqb (trim payload) "[DONE]"); [now eexists|].
  destruct (negb (nonempty (trim payload))); [now eexists|].
  rewrite Hbad. now eexists.
Qed.

(** It is reported, with the first 200 code units of its payload. *)
Lemma pdf_line_warns (pdfFile : PendingPDF) (payload : string) (st : State) :
  JSON_parse (trim payload) = None ->
  trim payload <> "" ->
  trim payload <> "[DONE]" ->
  pdf_line pdfFile ("data: " ++ payload) st
  = (st, [ResponseWarning (substring 0 200 (trim payload))], Go).
Proof.
  intros Hbad Hempty Hdone. unfold pdf_line.
  change (startsWith "data: " ("data: " ++ payload)) with true.
  change (slice 6 ("data: " ++ payload)) with payload.
  cbv iota. apply String.eqb_neq in Hempty, Hdone.
  unfold nonempty. rewrite Hdone, Hempty. cbn [negb]. now rewrite Hbad.
Qed.

Lemma quiet_refl (st : State) : quiet st st.
Proof. now repeat split. Qed.

Lemma quiet_trans (a b c : State) : quiet a b -> quiet b c -> quiet a c.
Proof. unfold quiet. intuition congruence. Qed.

Lemma quiet_marked (id : string) (k : option json) (a b c : State) :
  quiet a b -> marked id k b c -> marked id k a c.
Proof. unfold quiet, marked. intuition congruence. Qed.

Lemma marked_quiet (id : string) (k : option json) (a b c : State) :
  marked id k a b -> quiet b c -> marked id k a c.
Proof. unfold quiet, marked. intuition congruence. Qed.

Lemma quiet_progress (p : PdfProcessing) (st : State) :
  quiet st (setPdfProcessing p st).
Proof. now repeat split. Qed.

Lemma is_string_other (v : option json) (a b : string) :
  is_string v a = true -> a <> b -> is_string v b = false.
Proof.
  unfold is_string. destruct v as [[| | |s| |]|]; try discriminate.
  intros Ha Hab. apply String.eqb_eq in Ha. subst s.
  now apply String.eqb_neq.
Qed.


(** A line changes the state only through the progress record, unless it
    carries a result event. *)
Lemma pdf_line_effect (pdfFile : PendingPDF) (line : string) (st : State) :
  match pdf_line pdfFile line st with
  | (st', _, Go) => quiet st st'
  | (st', _, App.Return c) => marked (pdf_id pdfFile) c st st'
  end.
Proof.
  unfold pdf_line.
  repeat match goal with
         | |- context [if ?c then _ else _] => destruct c
         | |- context [match JSON_parse ?d with _ => _ end] =>
             destruct (JSON_parse d) as [[]|]
         end;
    try apply quiet_refl; try apply quiet_progress; now repeat split.
Qed.

(** A line that carries a result event, and only such a line, makes the
    loop return. *)
Lemma pdf_line_result (pdfFile : PendingPDF) (line : string) (c : option json)
      (st : State) :
  result_line line c ->
  pdf_line pdfFile line st
  = (setPendingPDFs (mark_processed (pdf_id pdfFile) c) st, [], App.Return c).
Proof.
  intros (Hdata & Hdone & Hempty & parsed & Hparse & Htype & Hc).
  unfold pdf_line. rewrite Hdata.
  apply String.eqb_neq in Hdone, Hempty. rewrite Hdone.
  unfold nonempty. rewrite Hempty. cbn [negb]. rewrite Hparse.
  assert (Hprogress : is_string (get "type" parsed) "progress" = false)
    by (apply (is_string_other _ Htype); discriminate).
  destruct parsed; try discriminate.
  rewrite Hprogress, Htype, Hc. reflexivity.
Qed.

Lemma pdf_line_returns (pdfFile : PendingPDF) (line : string) (st st' : State)
      (warned : list pdf_warning) (c : option json) :
  pdf_line pdfFile line st = (st', warned, App.Return c) ->
  result_line line c.
Proof.
  unfold pdf_line, result_line.
  destruct (startsWith "data: " line); [|discriminate].
  destruct (String.eqb _ "[DONE]") eqn:Hdone; [discriminate|].
  unfold nonempty.
  destruct (String.eqb (trim (slice 6 line)) "") eqn:Hempty; [discriminate|].
  cbn [negb]. apply String.eqb_neq in Hdone, Hempty.
  destruct (JSON_parse _) as [parsed|]; [|discriminate].
  destruct parsed; try discriminate;
    try (cbn; discriminate).
  destruct (is_string _ "progress"); [discriminate|].
  destruct (is_string _ "result") eqn:Htype.
  - intros [= _ _ <-]. repeat split; try assumption.
    eexists. repeat split; eassumption.
  - destruct (is_string _ "error"); discriminate.
Qed.

Lemma pdf_for_lines_effect (pdfFile : PendingPDF) (lines : list string) :
  forall st : State,
    match pdf_for_lines pdfFile lines st with
    | (st', _, Go) => quiet st st'
    | (st', _, App.Return c) => marked (pdf_id pdfFile) c st st'
    end.
Proof.
  induction lines as [|line lines IH]; intros st; cbn [pdf_for_lines].
  - apply quiet_refl.
  - pose proof (pdf_line_effect pdfFile line st) as H1.
    destruct (pdf_line pdfFile line st) as [[st1 w1] [|c]]; [|exact H1].
    specialize (IH st1).
    destruct (pdf_for_lines pdfFile lines st1) as [[st2 w2] [|c]].
    + eapply quiet_trans; eassumption.
    + eapply quiet_marked; eassumption.
Qed.

Lemma pdf_read_loop_effect (pdfFile : PendingPDF)
      (reads : list ChatAPI.read_result) :
  forall (decoder : decoder_state) (buffer : string) (st : State),
    match pdf_read_loop pdfFile decoder buffer reads st with
    | (st', _, Left c) => marked (pdf_id pdfFile) c st st'
    | (st', _, _) => quiet st st'
    end.
Proof.
  induction reads as [|[value|e] reads IH]; intros decoder buffer st;
    cbn [pdf_read_loop]; try apply quiet_refl.
  destruct (decode decoder value) as [decoder' chunk].
  pose proof (pdf_for_lines_effect pdfFile
                (removelast (split_nl (buffer ++ chunk))) st) as H1.
  destruct (pdf_for_lines pdfFile _ st) as [[st1 w1] [|c]]; [|exact H1].
  specialize (IH decoder' (last (split_nl (buffer ++ chunk)) "") st1).
  destruct (pdf_read_loop pdfFile decoder' _ reads st1) as [[st2 w2] [b|c|e]].
  - eapply quiet_trans; eassumption.
  - eapply quiet_marked; eassumption.
  - eapply quiet_trans; eassumption.
Qed.

Lemma final_buffer_effect (pdfFile : PendingPDF) (buffer : string)
      (st : State) :
  match final_buffer pdfFile buffer st with
  | (st', _, Returned c) =>
      quiet st st' \/ marked (pdf_id pdfFile) c st st'
  | (st', _, Threw _) => False
  end.
Proof.
  unfold final_buffer.
  repeat match goal with
         | |- context [if ?c then _ else _] => destruct c
         | |- context [match JSON_parse ?d with _ => _ end] =>
             destruct (JSON_parse d) as [[]|]
         end;
    try (left; apply quiet_refl).
  all: right; now repeat split.
Qed.

Lemma processPDF_try_effect (pdfFile : PendingPDF) (net : pdf_transport)
      (st : State) :
  match processPDF_try pdfFile net st with
  | (st', _, Returned c) =>
      quiet st st' \/ marked (pdf_id pdfFile) c st st'
  | (st', _, Threw _) => quiet st st'
  end.
Proof.
  unfold processPDF_try.
  destruct (fileData net); [|apply quiet_refl].
  destruct (response net) as [e|r]; [apply quiet_refl|].
  destruct (ChatAPI.body r) as [reads|]; [|apply quiet_refl].
  pose proof (pdf_read_loop_effect pdfFile reads decoder_start "" st) as H1.
  destruct (pdf_read_loop pdfFile decoder_start "" reads st)
    as [[st1 w1] [buffer|c|e]]; [|now right|exact H1].
  pose proof (final_buffer_effect pdfFile buffer st1) as H2.
  destruct (final_buffer pdfFile buffer st1) as [[st2 w2] [c|e]];
    [|contradiction].
  destruct H2 as [H2 | H2].
  - left. eapply quiet_trans; eassumption.
  - right. eapply quiet_marked; eassumption.
Qed.

Lemma processPDF_effect (pdfFile : PendingPDF) (net : pdf_transport)
      (now : Z) (st : State) :
  let '(st', _, o) := processPDF pdfFile net now st in
  pdfProcessing st' = idle
  /\ match o with
     | Returned c => quiet st st' \/ marked (pdf_id pdfFile) c st st'
     | Threw e => quiet (showToast (failure_toast pdfFile e now) st) st'
     end.
Proof.
  unfold processPDF.
  match goal with
  | |- context [processPDF_try pdfFile net ?s] =>
      pose proof (processPDF_try_effect pdfFile net s) as H1;
      destruct (processPDF_try pdfFile net s) as [[st1 w1] o]
  end.
  split; [reflexivity|].
  destruct o as [c|e].
  - destruct H1 as [H1 | H1]; [left | right];
      unfold quiet, marked in *; cbn in *; intuition.
  - unfold quiet in *; cbn in *; intuition.
Qed.

(** A line that carries a progress event sets the progress record. *)
Lemma pdf_line_progress (pdfFile : PendingPDF) (line : string)
      (p : PdfProcessing) (st : State) :
  progress_line line p ->
  pdf_line pdfFile line st = (setPdfProcessing p st, [], Go).
Proof.
  intros (Hdata & Hdone & Hempty & parsed & Hparse & Htype & ->).
  unfold pdf_line. rewrite Hdata.
  apply String.eqb_neq in Hdone, Hempty. rewrite Hdone.
  unfold nonempty. rewrite Hempty. cbn [negb]. rewrite Hparse.
  destruct parsed; try discriminate.
  now rewrite Htype.
Qed.

Lemma pdf_for_lines_go (pdfFile : PendingPDF) (lines : list string) :
  forall st : State,
    Forall (fun l => forall k, ~ result_line l k) lines ->
    exists st' warned,
      pdf_for_lines pdfFile lines st = (st', warned, Go) /\ quiet st st'.
Proof.
  induction lines as [|line lines IH]; intros st Hno; cbn [pdf_for_lines].
  - exists st, []. split; [reflexivity | apply quiet_refl].
  - inversion Hno as [|x l Hline Hrest]; subst.
    pose proof (pdf_line_effect pdfFile line st) as H1.
    destruct (pdf_line pdfFile line st) as [[st1 w1] [|c]] eqn:E.
    + destruct (IH st1 Hrest) as (st2 & w2 & E2 & Hq).
      rewrite E2. exists st2, (w1 ++ w2). split; [reflexivity|].
      eapply quiet_trans; eassumption.
    + exfalso. exact (Hline c (pdf_line_returns _ _ _ E)).
Qed.

End Documents.

(** C3.  A line whose payload is not JSON does not stop the decoder.  In a
    stream of complete lines, cut into chunks in any way, [streamChat]
    yields the frames it yields when the line is not there; when the line
    stands between two frame lines, the first of which does not end the
    stream, both frames are yielded in order, with one warning for the
    line between them.  The document stream of [processPDF] is read the
    same way.  The state and the result are those of the stream without
    the line; when no [result] event comes before the line, the warnings
    are those of the stream without the line and one more, which carries
    the first 200 code units of the payload; and when the line stands
    between a [progress] event and a [result] event, the [try] block ends
    with the progress record of the first event set, the document marked
    as processed with the chunks of the second, which are returned, and
    that one warning. *)
Theorem malformed_line_is_not_fatal `{Platform}
        (before after : list string) (payload : string)
        (chunks chunks' : list (list byte)) (now : string) :
  Forall Stream.one_line before ->
  Stream.one_line payload ->
  Forall Stream.one_line after ->
  JSON_parse payload = None ->
  Stream.decoded chunks
  = Stream.of_lines (before ++ ("data: " ++ payload)%string :: after) ->
  Stream.decoded chunks' = Stream.of_lines (before ++ after) ->
  frames (fst (streamChat (streaming chunks) now))
  = frames (fst (streamChat (streaming chunks') now))
  /\ (forall (p1 p2 : string) (f1 f2 : json),
         before = ["data: " ++ p1]%string ->
         after = ["data: " ++ p2]%string ->
         parse_frame ("data: " ++ p1) = Some f1 ->
         is_terminal f1 = false ->
         parse_frame ("data: " ++ p2) = Some f2 ->
         fst (streamChat (streaming chunks) now)
         = [Yield f1; Warn ("data: " ++ payload); Yield f2])
  /\ (JSON_parse (trim payload) = None ->
      forall (pdfFile : App.PendingPDF) (t : Z) (st : App.State),
        (let '(st1, _, o1) :=
           App.processPDF pdfFile (Stream.pdf_stream chunks) t st in
         let '(st2, _, o2) :=
           App.processPDF pdfFile (Stream.pdf_stream chunks') t st in
         st1 = st2 /\ o1 = o2)
        /\ (trim payload <> "" ->
            trim payload <> "[DONE]" ->
            (Forall (fun l => forall k, ~ Reading.result_line l k) before ->
             exists wa wb : list App.pdf_warning,
               snd (fst (App.processPDF pdfFile (Stream.pdf_stream chunks') t st))
               = wa ++ wb
               /\ snd (fst (App.processPDF pdfFile (Stream.pdf_stream chunks) t st))
                  = wa ++ App.ResponseWarning (substring 0 200 (trim payload))
                       :: wb)
            /\ forall (p1 p2 : string) (p : App.PdfProcessing)
                      (c : option json),
                before = ["data: " ++ p1]%string ->
                after = ["data: " ++ p2]%string ->
                Reading.progress_line ("data: " ++ p1) p ->
                Reading.result_line ("data: " ++ p2) c ->
                App.processPDF_try pdfFile (Stream.pdf_stream chunks) st
                = (App.setPendingPDFs
                     (App.mark_processed (App.pdf_id pdfFile) c)
                     (App.setPdfProcessing p st),
                   [App.ResponseWarning (substring 0 200 (trim payload))],
                   App.Returned c)
                /\ App.processPDF pdfFile (Stream.pdf_stream chunks) t st
                   = (App.setPdfProcessing App.idle
                        (App.setPendingPDFs
                           (App.mark_processed (App.pdf_id pdfFile) c) st),
                      [App.ResponseWarning (substring 0 200 (trim payload))],
                      App.Returned c))).
Proof.
  intros Hbefore Hpayload Hafter Hbad Hdec Hdec'.
  assert (Hall : Forall Stream.one_line
                   (before ++ ("data: " ++ payload)%string :: after)).
  { apply Forall_app. split; [assumption|].
    constructor; [now apply one_line_data | assumption]. }
  assert (Hall' : Forall Stream.one_line (before ++ after)).
  { apply Forall_app. now split. }
  rewrite (streamChat_of_lines chunks now Hall Hdec).
  rewrite (streamChat_of_lines chunks' now Hall' Hdec').
  cbn [fst]. split; [|split].
  - rewrite !for_lines_app.
    destruct (for_lines before) as [out [|]]; [|reflexivity].
    rewrite (for_lines_corrupt payload _ Hbad).
    destruct (for_lines after) as [out' fl]. cbn [fst snd].
    now rewrite !frames_app.
  - intros p1 p2 f1 f2 -> -> H1 Hnt H2.
    cbn [app].
    rewrite (for_lines_frame _ _ H1), Hnt, (for_lines_corrupt payload _ Hbad).
    cbn [fst snd].
    rewrite (for_lines_frame _ _ H2). now destruct (is_terminal f2).
  - intros Hbad' pdfFile t st. split; [|intros Hempty Hdone; split].
    + unfold App.processPDF.
      rewrite (processPDF_try_of_lines pdfFile chunks _ Hall Hdec).
      rewrite (processPDF_try_of_lines pdfFile chunks' _ Hall' Hdec').
      rewrite !pdf_for_lines_app.
      destruct (App.pdf_for_lines pdfFile before _) as [[st1 w1] [|c]];
        [|now split].
      cbn [App.pdf_for_lines].
      destruct (pdf_line_corrupt pdfFile payload st1 Hbad') as [w ->].
      destruct (App.pdf_for_lines pdfFile after st1) as [[st2 w2] [|c]];
        now split.
    + intros Hquiet. unfold App.processPDF.
      rewrite (processPDF_try_of_lines pdfFile chunks _ Hall Hdec).
      rewrite (processPDF_try_of_lines pdfFile chunks' _ Hall' Hdec').
      rewrite !pdf_for_lines_app.
      match goal with
      | |- context [App.pdf_for_lines pdfFile before ?s] =>
          destruct (pdf_for_lines_go pdfFile s Hquiet) as (st1 & w1 & E1 & _)
      end.
      rewrite E1. cbn [App.pdf_for_lines].
      rewrite (pdf_line_warns pdfFile payload st1 Hbad' Hempty Hdone).
      destruct (App.pdf_for_lines pdfFile after st1) as [[st2 w2] [|c]];
        exists w1, w2; split; reflexivity.
    + intros p1 p2 p c -> -> Hp Hc.
      assert (Htry : forall s : App.State,
                 App.processPDF_try pdfFile (Stream.pdf_stream chunks) s
                 = (App.setPendingPDFs
                      (App.mark_processed (App.pdf_id pdfFile) c)
                      (App.setPdfProcessing p s),
                    [App.ResponseWarning (substring 0 200 (trim payload))],
                    App.Returned c)).
      { intros s.
        rewrite (processPDF_try_of_lines pdfFile chunks _ Hall Hdec).
        cbn [app App.pdf_for_lines].
        rewrite (pdf_line_progress pdfFile s Hp).
        rewrite (pdf_line_warns pdfFile payload _ Hbad' Hempty Hdone).
        rewrite (pdf_line_result pdfFile _ Hc). reflexivity. }
      split; [apply Htry|].
      unfold App.processPDF. rewrite Htry. reflexivity.
Qed.

(** C3, on a stream cut in the middle of its lines, and on a document
    stream with a line that is not JSON between a progress event and the
    result. *)
Lemma malformed_line_is_not_fatal_witness :
  @streamChat Sample.platform
    (streaming
       [Sample.bytes ("data: " ++ Sample.stringify (Sample.delta "Hel"));
        Sample.bytes (Stream.nl ++ "data: {ty");
        Sample.bytes ("pe:" ++ Stream.nl ++ "data: "
                        ++ Sample.stringify Sample.complete ++ Stream.nl)])
    "2026-01-01T00:00:00.000Z"
  = ([Yield (Sample.delta "Hel"); Warn "data: {type:"; Yield Sample.complete],
     Normal)
  /\ @App.processPDF Sample.platform Sample.pending_report
       (Stream.pdf_stream
          [Sample.bytes ("data: " ++ Sample.stringify Sample.progress_load);
           Sample.bytes (Stream.nl ++ "data: {ty");
           Sample.bytes ("pe:" ++ Stream.nl ++ "data: "
                           ++ Sample.stringify Sample.result_one_chunk
                           ++ Stream.nl)])
       1700000000950
       (App.setPendingPDFs (fun _ => [Sample.pending_report]) App.initial)
     = (App.setPendingPDFs (fun _ => [Sample.staged_report]) App.initial,
        [App.ResponseWarning "{type:"],
        App.Returned (get "chunks" Sample.result_one_chunk)).
Proof.
  split.
  - pose proof
      (@malformed_line_is_not_fatal Sample.platform
         ["data: " ++ Sample.stringify (Sample.delta "Hel")]%string
         ["data: " ++ Sample.stringify Sample.complete]%string
         "{type:"
         [Sample.bytes ("data: " ++ Sample.stringify (Sample.delta "Hel"));
          Sample.bytes (Stream.nl ++ "data: {ty");
          Sample.bytes ("pe:" ++ Stream.nl ++ "data: "
                          ++ Sample.stringify Sample.complete ++ Stream.nl)]
         [Sample.bytes (Sample.data_line (Sample.stringify (Sample.delta "Hel"))
                          ++ Sample.data_line (Sample.stringify Sample.complete))]
         "2026-01-01T00:00:00.000Z") as W.
    destruct W as [_ [W _]].
    + repeat constructor.
    + reflexivity.
    + repeat constructor.
    + reflexivity.
    + reflexivity.
    + reflexivity.
    + specialize (W (Sample.stringify (Sample.delta "Hel"))
                    (Sample.stringify Sample.complete)
                    (Sample.delta "Hel") Sample.complete
                    eq_refl eq_refl eq_refl eq_refl eq_refl).
      apply injective_projections; [exact W | reflexivity].
  - pose proof
      (@malformed_line_is_not_fatal Sample.platform
         ["data: " ++ Sample.stringify Sample.progress_load]%string
         ["data: " ++ Sample.stringify Sample.result_one_chunk]%string
         "{type:"
         [Sample.bytes ("data: " ++ Sample.stringify Sample.progress_load);
          Sample.bytes (Stream.nl ++ "data: {ty");
          Sample.bytes ("pe:" ++ Stream.nl ++ "data: "
                          ++ Sample.stringify Sample.result_one_chunk
                          ++ Stream.nl)]
         [Sample.bytes (Sample.data_line (Sample.stringify Sample.progress_load)
                          ++ Sample.data_line
                               (Sample.stringify Sample.result_one_chunk))]
         "2026-01-01T00:00:00.000Z") as W.
    destruct W as [_ [_ W]].
    + repeat constructor.
    + reflexivity.
    + repeat constructor.
    + reflexivity.
    + reflexivity.
    + reflexivity.
    + destruct (W eq_refl Sample.pending_report 1700000000950
                  (App.setPendingPDFs (fun _ => [Sample.pending_report])
                                      App.initial))
        as (_ & W').
      destruct W' as (_ & W'); try discriminate.
      destruct (W' (Sample.stringify Sample.progress_load)
                   (Sample.stringify Sample.result_one_chunk)
                   {| App.isProcessing := true; App.progress := JNum 40;
                      App.step := JStr "load";
                      App.message := JStr "Loading document" |}
                   (get "chunks" Sample.result_one_chunk)
                   eq_refl eq_refl) as (_ & W'').
      * repeat split; try discriminate.
        exists Sample.progress_load. now repeat split.
      * repeat split; try discriminate.
        exists Sample.result_one_chunk. now repeat split.
      * exact W''.
Defined.

(** C10.  [streamChat] never throws: whatever the transport does, the
    generator ends normally.  Every transport failure (connection refused,
    a status that is not a success, a response without readable body, a
    read that fails in mid-stream) shows as one frame of type [error], the
    last one yielded, that carries the message and the time; no frame
    before it is an [error] or a [message_complete] frame. *)
Theorem streamChat_never_throws `{Platform}
        (net : fetch_result) (now : string) :
  snd (streamChat net now) = Normal
  /\ forall e : thrown,
      Stream.failure net e ->
      exists pre : list effect,
        fst (streamChat net now) = pre ++ [Yield (error_frame e now)]
        /\ Forall (fun d => is_terminal d = false) (frames pre)
        /\ get "type" (error_frame e now) = Some (JStr "error")
        /\ get "error" (error_frame e now) = Some (JStr (error_message e))
        /\ get "timestamp" (error_frame e now) = Some (JStr now).
Proof.
  split.
  - unfold streamChat. now destruct (streamChat_try net) as [out [|e]].
  - intros e Hfail.
    assert (Htry : exists pre, streamChat_try net = (pre, Throws e)
                   /\ Forall (fun d => is_terminal d = false) (frames pre)).
    { destruct Hfail as [e | r t Hok Ht | r e Hok Ht | r Hok Hb
                         | r chunks e rest Hok Hb Hall];
        unfold streamChat_try; try rewrite Hok; cbn [negb].
      - now exists [].
      - rewrite Ht. now exists [].
      - rewrite Ht. now exists [].
      - rewrite Hb. now exists [].
      - rewrite Hb, (@read_loop_read_error _ chunks e rest decoder_start "" Hall).
        eauto. }
    destruct Htry as [pre [Htry Hpre]].
    exists pre. unfold streamChat. rewrite Htry. now repeat split.
Qed.

(** C10, when the connection is refused. *)
Lemma streamChat_never_throws_witness :
  Stream.failure (H := Sample.platform)
                 (Rejected (JsError "Failed to fetch"))
                 (JsError "Failed to fetch")
  /\ exists pre : list effect,
      fst (@streamChat Sample.platform (Rejected (JsError "Failed to fetch"))
                       "2026-01-01T00:00:00.000Z")
      = pre ++ [Yield (JObj [("type", JStr "error");
                             ("error", JStr "Failed to fetch");
                             ("timestamp", JStr "2026-01-01T00:00:00.000Z")])].
Proof.
  split; [constructor|].
  destruct (@streamChat_never_throws Sample.platform
              (Rejected (JsError "Failed to fetch"))
              "2026-01-01T00:00:00.000Z") as [_ W].
  destruct (W (JsError "Failed to fetch")
              (Stream.connection_refused (JsError "Failed to fetch")))
    as [pre [W' _]].
  exists pre. exact W'.
Defined.

(** C2.  A stream that ends without a final line feed: [streamChat]
    leaves its loop with the last line still in [buffer] and yields
    nothing for it, although the same line followed by a line feed is
    yielded; [processPDF] reads its final buffer and returns the chunks of
    an unterminated [result] line. *)
Theorem streamChat_drops_unterminated_frame :
  @streamChat Sample.platform
    (streaming [Sample.bytes ("data: " ++ Sample.stringify Sample.complete)])
    "2026-01-01T00:00:00.000Z"
  = ([], Normal)
  /\ @streamChat Sample.platform
       (streaming
          [Sample.bytes (Sample.data_line (Sample.stringify Sample.complete))])
       "2026-01-01T00:00:00.000Z"
     = ([Yield Sample.complete], Normal)
  /\ snd (@App.processPDF Sample.platform Sample.pending_report
            (Stream.pdf_stream
               [Sample.bytes
                  ("data: " ++ Sample.stringify Sample.result_one_chunk)])
            1700000000950
            (App.setPendingPDFs (fun _ => [Sample.pending_report]) App.initial))
     = App.Returned (get "chunks" Sample.result_one_chunk).
Proof. repeat split. Qed.

End ChatAPIFacts.

(* ===================================================================== *)
(** * From the gate of a send to its request *)
(* ===================================================================== *)

Module RequestFacts.
Import JS MessageBubble App Conversation Exchange Send Sending Processing.
Import StringFacts ChatAPIFacts.

Lemma handleSend_passes (clock : SendClock) (st : State) :
  handleSend_returns st = false ->
  handleSend clock st
  = (streaming_state clock (messages st ++ [user_message clock st]) "" st,
     Some (session clock st "")).
Proof.
  intros Hgate. unfold handleSend. rewrite Hgate. reflexivity.
Qed.

(** An update by id reaches one message alone when no other message has
    the id. *)
Lemma update_one (aid : string) (f : Message -> Message)
      (pre post : list Message) (msg : Message) :
  Forall (fun m => id m <> aid) pre ->
  Forall (fun m => id m <> aid) post ->
  id msg = aid ->
  update_message aid f (pre ++ msg :: post) = pre ++ f msg :: post.
Proof.
  intros Hpre Hpost Hid.
  assert (Hkeep : forall l, Forall (fun m => id m <> aid) l ->
                            map (fun m => if String.eqb (id m) aid then f m
                                          else m) l = l).
  { induction 1 as [|m l Hm _ IH]; [reflexivity|].
    cbn [map]. rewrite IH. apply String.eqb_neq in Hm. now rewrite Hm. }
  unfold update_message. rewrite map_app. cbn [map].
  rewrite Hid, String.eqb_refl.
  now rewrite (Hkeep pre Hpre), (Hkeep post Hpost).
Qed.

Section Requests.
Context `{Platform} `{Engine}.

Lemma no_null (items : list json) :
  Forall (fun chunk => chunk <> JNull) items ->
  existsb (fun chunk => match chunk with JNull => true | _ => false end) items
  = false.
Proof.
  induction 1 as [|chunk items Hchunk _ IH]; [reflexivity|].
  cbn [existsb]. rewrite IH. now destruct chunk.
Qed.

Lemma preprocessed_ready (document : PendingPDF) (items : list json) :
  ready document items -> preprocessed document = true.
Proof.
  intros (Hp & Hc & Hne & _). unfold preprocessed. rewrite Hp, Hc.
  cbn [truthy andb]. unfold length_gt_zero. cbn [length_of].
  destruct items; [contradiction | reflexivity].
Qed.

(** The loop over documents that are all ready: nothing is processed,
    nothing is thrown, the state is not touched, and the chunks are
    collected in the order of the documents. *)
Lemma collect_ready (env : nat -> Retry) (pdfs : list PendingPDF)
      (itemss : list (list json)) :
  Forall2 ready pdfs itemss ->
  forall (i : nat) (all : list json) (st : State),
    collect env i pdfs all st = (st, inr (all ++ List.concat itemss)).
Proof.
  induction 1 as [|document items pdfs itemss Hready _ IH];
    intros i all st; cbn [collect List.concat].
  - now rewrite app_nil_r.
  - rewrite (preprocessed_ready Hready).
    destruct Hready as (_ & Hc & _ & Hnull). rewrite Hc.
    unfold chunk_contents. rewrite (no_null Hnull).
    cbn [concat_chunks]. rewrite IH. now rewrite app_assoc.
Qed.

Lemma collect_app (env : nat -> Retry) (l1 l2 : list PendingPDF) :
  forall (i : nat) (all : list json) (st : State),
    collect env i (l1 ++ l2) all st
    = match collect env i l1 all st with
      | (st', inr all') => collect env (i + List.length l1) l2 all' st'
      | (st', inl e) => (st', inl e)
      end.
Proof.
  induction l1 as [|document l1 IH]; intros i all st.
  - cbn [app collect List.length]. now rewrite Nat.add_0_r.
  - cbn [app collect List.length].
    replace (i + S (List.length l1))%nat with (S i + List.length l1)%nat
      by lia.
    destruct (preprocessed document).
    + destruct (chunks document) as [c|]; [|apply IH].
      destruct (chunk_contents _ c); [reflexivity | apply IH].
    + destruct (processPDF document _ _ st) as [[st1 w] [[c|]|e]];
        try apply IH.
      destruct (truthy (Some c) && length_gt_zero c); [|apply IH].
      destruct (chunk_contents _ c); apply IH.
Qed.

(** What [handleSend] has built when [prepare] starts. *)
Lemma prepare_ready (settings : Settings) (env : nat -> Retry)
      (clock : SendClock) (st : State) (itemss : list (list json)) :
  Forall2 ready (pendingPDFs st) itemss ->
  prepare settings env st (session clock st "")
          (streaming_state clock (messages st ++ [user_message clock st]) "" st)
  = (streaming_state clock (messages st ++ [user_message clock st]) "" st,
     match previews (firstn 2 (List.concat itemss)) with
     | Some e => inl e
     | None => inr (request_of settings st (List.concat itemss))
     end).
Proof.
  intros Hready. unfold prepare. cbn [pdfDocuments session].
  destruct (pendingPDFs st) as [|p l] eqn:E.
  - inversion Hready; subst. cbn [List.concat firstn previews].
    unfold request_of. reflexivity.
  - rewrite (collect_ready env Hready). cbn [app].
    destruct (previews _); reflexivity.
Qed.

Lemma report_failure_message
      (document : PendingPDF) (e : thrown) (r : Retry) (st : State) :
  report_failure document e r st
  = setMessages (fun prev => prev ++ [failure_message document e r])
                (setPendingPDFs (remove_pdf (pdf_id document)) st).
Proof. reflexivity. Qed.

(** [processPDF] leaves the input, the messages, the streaming flag and
    the staged images and audios as they are. *)
Lemma processPDF_keeps (pdfFile : PendingPDF) (net : pdf_transport) (now : Z)
      (st : State) :
  let st' := fst (fst (processPDF pdfFile net now st)) in
  inputValue st' = inputValue st
  /\ messages st' = messages st
  /\ isStreaming st' = isStreaming st
  /\ pendingImages st' = pendingImages st
  /\ pendingAudios st' = pendingAudios st.
Proof.
  pose proof (processPDF_effect pdfFile net now st) as Heff.
  destruct (processPDF pdfFile net now st) as [[st' w] o]. cbn [fst].
  destruct Heff as [_ Heff].
  destruct o as [c|e].
  - destruct Heff as [Hq | Hm]; unfold quiet, marked in *; intuition.
  - unfold quiet in Heff. cbn in Heff. intuition.
Qed.

(** The loop over the documents appends the reports of the documents it
    could not process, and touches nothing else of the conversation. *)
Lemma collect_shape (env : nat -> Retry) (pdfs : list PendingPDF) :
  forall (i : nat) (all : list json) (st : State),
    let st' := fst (collect env i pdfs all st) in
    inputValue st' = inputValue st
    /\ isStreaming st' = isStreaming st
    /\ pendingImages st' = pendingImages st
    /\ pendingAudios st' = pendingAudios st
    /\ exists reports : list Message,
        messages st' = messages st ++ reports
        /\ Forall (fun m => exists (document : PendingPDF) (e : thrown)
                                   (j : nat),
                       nth_error pdfs j = Some document
                       /\ preprocessed document = false
                       /\ m = failure_message document e (env (i + j)%nat))
                  reports.
Proof.
  induction pdfs as [|document rest IH]; intros i all st; cbv zeta.
  - cbn [collect fst]. repeat split. exists []. split; [|constructor].
    now rewrite app_nil_r.
  - assert (Hshift : forall (st0 : State) (all0 : list json)
                            (before : list Message),
               inputValue st0 = inputValue st ->
               isStreaming st0 = isStreaming st ->
               pendingImages st0 = pendingImages st ->
               pendingAudios st0 = pendingAudios st ->
               messages st0 = messages st ++ before ->
               Forall (fun m => exists (d : PendingPDF) (e : thrown) (j : nat),
                           nth_error (document :: rest) j = Some d
                           /\ preprocessed d = false
                           /\ m = failure_message d e (env (i + j)%nat))
                      before ->
               let st' := fst (collect env (S i) rest all0 st0) in
               inputValue st' = inputValue st
               /\ isStreaming st' = isStreaming st
               /\ pendingImages st' = pendingImages st
               /\ pendingAudios st' = pendingAudios st
               /\ exists reports : list Message,
                   messages st' = messages st ++ reports
                   /\ Forall (fun m => exists (d : PendingPDF) (e : thrown)
                                              (j : nat),
                                  nth_error (document :: rest) j = Some d
                                  /\ preprocessed d = false
                                  /\ m = failure_message d e (env (i + j)%nat))
                             reports).
    { intros st0 all0 before Hi Hs Himg Haud Hmsg Hbefore. cbv zeta.
      destruct (IH (S i) all0 st0)
        as (Hi' & Hs' & Himg' & Haud' & reports & Hmsg' & Hreports).
      repeat split; try congruence.
      exists (before ++ reports). split.
      - rewrite Hmsg', Hmsg. now rewrite app_assoc.
      - apply Forall_app. split; [exact Hbefore|].
        apply (Forall_impl _ (P := fun m => exists d e j,
                                     nth_error rest j = Some d
                                     /\ preprocessed d = false
                                     /\ m = failure_message d e
                                                            (env (S i + j)%nat)));
          [|exact Hreports].
        intros m (d & e & j & Hj & Hd & ->).
        exists d, e, (S j). repeat split; try assumption.
        now rewrite Nat.add_succ_r. }
    cbn [collect]. destruct (preprocessed document) eqn:Hpre.
    + destruct (chunks document) as [c|].
      * destruct (chunk_contents _ c).
        -- cbn [fst]. repeat split. exists []. split; [|constructor].
           now rewrite app_nil_r.
        -- apply (Hshift st _ []); try reflexivity;
             [now rewrite app_nil_r | constructor].
      * apply (Hshift st _ []); try reflexivity;
          [now rewrite app_nil_r | constructor].
    + pose proof (processPDF_keeps document (retry_net (env i))
                                   (retry_now (env i)) st) as Hkeep.
      destruct (processPDF document _ _ st) as [[st1 w] o].
      cbn [fst] in Hkeep.
      destruct Hkeep as (Hi & Hmsg & Hs & Himg & Haud).
      assert (Hquiet : forall all0 : list json,
                 let st' := fst (collect env (S i) rest all0 st1) in
                 inputValue st' = inputValue st
                 /\ isStreaming st' = isStreaming st
                 /\ pendingImages st' = pendingImages st
                 /\ pendingAudios st' = pendingAudios st
                 /\ exists reports : list Message,
                     messages st' = messages st ++ reports
                     /\ Forall (fun m => exists (d : PendingPDF) (e : thrown)
                                                (j : nat),
                                    nth_error (document :: rest) j = Some d
                                    /\ preprocessed d = false
                                    /\ m = failure_message d e
                                                           (env (i + j)%nat))
                               reports).
      { intros all0. apply (Hshift st1 all0 []); try assumption.
        - now rewrite app_nil_r.
        - constructor. }
      assert (Hfailed : forall (all0 : list json) (e : thrown),
                 let st' := fst (collect env (S i) rest all0
                                         (report_failure document e (env i) st1))
                 in
                 inputValue st' = inputValue st
                 /\ isStreaming st' = isStreaming st
                 /\ pendingImages st' = pendingImages st
                 /\ pendingAudios st' = pendingAudios st
                 /\ exists reports : list Message,
                     messages st' = messages st ++ reports
                     /\ Forall (fun m => exists (d : PendingPDF) (e : thrown)
                                                (j : nat),
                                    nth_error (document :: rest) j = Some d
                                    /\ preprocessed d = false
                                    /\ m = failure_message d e
                                                           (env (i + j)%nat))
                               reports).
      { intros all0 e.
        apply (Hshift _ all0 [failure_message document e (env i)]);
          rewrite ?report_failure_message; cbn; try assumption.
        - now rewrite Hmsg.
        - constructor; [|constructor].
          exists document, e, 0%nat. rewrite Nat.add_0_r. now repeat split. }
      destruct o as [[c|]|e]; try apply Hquiet; try apply Hfailed.
      destruct (truthy (Some c) && length_gt_zero c); [|apply Hquiet].
      destruct (chunk_contents _ c); [apply Hfailed | apply Hquiet].
Qed.

(** A send that reaches the call of [streamChat]: the gate was passed,
    the input and the staged images and audios are cleared, the component
    is streaming, and the history is the one before the send followed by
    the user message, the assistant placeholder, and the reports of the
    documents that could not be processed. *)
Lemma request_shape (settings : Settings) (env : nat -> Retry)
      (clock : SendClock) (catch_now : Z) (st st1 : State) (s : Session)
      (request : ChatRequest) :
  handleSend_request settings env clock catch_now st
  = (st1, Some (s, request)) ->
  handleSend_returns st = false
  /\ s = session clock st ""
  /\ inputValue st1 = ""
  /\ isStreaming st1 = true
  /\ pendingImages st1 = []
  /\ pendingAudios st1 = []
  /\ exists reports : list Message,
      messages st1
      = messages st ++ [user_message clock st;
                        assistant_message clock "" [] true] ++ reports
      /\ reported env st reports.
Proof.
  unfold handleSend_request.
  destruct (handleSend_returns st) eqn:Hgate.
  { unfold handleSend. rewrite Hgate. discriminate. }
  rewrite (@handleSend_passes clock st Hgate).
  set (st0 := streaming_state clock
                (messages st ++ [user_message clock st]) "" st).
  unfold prepare. cbn [pdfDocuments session].
  destruct (pendingPDFs st) as [|p l] eqn:Hpdfs.
  - cbn [firstn previews]. intros [= <- <- _].
    repeat split. exists []. split; [|constructor].
    cbn. now rewrite <- app_assoc.
  - pose proof (collect_shape env (p :: l) 0 [] st0) as Hshape.
    destruct (collect env 0 (p :: l) [] st0) as [st2 [e|all]];
      [discriminate|].
    cbn [fst] in Hshape.
    destruct (previews (firstn 2 all)); [discriminate|].
    intros [= <- <- _].
    destruct Hshape as (Hi & Hs & Himg & Haud & reports & Hmsg & Hreports).
    repeat split; try assumption.
    exists reports. split.
    + rewrite Hmsg. cbn. now rewrite <- !app_assoc.
    + unfold reported. rewrite Hpdfs. exact Hreports.
Qed.

(** When every staged document is processed, nothing is reported. *)
Lemma reported_none (env : nat -> Retry) (st : State)
      (reports : list Message) :
  Forall (fun document => preprocessed document = true) (pendingPDFs st) ->
  reported env st reports ->
  reports = [].
Proof.
  intros Hall Hreports. destruct reports as [|m reports]; [reflexivity|].
  inversion Hreports as [|? ? (document & e & i & Hi & Hraw & _) _]; subst.
  apply nth_error_In in Hi.
  rewrite Forall_forall in Hall. rewrite (Hall _ Hi) in Hraw. discriminate.
Qed.

End Requests.

End RequestFacts.

(* ===================================================================== *)
(** * The orchestrator: send, stream, stop *)
(* ===================================================================== *)

Module AppFacts.
Import JS MessageBubble App Conversation Exchange Send Sending.
Import RequestFacts.

(** The gate of [handleSend], spelled out: the handler goes on exactly
    when nothing is streaming and there is text that is not blank, a
    staged image or a staged audio. *)
Lemma handleSend_gate (st : State) :
  handleSend_returns st = false
  <-> isStreaming st = false
      /\ (trim (inputValue st) <> "" \/ pendingImages st <> []
          \/ pendingAudios st <> []).
Proof.
  unfold handleSend_returns, nonempty.
  destruct (isStreaming st); [rewrite orb_true_r; intuition discriminate|].
  rewrite orb_false_r.
  destruct (String.eqb_spec (trim (inputValue st)) "") as [-> | Hne];
    destruct (pendingImages st) as [|img imgs];
    destruct (pendingAudios st) as [|a auds]; cbn;
    intuition (discriminate || congruence).
Qed.

(** A send that the gate refuses changes nothing and starts no loop. *)
Lemma handleSend_refused (clock : SendClock) (st : State) :
  handleSend_returns st = true -> handleSend clock st = (st, None).
Proof. unfold handleSend. now intros ->. Qed.

(** C4.  With one processed document staged, no text, no image, no audio
    and nothing streaming, the input bar lets the user send (Enter calls
    [onSend], the send button is enabled), and [handleSend] returns on its
    first line: the state is unchanged and no loop is started. *)
Theorem handleSend_ignores_staged_documents :
  InputBar.handleKeyDown_sends (InputBar.props_of Sample.only_a_document) = true
  /\ InputBar.send_disabled (InputBar.props_of Sample.only_a_document) = false
  /\ handleSend Sample.send_clock Sample.only_a_document
     = (Sample.only_a_document, None).
Proof. repeat split. Qed.

(* --------------------------------------------------------------------- *)
(** ** Accumulation of the deltas *)

Lemma nth_error_update (aid : string) (f : Message -> Message)
      (prev : list Message) (i : nat) :
  nth_error (update_message aid f prev) i
  = option_map (fun msg => if String.eqb (id msg) aid then f msg else msg)
               (nth_error prev i).
Proof. unfold update_message. apply nth_error_map. Qed.

(** One [content_delta] frame: the text block of the message of the loop
    is replaced by the text so far. *)
Lemma on_chunk_delta (chunk : StreamingResponse) (s : Session) (st : State)
      (i : nat) (msg : Message) :
  is_delta chunk ->
  nth_error (messages st) i = Some msg ->
  id msg = assistantMessageId s ->
  contentBlocks msg = [text_block (fullContent s)] ->
  exists (s' : Session) (st' : State),
    on_chunk chunk s st = (s', st', Next)
    /\ assistantMessageId s' = assistantMessageId s
    /\ fullContent s' = (fullContent s ++ delta_text chunk)%string
    /\ nth_error (messages st') i
       = Some (with_contentBlocks [text_block (fullContent s')] msg)
    /\ List.length (messages st') = List.length (messages st).
Proof.
  intros Hd Hi Hid Hblocks.
  assert (Hsame : with_contentBlocks [text_block (fullContent s)] msg = msg).
  { destruct msg; cbn in *. now subst. }
  unfold on_chunk, is_delta, delta_text in *. rewrite Hd.
  change (String.eqb "content_delta" "content_delta") with true.
  change (String.eqb "content_delta" "message_complete") with false.
  change (String.eqb "content_delta" "error") with false.
  cbn [andb].
  destruct (chunk_content chunk) as [c|]; [unfold nonempty|].
  - destruct (String.eqb_spec c "") as [-> | Hc]; cbn [negb].
    + exists s, st. rewrite StringFacts.append_nil_r, Hsame. auto.
    + eexists _, _. split; [reflexivity|]. cbn.
      rewrite nth_error_update, Hi. cbn. rewrite Hid, String.eqb_refl.
      unfold update_message. now rewrite length_map.
  - exists s, st. rewrite StringFacts.append_nil_r, Hsame. auto.
Qed.

(** Any number of [content_delta] frames. *)
Lemma run_deltas (chunks : list StreamingResponse) :
  forall (s : Session) (st : State) (i : nat) (msg : Message),
    Forall is_delta chunks ->
    nth_error (messages st) i = Some msg ->
    id msg = assistantMessageId s ->
    contentBlocks msg = [text_block (fullContent s)] ->
    exists (s' : Session) (st' : State),
      run (Some s, st) (map Frame chunks) = (Some s', st')
      /\ assistantMessageId s' = assistantMessageId s
      /\ fullContent s' = (fullContent s ++ deltas chunks)%string
      /\ nth_error (messages st') i
         = Some (with_contentBlocks [text_block (fullContent s')] msg)
      /\ List.length (messages st') = List.length (messages st).
Proof.
  induction chunks as [|chunk chunks IH]; intros s st i msg Hall Hi Hid Hblocks.
  - exists s, st. cbn. rewrite StringFacts.append_nil_r.
    repeat split; try reflexivity. rewrite Hi. f_equal.
    destruct msg; cbn in *. now subst.
  - inversion Hall as [|? ? Hd Hrest]; subst.
    destruct (on_chunk_delta s st i Hd Hi Hid Hblocks)
      as (s1 & st1 & Hstep & Hid1 & Hfull1 & Hi1 & Hlen1).
    destruct (IH s1 st1 i
                 (with_contentBlocks [text_block (fullContent s1)] msg)
                 Hrest Hi1)
      as (s2 & st2 & Hrun & Hid2 & Hfull2 & Hi2 & Hlen2).
    + cbn. now rewrite Hid1.
    + reflexivity.
    + exists s2, st2. cbn [map run fold_left on_event] in *.
      rewrite Hstep. repeat split.
      * exact Hrun.
      * congruence.
      * rewrite Hfull2, Hfull1. cbn [deltas].
        now rewrite StringFacts.append_assoc.
      * exact Hi2.
      * congruence.
Qed.

(** From a send that reaches the call of [streamChat] on: the
    placeholder stands after the user message, and the deltas accumulate
    in it. *)
Lemma send_then_deltas `{Platform} `{Engine}
      (settings : Settings) (env : nat -> Retry) (clock : SendClock)
      (catch_now : Z) (st st1 : State) (s : Session) (request : ChatRequest)
      (chunks : list StreamingResponse) :
  handleSend_request settings env clock catch_now st
  = (st1, Some (s, request)) ->
  Forall is_delta chunks ->
  exists (s' : Session) (st' : State),
    run (Some s, st1) (map Frame chunks) = (Some s', st')
    /\ nth_error (messages st') (List.length (messages st) + 1)
       = Some (assistant_message clock (deltas chunks) [] true)
    /\ assistantMessageId s = toString (assistant_now clock + 1)
    /\ fullContent s' = deltas chunks
    /\ List.length (messages st') = List.length (messages st1)
    /\ (Forall (fun document => preprocessed document = true)
               (pendingPDFs st) ->
        last_message st'
        = Some (assistant_message clock (deltas chunks) [] true)).
Proof.
  intros Hrequest Hall.
  destruct (request_shape _ _ _ _ _ Hrequest)
    as (Hgate & -> & _ & _ & _ & _ & reports & Hmsg & Hreports).
  assert (Hi : nth_error (messages st1) (List.length (messages st) + 1)
               = Some (assistant_message clock "" [] true)).
  { rewrite Hmsg, nth_error_app2 by lia.
    replace (List.length (messages st) + 1 - List.length (messages st))%nat
      with 1%nat by lia.
    reflexivity. }
  destruct (@run_deltas chunks (session clock st "") st1 _ _ Hall Hi
                        eq_refl eq_refl)
    as (s' & st' & Hrun & Hid & Hfull & Hi' & Hlen).
  cbn [fullContent session String.append] in Hfull.
  rewrite Hfull in Hi'.
  exists s', st'. repeat split; try assumption.
  intros Hready. rewrite (reported_none Hready Hreports) in Hmsg.
  unfold last_message. rewrite Hlen, Hmsg, length_app. cbn [List.length app].
  replace (List.length (messages st) + 2 - 1)%nat
    with (List.length (messages st) + 1)%nat by lia.
  exact Hi'.
Qed.

(** The world of the worked examples is the one [handleSend] reaches
    its loop with. *)
Lemma asked_is_sent :
  @handleSend_request Sample.platform Scenario.engine
    defaults Scenario.retry Sample.send_clock 1700000000002 Sample.question
  = (snd Sample.asked,
     option_map (fun s => (s, request_of defaults Sample.question []))
                (fst Sample.asked)).
Proof. reflexivity. Qed.

(** C6.  While the loop of a send runs, [content_delta] frames replace
    the text block of its assistant message by the text so far: wherever
    the message stands in the history, after the frames it holds one
    block, a text block whose content is what the loop had accumulated
    followed by the deltas, and nothing else of the message has changed.
    When [handleSend] has reached its call of [streamChat], whatever
    became of the staged documents on the way, the message is the
    placeholder, which stands right after the user message (and is the
    last message when every staged document was processed), and its text
    is the concatenation of the deltas received. *)
Theorem deltas_accumulate_in_one_block `{Platform} `{Engine}
        (chunks : list StreamingResponse) :
  Forall is_delta chunks ->
  (forall (s : Session) (st : State) (i : nat) (msg : Message),
      nth_error (messages st) i = Some msg ->
      id msg = assistantMessageId s ->
      contentBlocks msg = [text_block (fullContent s)] ->
      exists (s' : Session) (st' : State),
        run (Some s, st) (map Frame chunks) = (Some s', st')
        /\ fullContent s' = (fullContent s ++ deltas chunks)%string
        /\ nth_error (messages st') i
           = Some (with_contentBlocks
                     [text_block (fullContent s ++ deltas chunks)] msg)
        /\ List.length (messages st') = List.length (messages st))
  /\ (forall (settings : Settings) (env : nat -> Retry) (clock : SendClock)
             (catch_now : Z) (st st1 : State) (s : Session)
             (request : ChatRequest),
         handleSend_request settings env clock catch_now st
         = (st1, Some (s, request)) ->
         exists (s' : Session) (st' : State) (msg : Message),
           run (Some s, st1) (map Frame chunks) = (Some s', st')
           /\ nth_error (messages st') (List.length (messages st) + 1)
              = Some msg
           /\ id msg = assistantMessageId s
           /\ role msg = assistant
           /\ MessageBubble.isStreaming msg = Some true
           /\ contentBlocks msg = [text_block (deltas chunks)]
           /\ fullContent s' = deltas chunks
           /\ List.length (messages st') = List.length (messages st1)
           /\ (Forall (fun document => preprocessed document = true)
                      (pendingPDFs st) ->
               last_message st' = Some msg)).
Proof.
  intros Hall. split.
  - intros s st i msg Hi Hid Hblocks.
    destruct (@run_deltas chunks s st i msg Hall Hi Hid Hblocks)
      as (s' & st' & Hrun & _ & Hfull & Hi' & Hlen).
    exists s', st'. rewrite <- Hfull. auto.
  - intros settings env clock catch_now st st1 s request Hrequest.
    destruct (send_then_deltas _ _ _ _ _ Hrequest Hall)
      as (s' & st' & Hrun & Hi & Hid & Hfull & Hlen & Hlast).
    exists s', st', (assistant_message clock (deltas chunks) [] true).
    repeat split; try assumption. now rewrite Hid.
Qed.

(** C6, for a first send and two deltas, while a staged document that
    is not processed cannot be processed: the placeholder is followed by
    the report of the document. *)
Lemma deltas_accumulate_in_one_block_witness :
  Forall is_delta [Sample.delta_frame "Hel"; Sample.delta_frame "lo"]
  /\ exists (s' : Session) (st' : State) (msg : Message),
      run (Some (session Sample.send_clock Scenario.unprocessed ""),
           fst (@handleSend_request Sample.platform Scenario.engine
                  defaults Scenario.retry Sample.send_clock 1700000000002
                  Scenario.unprocessed))
          (map Frame [Sample.delta_frame "Hel"; Sample.delta_frame "lo"])
      = (Some s', st')
      /\ nth_error (messages st') 1 = Some msg
      /\ role msg = assistant
      /\ MessageBubble.isStreaming msg = Some true
      /\ contentBlocks msg = [text_block "Hello"]
      /\ fullContent s' = "Hello"
      /\ List.length (messages st') = 3%nat.
Proof.
  assert (Hall : Forall is_delta
                   [Sample.delta_frame "Hel"; Sample.delta_frame "lo"])
    by (repeat constructor).
  assert (Hrequest :
            @handleSend_request Sample.platform Scenario.engine
              defaults Scenario.retry Sample.send_clock 1700000000002
              Scenario.unprocessed
            = (fst (@handleSend_request Sample.platform Scenario.engine
                      defaults Scenario.retry Sample.send_clock 1700000000002
                      Scenario.unprocessed),
               Some (session Sample.send_clock Scenario.unprocessed "",
                     request_of defaults Scenario.unprocessed [])))
    by reflexivity.
  split; [exact Hall|].
  destruct (proj2 (@deltas_accumulate_in_one_block
                     Sample.platform Scenario.engine _ Hall)
                  _ _ _ _ _ _ _ _ Hrequest)
    as (s' & st' & msg & Hrun & Hi & _ & Hrole & Hflag & Hblocks & Hfull
        & Hlen & _).
  exists s', st', msg. repeat split; try assumption.
Defined.

(* --------------------------------------------------------------------- *)
(** ** Stop *)

Lemma update_message_Forall (P : Message -> Prop) (aid : string)
      (f : Message -> Message) (prev : list Message) :
  (forall msg, P msg -> P (f msg)) ->
  Forall P prev -> Forall P (update_message aid f prev).
Proof.
  intros Hf Hall. unfold update_message. apply Forall_map.
  apply (Forall_impl _ (P := P)); [|exact Hall].
  intros msg Hmsg. destruct (String.eqb (id msg) aid); auto.
Qed.

(** No frame and no stop sets a streaming flag. *)
Lemma on_event_none_streaming (w : world) (ev : event) :
  none_streaming (snd w) -> none_streaming (snd (on_event w ev)).
Proof.
  destruct w as [[s|] st], ev as [chunk|]; cbn [on_event snd];
    try easy; intros Hnone.
  - unfold on_chunk.
    destruct (_ && _).
    + cbn. now apply update_message_Forall.
    + destruct (String.eqb _ "message_complete").
      * cbn. now apply update_message_Forall.
      * destruct (String.eqb _ "error"); [|exact Hnone].
        cbn. now apply update_message_Forall.
  - unfold none_streaming, handleStop. cbn. apply Forall_map.
    now apply Forall_forall.
  - unfold none_streaming, handleStop. cbn. apply Forall_map.
    now apply Forall_forall.
Qed.

Lemma run_none_streaming (events : list event) (w : world) :
  none_streaming (snd w) -> none_streaming (snd (run w events)).
Proof.
  revert w. induction events as [|ev events IH]; intros w Hnone; [exact Hnone|].
  cbn [run fold_left]. apply IH. now apply on_event_none_streaming.
Qed.

Lemma handleStop_none_streaming (st : State) : none_streaming (handleStop st).
Proof.
  unfold none_streaming, handleStop. cbn. apply Forall_map.
  now apply Forall_forall.
Qed.

(** No frame and no stop sets the streaming flag of the component. *)
Lemma on_event_not_streaming (w : world) (ev : event) :
  isStreaming (snd w) = false -> isStreaming (snd (on_event w ev)) = false.
Proof.
  destruct w as [[s|] st], ev as [chunk|]; cbn [on_event snd];
    try easy; intros Hoff.
  unfold on_chunk.
  repeat match goal with
         | |- context [if ?c then _ else _] => destruct c
         end; cbn; auto.
Qed.

Lemma run_not_streaming (events : list event) (w : world) :
  isStreaming (snd w) = false -> isStreaming (snd (run w events)) = false.
Proof.
  revert w. induction events as [|ev events IH]; intros w Hoff; [exact Hoff|].
  cbn [run fold_left]. apply IH. now apply on_event_not_streaming.
Qed.

Lemma handleStop_contentBlocks (st : State) :
  map contentBlocks (messages (handleStop st)) = map contentBlocks (messages st).
Proof. unfold handleStop. cbn. rewrite map_map. reflexivity. Qed.

(** C5, as the claim has it, fails: a delta that arrives after the stop
    still changes the text of the stopped message. *)
Lemma late_delta_changes_stopped_message :
  Sample.answer (run Sample.asked [Frame (Sample.delta_frame "Hel"); Stop])
  = Some ["Hel"]
  /\ Sample.answer (run Sample.asked [Frame (Sample.delta_frame "Hel"); Stop;
                                      Frame (Sample.delta_frame "lo")])
     = Some ["Hello"].
Proof. split; reflexivity. Qed.

(** C5, amended.  The stop itself leaves the content of every message as
    it is and clears the streaming flag of the component and of every
    message; whatever frames and stops come later, the flag of the
    component and the flag of every message stay cleared.  The loop is not
    stopped: [content_delta] frames that arrive later are applied, and the
    text block of its message is the text accumulated before the stop
    followed by the late deltas. *)
Theorem stop_keeps_text_and_clears_flags
        (l : option Session) (st : State) (late : list event) :
  map contentBlocks (messages (handleStop st)) = map contentBlocks (messages st)
  /\ isStreaming (handleStop st) = false
  /\ none_streaming (handleStop st)
  /\ isStreaming (snd (run (l, handleStop st) late)) = false
  /\ none_streaming (snd (run (l, handleStop st) late))
  /\ forall (s : Session) (i : nat) (msg : Message)
            (chunks : list StreamingResponse),
      l = Some s ->
      late = map Frame chunks ->
      Forall is_delta chunks ->
      nth_error (messages st) i = Some msg ->
      id msg = assistantMessageId s ->
      contentBlocks msg = [text_block (fullContent s)] ->
      exists msg' : Message,
        nth_error (messages (snd (run (l, handleStop st) late))) i = Some msg'
        /\ MessageBubble.isStreaming msg' = Some false
        /\ contentBlocks msg'
           = [text_block (fullContent s ++ deltas chunks)].
Proof.
  split; [apply handleStop_contentBlocks|].
  split; [reflexivity|].
  split; [apply handleStop_none_streaming|].
  split; [now apply run_not_streaming|].
  split; [apply run_none_streaming, handleStop_none_streaming|].
  intros s i msg chunks -> -> Hall Hi Hid Hblocks.
  assert (Hi0 : nth_error (messages (handleStop st)) i
                = Some (with_isStreaming false msg)).
  { unfold handleStop. cbn. now rewrite nth_error_map, Hi. }
  destruct (@run_deltas chunks s (handleStop st) i
                        (with_isStreaming false msg) Hall Hi0 Hid Hblocks)
    as (s' & st' & Hrun & _ & Hfull & Hi' & _).
  rewrite Hrun. cbn [snd]. eexists. split; [exact Hi'|].
  split; [reflexivity|]. cbn. now rewrite Hfull.
Qed.

(** C5, amended, on the run of the counterexample. *)
Lemma stop_keeps_text_and_clears_flags_witness :
  exists msg' : Message,
    nth_error
      (messages
         (snd (run (fst (run Sample.asked [Frame (Sample.delta_frame "Hel")]),
                    handleStop
                      (snd (run Sample.asked
                                [Frame (Sample.delta_frame "Hel")])))
                   (map Frame [Sample.delta_frame "lo"])))) 1
    = Some msg'
    /\ MessageBubble.isStreaming msg' = Some false
    /\ contentBlocks msg' = [text_block "Hello"].
Proof.
  destruct (stop_keeps_text_and_clears_flags
              (fst (run Sample.asked [Frame (Sample.delta_frame "Hel")]))
              (snd (run Sample.asked [Frame (Sample.delta_frame "Hel")]))
              (map Frame [Sample.delta_frame "lo"]))
    as (_ & _ & _ & _ & _ & W).
  refine (W _ 1%nat _ [Sample.delta_frame "lo"] eq_refl eq_refl _
            eq_refl eq_refl eq_refl).
  repeat constructor.
Defined.

End AppFacts.

(* ===================================================================== *)
(** * The staging pipeline *)
(* ===================================================================== *)

Module StagingFacts.
Import JS App Send Component Staging.

(** C8.  A document whose processing stream delivers an [error] event:
    the document leaves the staging collection and the progress record is
    cleared, but the toast is still the one shown when the upload began;
    [processPDF] never reaches its own [catch], where the failure toast
    is.  When the request itself fails, that toast is shown. *)
Theorem error_event_raises_no_notification :
  (let st := @handleUploadPDFNew Sample.platform Sample.report
               (Stream.pdf_stream
                  [Sample.bytes
                     (Sample.data_line
                        (Sample.stringify (Sample.failure "OCR failed")))])
               Sample.upload_clock initial in
   pendingPDFs st = []
   /\ pdfProcessing st = idle
   /\ toast st = Some {| toast_id := "1700000000001"; toast_type := info;
                         title := "PDF Processing";
                         description := Some "Parsing report.pdf..." |})
  /\ (let st := @handleUploadPDFNew Sample.platform Sample.report
                  {| fileData := Some "data:application/pdf;base64,";
                     response := ChatAPI.Rejected (JsError "Failed to fetch") |}
                  Sample.upload_clock initial in
      pendingPDFs st = []
      /\ pdfProcessing st = idle
      /\ toast st
         = Some {| toast_id := "1700000000950"; toast_type := error;
                   title := "PDF Processing Failed";
                   description :=
                     Some "Error processing report.pdf: Failed to fetch" |}).
Proof. repeat split. Qed.

(* --------------------------------------------------------------------- *)
(** ** Staged ids *)

(** The decimal rendering of an integer determines it. *)
Lemma toString_inj (a b : Z) : toString a = toString b -> a = b.
Proof.
  unfold toString. intros E. apply DecimalZ.to_int_inj.
  assert (Hnn : forall z, Z.to_int z <> Decimal.Pos Decimal.Nil
                          /\ Z.to_int z <> Decimal.Neg Decimal.Nil).
  { intros [|p|p]; cbn; split; try discriminate;
      intros [= Hp]; exact (Unsigned.to_uint_nonnil p Hp). }
  apply (f_equal NilZero.int_of_string) in E.
  rewrite !NilZero.isi in E by apply Hnn.
  now injection E.
Qed.









Lemma mark_processed_ids (id : string) (c : option json) (prev : list PendingPDF) :
  map pdf_id (mark_processed id c prev) = map pdf_id prev.
Proof.
  unfold mark_processed. rewrite map_map. apply map_ext.
  intros pdf. now destruct (String.eqb (pdf_id pdf) id).
Qed.

Lemma same_ids_refl (st : State) : same_ids st st.
Proof. now repeat split. Qed.

Lemma same_ids_trans (a b c : State) :
  same_ids a b -> same_ids b c -> same_ids a c.
Proof. unfold same_ids. intuition congruence. Qed.


Lemma same_ids_marked (id : string) (c : option json) (st : State) :
  same_ids st (setPendingPDFs (mark_processed id c) st).
Proof. repeat split. cbn. apply mark_processed_ids. Qed.

Section Pipeline.
Context `{Platform}.

Ltac branches :=
  repeat match goal with
         | |- context [if ?c then _ else _] => destruct c
         | |- context [match JSON_parse ?d with _ => _ end] =>
             destruct (JSON_parse d) as [[]|]
         end;
  cbn [fst snd];
  auto using same_ids_refl, same_ids_marked.

Lemma pdf_line_same (pdfFile : PendingPDF) (line : string) (st : State) :
  same_ids st (fst (fst (pdf_line pdfFile line st))).
Proof. unfold pdf_line. branches; now repeat split. Qed.

Lemma pdf_for_lines_same (pdfFile : PendingPDF) (lines : list string) :
  forall st, same_ids st (fst (fst (pdf_for_lines pdfFile lines st))).
Proof.
  induction lines as [|line lines IH]; intros st; cbn [pdf_for_lines].
  - apply same_ids_refl.
  - pose proof (pdf_line_same pdfFile line st) as H1.
    destruct (pdf_line pdfFile line st) as [[st1 w1] [|c]]; [|exact H1].
    specialize (IH st1).
    destruct (pdf_for_lines pdfFile lines st1) as [[st2 w2] n].
    eapply same_ids_trans; eassumption.
Qed.

Lemma pdf_read_loop_same (pdfFile : PendingPDF) (reads : list ChatAPI.read_result) :
  forall decoder buffer st,
    same_ids st (fst (fst (pdf_read_loop pdfFile decoder buffer reads st))).
Proof.
  induction reads as [|[value|e] reads IH]; intros decoder buffer st;
    cbn [pdf_read_loop]; try apply same_ids_refl.
  destruct (decode decoder value) as [decoder' chunk].
  pose proof (pdf_for_lines_same pdfFile
                (removelast (split_nl (buffer ++ chunk))) st) as H1.
  destruct (pdf_for_lines pdfFile _ st) as [[st1 w1] [|c]]; [|exact H1].
  specialize (IH decoder' (last (split_nl (buffer ++ chunk)) "") st1).
  destruct (pdf_read_loop pdfFile decoder' _ reads st1) as [[st2 w2] e].
  eapply same_ids_trans; eassumption.
Qed.

Lemma final_buffer_same (pdfFile : PendingPDF) (buffer : string) (st : State) :
  same_ids st (fst (fst (final_buffer pdfFile buffer st))).
Proof. unfold final_buffer. branches. Qed.

Lemma processPDF_try_same (pdfFile : PendingPDF) (net : pdf_transport)
      (st : State) :
  same_ids st (fst (fst (processPDF_try pdfFile net st))).
Proof.
  unfold processPDF_try.
  destruct (fileData net); [|apply same_ids_refl].
  destruct (response net) as [e|r]; [apply same_ids_refl|].
  destruct (ChatAPI.body r) as [reads|]; [|apply same_ids_refl].
  pose proof (pdf_read_loop_same pdfFile reads decoder_start "" st) as H1.
  destruct (pdf_read_loop pdfFile decoder_start "" reads st)
    as [[st1 w1] [buffer|c|e]]; cbn [fst] in *; try exact H1.
  pose proof (final_buffer_same pdfFile buffer st1) as H2.
  destruct (final_buffer pdfFile buffer st1) as [[st2 w2] o].
  eapply same_ids_trans; eassumption.
Qed.

(** [processPDF] stages nothing and removes nothing. *)
Lemma processPDF_same (pdfFile : PendingPDF) (net : pdf_transport) (now : Z)
      (st : State) :
  same_ids st (fst (fst (processPDF pdfFile net now st))).
Proof.
  unfold processPDF.
  match goal with
  | |- context [processPDF_try pdfFile net ?s] =>
      pose proof (processPDF_try_same pdfFile net s) as H1;
      destruct (processPDF_try pdfFile net s) as [[st1 w1] o]
  end.
  cbn [fst] in *. destruct H1 as (H1 & H2 & H3). cbn in H1, H2, H3.
  destruct o; repeat split; cbn; assumption.
Qed.

End Pipeline.




Section Sends.
Context `{Platform} `{Engine}.



End Sends.




(** Whatever becomes of the document, the staged images and audios are
    left as they are. *)
Lemma handleUploadPDFNew_leaves_images_and_audios `{Platform}
      (file : File) (net : pdf_transport) (clock : UploadClock) (st : State) :
  pendingImages (handleUploadPDFNew file net clock st) = pendingImages st
  /\ pendingAudios (handleUploadPDFNew file net clock st) = pendingAudios st.
Proof.
  unfold handleUploadPDFNew.
  destruct (_ || _); [now split|].
  destruct (size file >? maxSize); [now split|].
  match goal with
  | |- context [processPDF ?p net ?t ?s] =>
      pose proof (processPDF_same p net t s) as Hsame;
      destruct (processPDF p net t s) as [[st2 warned] o]
  end.
  cbn [fst] in Hsame. destruct Hsame as (Himg & _ & Haud).
  cbn in Himg, Haud.
  destruct o as [[c|]|e]; try (now split).
  destruct (truthy (Some c) && length_gt_zero c); now split.
Qed.






End StagingFacts.

(* ===================================================================== *)
(** * The citation resolver *)
(* ===================================================================== *)

Module MessageBubbleFacts.
Import JS MessageBubble Citations StringFacts.
Local Open Scope string_scope.

Lemma digits_of_number (digits rest : string) :
  digits_of digits = (digits, EmptyString) ->
  (rest = EmptyString \/ exists c rest', rest = String c rest' /\ is_digit c = false) ->
  digits_of (digits ++ rest) = (digits, rest).
Proof.
  revert rest. induction digits as [|d digits IH]; intros rest Hd Hrest.
  - cbn. destruct Hrest as [-> | (c & rest' & -> & Hc)]; [reflexivity|].
    cbn. now rewrite Hc.
  - cbn in *. destruct (is_digit d); [|discriminate].
    destruct (digits_of digits) as [ds r] eqn:E.
    injection Hd as -> ->. now rewrite (IH rest eq_refl Hrest).
Qed.

(** A marker is found where it stands. *)
Lemma marker_at_marker (digits rest : string) :
  is_number digits ->
  marker_at (part_of (Marker digits) ++ rest) = Some digits.
Proof.
  intros [Hne Hd]. cbn [part_of String.append marker_at].
  rewrite append_assoc.
  rewrite (@digits_of_number digits ("]" ++ rest) Hd).
  - destruct digits; [contradiction | reflexivity].
  - right. now exists "]"%char, rest.
Qed.

Lemma digits_of_boundary (u v : string) :
  boundary v ->
  digits_of (u ++ v)
  = match digits_of u with
    | (ds, EmptyString) => (ds, v)
    | (ds, r) => (ds, (r ++ v)%string)
    end.
Proof.
  intros Hv. induction u as [|c u IH]; cbn.
  - destruct Hv as [-> | (v' & ->)]; reflexivity.
  - destruct (is_digit c); [|reflexivity].
    rewrite IH. destruct (digits_of u) as [ds [|r0 r]]; reflexivity.
Qed.

Lemma marker_at_boundary (c : ascii) (u v : string) :
  boundary v ->
  marker_at (String c u ++ v) = marker_at (String c u).
Proof.
  intros Hv. cbn [String.append marker_at].
  destruct (Ascii.eqb_spec c "["%char) as [-> | Hc].
  - rewrite (@digits_of_boundary u v Hv).
    destruct (digits_of u) as [ds [|r0 r]]; [|reflexivity].
    destruct ds; [reflexivity|].
    destruct Hv as [-> | (v' & ->)]; reflexivity.
  - destruct c as [[] [] [] [] [] [] [] []]; try reflexivity.
    now contradiction Hc.
Qed.

Lemma split_skip (m acc rest : string) :
  split_from (String.length m) acc (m ++ rest) = split_from 0 acc rest.
Proof. induction m as [|c m IH]; [reflexivity | exact IH]. Qed.

Lemma split_marker (digits acc rest : string) :
  is_number digits ->
  split_from 0 acc (part_of (Marker digits) ++ rest)
  = acc :: part_of (Marker digits) :: split_from 0 "" rest.
Proof.
  intros Hnum.
  pose proof (@marker_at_marker digits rest Hnum) as Hat.
  cbn [part_of String.append] in *. cbn [split_from]. rewrite Hat.
  do 2 f_equal.
  replace (S (String.length digits)) with (String.length (digits ++ "]"))
    by (rewrite length_append; cbn; lia).
  apply split_skip.
Qed.

Lemma is_literal_cons (c : ascii) (t : string) :
  is_literal (String c t) -> marker_at (String c t) = None /\ is_literal t.
Proof.
  unfold is_literal. cbn [match_marker].
  destruct (marker_at (String c t)); [discriminate | now split].
Qed.

(** The scan carries a literal into its accumulator. *)
Lemma split_literal (t acc v : string) :
  is_literal t -> boundary v ->
  split_from 0 acc (t ++ v) = split_from 0 (acc ++ t) v.
Proof.
  revert acc. induction t as [|c t IH]; intros acc Hlit Hv.
  - now rewrite append_nil_r.
  - apply is_literal_cons in Hlit. destruct Hlit as [Hat Hlit].
    pose proof (@marker_at_boundary c t v Hv) as Hb. rewrite Hat in Hb.
    cbn [String.append] in *. cbn [split_from]. rewrite Hb.
    rewrite (IH _ Hlit Hv), append_assoc. reflexivity.
Qed.

(** The parts [split] makes of a well-formed text are its segments. *)
Lemma split_segments (rest : list (string * string)) :
  forall first acc : string,
    well_formed first rest ->
    split_from 0 acc (first ++ flatten (segments rest))
    = (acc ++ first) :: map part_of (segments rest).
Proof.
  induction rest as [|[digits t] rest IH]; intros first acc [Hfirst Hrest].
  - cbn. rewrite (@split_literal first acc "" Hfirst) by now left.
    reflexivity.
  - inversion Hrest as [|? ? [Hnum Hlit] Hrest']; subst. cbn [fst snd] in *.
    cbn [segments flatten map].
    rewrite (@split_literal first acc _ Hfirst) by (right; cbn; eauto).
    rewrite (@split_marker digits _ _ Hnum).
    cbn [part_of]. rewrite (IH t "" (conj Hlit Hrest')). reflexivity.
Qed.

Lemma match_marker_marker (digits : string) :
  is_number digits -> match_marker (part_of (Marker digits)) = Some digits.
Proof.
  intros Hnum. pose proof (@marker_at_marker digits "" Hnum) as Hat.
  rewrite append_nil_r in Hat.
  cbn [part_of String.append] in *. cbn [match_marker]. now rewrite Hat.
Qed.

(** A reference is found exactly for the numbers from 1 to the length
    of the list. *)
Lemma index_resolve (refs : option (list Reference)) (digits : string) :
  match refs with
  | Some (r :: rs) => index (r :: rs) (parseInt digits - 1)
  | _ => None
  end
  = resolve refs digits.
Proof.
  unfold resolve, index. destruct refs as [[|r rs]|]; try reflexivity.
  - destruct (Z.leb_spec 1 (parseInt digits)); [|reflexivity].
    destruct (Z.leb_spec (parseInt digits) (Z.of_nat (@List.length Reference [])))
      as [Hle | Hgt]; [cbn in Hle; lia | reflexivity].
  - destruct (Z.ltb_spec (parseInt digits - 1) 0) as [Hlt | Hge].
    + destruct (Z.leb_spec 1 (parseInt digits)); [lia | reflexivity].
    + destruct (Z.leb_spec 1 (parseInt digits)); [|lia]. cbn [andb].
      destruct (Z.leb_spec (parseInt digits) (Z.of_nat (List.length (r :: rs))))
        as [Hle | Hgt]; [reflexivity|].
      apply nth_error_None. lia.
Qed.

Lemma render_segment (refs : option (list Reference)) (i : nat) (seg : segment) :
  match seg with
  | Literal t => is_literal t
  | Marker digits => is_number digits
  end ->
  render_part refs i (part_of seg) = element_of refs i seg.
Proof.
  destruct seg as [t | digits]; intros Hseg; unfold render_part.
  - cbn [part_of]. unfold is_literal in Hseg. now rewrite Hseg.
  - rewrite (match_marker_marker Hseg). cbn [element_of].
    rewrite <- index_resolve.
    now destruct refs as [[|r rs]|].
Qed.

Lemma mapi_segments (refs : option (list Reference)) (segs : list segment) :
  forall i : nat,
    Forall (fun seg => match seg with
                       | Literal t => is_literal t
                       | Marker digits => is_number digits
                       end) segs ->
    mapi (render_part refs) i (map part_of segs)
    = mapi (element_of refs) i segs.
Proof.
  induction segs as [|seg segs IH]; intros i Hall; [reflexivity|].
  inversion Hall; subst. cbn [map mapi].
  now rewrite render_segment, IH.
Qed.

Lemma segments_well_formed (rest : list (string * string)) :
  Forall (fun kt => is_number (fst kt) /\ is_literal (snd kt)) rest ->
  Forall (fun seg => match seg with
                     | Literal t => is_literal t
                     | Marker digits => is_number digits
                     end) (segments rest).
Proof.
  induction 1 as [|kt rest Hkt _ IH]; [constructor|].
  destruct kt as [digits t], Hkt as [Hnum Hlit]. cbn [segments fst snd] in *.
  constructor; [exact Hnum|]. constructor; [exact Hlit | exact IH].
Qed.

Lemma digits_of_split (s a b : string) :
  digits_of s = (a, b) -> s = a ++ b /\ digits_of a = (a, "").
Proof.
  revert a b. induction s as [|c s IH]; intros a b; cbn.
  - now intros [= <- <-].
  - destruct (is_digit c) eqn:Hc.
    + destruct (digits_of s) as [ds r]. intros [= <- <-].
      destruct (IH ds r eq_refl) as [-> Hds]. cbn. now rewrite Hc, Hds.
    + now intros [= <- <-].
Qed.

(** Where a marker is found, there is one. *)
Lemma marker_at_inv (s digits : string) :
  marker_at s = Some digits ->
  exists rest, s = part_of (Marker digits) ++ rest /\ is_number digits.
Proof.
  destruct s as [|c s]; [discriminate|]. cbn [marker_at].
  destruct (Ascii.eqb_spec c "["%char) as [-> | Hc].
  - destruct (digits_of s) as [ds r] eqn:E.
    destruct ds as [|d ds]; [discriminate|].
    destruct r as [|c r]; [discriminate|].
    destruct (Ascii.eqb_spec c "]"%char) as [-> | Hc].
    + intros [= <-]. destruct (digits_of_split _ E) as [-> Hds].
      exists r. cbn [part_of]. rewrite !append_assoc. split; [reflexivity|].
      split; [discriminate | exact Hds].
    + destruct c as [[] [] [] [] [] [] [] []]; try discriminate.
      now contradiction Hc.
  - destruct c as [[] [] [] [] [] [] [] []]; try discriminate.
    now contradiction Hc.
Qed.

(** The leftmost marker of a text, with the literal before it. *)
Lemma leftmost_marker (s digits : string) :
  match_marker s = Some digits ->
  exists t rest,
    s = t ++ part_of (Marker digits) ++ rest
    /\ is_literal t /\ is_number digits
    /\ (String.length rest < String.length s)%nat.
Proof.
  induction s as [|c s IH]; [discriminate|].
  cbn [match_marker]. destruct (marker_at (String c s)) as [d|] eqn:Hat.
  - intros [= ->]. destruct (marker_at_inv _ Hat) as (rest & Hs & Hnum).
    exists "", rest. rewrite Hs. repeat split; try apply Hnum.
    cbn [part_of]. rewrite !length_append. cbn. lia.
  - intros Hs. destruct (IH Hs) as (t & rest & -> & Hlit & Hnum & Hlen).
    exists (String c t), rest. repeat split; try apply Hnum.
    + unfold is_literal. cbn [match_marker].
      rewrite <- (@marker_at_boundary c t (part_of (Marker digits) ++ rest))
        by (right; cbn; eauto).
      cbn [String.append] in *. now rewrite Hat.
    + cbn [String.length]. lia.
Qed.

(** Every text is a literal followed by markers and literals. *)
Lemma decompose (n : nat) :
  forall s : string,
    (String.length s <= n)%nat ->
    exists first rest,
      well_formed first rest /\ s = first ++ flatten (segments rest).
Proof.
  induction n as [|n IH]; intros s Hlen.
  - destruct s; [|cbn in Hlen; lia].
    exists "", []. repeat split. constructor.
  - destruct (match_marker s) as [digits|] eqn:Hm.
    + destruct (leftmost_marker _ Hm) as (t & rest & -> & Hlit & Hnum & Hlt).
      destruct (IH rest ltac:(lia)) as (first' & rest' & [Hf Hr] & ->).
      exists t, ((digits, first') :: rest'). split.
      * split; [exact Hlit|]. constructor; [now split | exact Hr].
      * reflexivity.
    + exists s, []. split; [split; [exact Hm | constructor]|].
      cbn. now rewrite append_nil_r.
Qed.

(** C7.  Every text is a sequence of literal spans and markers [[k]],
    and for such a sequence [processContent] returns one element per
    segment, in order: a literal as a text element that holds the span
    unchanged, a marker as a citation with its number.  The citation
    opens [references[k-1]] when the message has references and [k] is
    between 1 and their number; otherwise it is the dimmed citation whose
    click only logs. *)
Theorem markers_resolve_against_references
        (message : Message) (block : ContentBlock) :
  (exists (first : string) (rest : list (string * string)),
      well_formed first rest
      /\ content block = first ++ flatten (segments rest))
  /\ (forall (first : string) (rest : list (string * string)),
         well_formed first rest ->
         content block = first ++ flatten (segments rest) ->
         processContent message block
         = mapi (element_of (references message)) 0
                (Literal first :: segments rest))
  /\ (forall (l : list Reference) (digits : string) (i : nat),
         references message = Some l ->
         (1 <= parseInt digits <= Z.of_nat (List.length l))%Z ->
         exists ref : Reference,
           nth_error l (Z.to_nat (parseInt digits - 1)) = Some ref
           /\ element_of (references message) i (Marker digits)
              = ReferenceSuperscript i digits (OpenReference ref) None)
  /\ (forall (digits : string) (i : nat),
         (references message = None
          \/ exists l, references message = Some l
                       /\ ~ (1 <= parseInt digits <= Z.of_nat (List.length l))%Z) ->
         element_of (references message) i (Marker digits)
         = ReferenceSuperscript i digits LogInvalid
                                (Some "opacity-50 cursor-not-allowed")).
Proof.
  split; [exact (decompose (content block) (le_n _))|].
  split; [|split].
  - intros first rest Hwf Hcontent.
    unfold processContent, split_markers. rewrite Hcontent.
    rewrite (split_segments "" Hwf).
    change (("" ++ first) :: map part_of (segments rest))
      with (map part_of (Literal first :: segments rest)).
    apply mapi_segments. destruct Hwf as [Hfirst Hrest].
    constructor; [exact Hfirst | now apply segments_well_formed].
  - intros l digits i Hl Hrange. cbn [element_of]. unfold resolve. rewrite Hl.
    destruct (Z.leb_spec 1 (parseInt digits)); [|lia].
    destruct (Z.leb_spec (parseInt digits) (Z.of_nat (List.length l))); [|lia].
    cbn [andb].
    destruct (nth_error l (Z.to_nat (parseInt digits - 1))) as [ref|] eqn:E.
    + now exists ref.
    + apply nth_error_None in E. lia.
  - intros digits i [Hnone | (l & Hl & Hout)]; cbn [element_of];
      unfold resolve.
    + now rewrite Hnone.
    + rewrite Hl.
      destruct (Z.leb_spec 1 (parseInt digits));
        destruct (Z.leb_spec (parseInt digits) (Z.of_nat (List.length l)));
        cbn [andb]; try reflexivity.
      lia.
Qed.

(** C7, on the text of the specification: one reference, a marker that
    resolves and one that does not. *)
Lemma markers_resolve_against_references_witness :
  processContent Sample.cited (text_block "See [1] and [9]")
  = [ReactMarkdown 0 "See ";
     ReferenceSuperscript 1 "1" (OpenReference Sample.handbook) None;
     ReactMarkdown 2 " and ";
     ReferenceSuperscript 3 "9" LogInvalid (Some "opacity-50 cursor-not-allowed");
     span 4 ""].
Proof.
  assert (Hwf : well_formed "See " [("1", " and "); ("9", "")]).
  { split; [reflexivity|].
    repeat constructor; try reflexivity; discriminate. }
  exact (proj1 (proj2 (markers_resolve_against_references
                         Sample.cited (text_block "See [1] and [9]")))
               "See " [("1", " and "); ("9", "")] Hwf eq_refl).
Defined.

End MessageBubbleFacts.

(* ===================================================================== *)
(** * More on the two stream readers *)
(* ===================================================================== *)

Module ReaderFacts.
Import JS ChatAPI StringFacts ChatAPIFacts Reading.

Section Frames.
Context `{Platform}.

Lemma frames_yield (d : json) (out : list effect) :
  frames (Yield d :: out) = d :: frames out.
Proof. reflexivity. Qed.

Lemma frames_warn (line : string) (out : list effect) :
  frames (Warn line :: out) = frames out.
Proof. reflexivity. Qed.

(** The frames of a pass over the lines: none ends the stream when the
    loop runs to its end; when it returns, the last one does, and only
    that one. *)
Lemma for_lines_terminal (lines : list string) :
  match for_lines lines with
  | (out, Continue) => Forall (fun d => is_terminal d = false) (frames out)
  | (out, Return) =>
      exists pre f, frames out = pre ++ [f]
                    /\ Forall (fun d => is_terminal d = false) pre
                    /\ is_terminal f = true
  end.
Proof.
  induction lines as [|line lines IH]; cbn [for_lines]; [constructor|].
  destruct (startsWith "data: " line); [|exact IH].
  destruct (parse_frame line) as [data|].
  - destruct (is_terminal data) eqn:T.
    + exists [], data. now repeat split.
    + destruct (for_lines lines) as [out [|]]; rewrite frames_yield.
      * now constructor.
      * destruct IH as (pre & f & E & Hpre & Hf).
        exists (data :: pre), f. rewrite E. repeat split; auto.
  - destruct (for_lines lines) as [out [|]]; rewrite frames_warn; exact IH.
Qed.

Lemma read_loop_ending (reads : list read_result) :
  forall (decoder : decoder_state) (buffer : string),
    ending (read_loop decoder buffer reads).
Proof.
  induction reads as [|[value|e] reads IH]; intros decoder buffer;
    cbn [read_loop].
  - now apply exhausted.
  - destruct (decode decoder value) as [decoder' decoded].
    pose proof (for_lines_terminal
                  (removelast (split_nl (buffer ++ decoded)))) as Hl.
    destruct (for_lines _) as [out [|]].
    + specialize (IH decoder' (last (split_nl (buffer ++ decoded)) "")).
      destruct (read_loop decoder' _ reads) as [out' c].
      inversion IH as [o Hall | o pre f E Hpre Hf | o e Hall]; subst.
      * apply exhausted. rewrite frames_app. now apply Forall_app.
      * apply (@returned _ (frames out ++ pre) f); auto.
        -- now rewrite frames_app, E, app_assoc.
        -- now apply Forall_app.
      * apply thrown_inside. rewrite frames_app. now apply Forall_app.
    + destruct Hl as (pre & f & E & Hpre & Hf). now apply (@returned _ pre f).
  - apply thrown_inside. constructor.
Qed.

Lemma removelast_snoc {A : Type} (l : list A) (x : A) :
  removelast (l ++ [x]) = l.
Proof. apply removelast_last. Qed.

Lemma Forall_removelast {A : Type} (P : A -> Prop) (l : list A) :
  Forall P l -> Forall P (removelast l).
Proof.
  induction 1 as [|x l Hx Hl IH]; [constructor|].
  cbn [removelast]. destruct l; [constructor|]. now constructor.
Qed.

(** Once the loop has returned, or a read has failed, what follows in the
    transport is not looked at. *)
Lemma read_loop_stops (reads rest : list read_result) :
  forall (decoder : decoder_state) (buffer : string),
    (Exists (fun d => is_terminal d = true)
            (frames (fst (read_loop decoder buffer reads)))
     \/ exists e, snd (read_loop decoder buffer reads) = Throws e) ->
    read_loop decoder buffer (reads ++ rest) = read_loop decoder buffer reads.
Proof.
  induction reads as [|[value|e] reads IH]; intros decoder buffer Hstop.
  - cbn in Hstop. destruct Hstop as [Hex | [e He]];
      [inversion Hex | discriminate].
  - cbn [app read_loop] in *.
    destruct (decode decoder value) as [decoder' decoded].
    pose proof (for_lines_terminal
                  (removelast (split_nl (buffer ++ decoded)))) as Hl.
    destruct (for_lines _) as [out [|]]; [|reflexivity].
    specialize (IH decoder' (last (split_nl (buffer ++ decoded)) "")).
    destruct (read_loop decoder' _ reads) as [out' c] eqn:E.
    cbn [fst snd] in *. rewrite IH; [reflexivity|].
    destruct Hstop as [Hex | Hthrown]; [left | now right].
    rewrite frames_app in Hex. apply Exists_app in Hex.
    destruct Hex as [Hex | Hex]; [|exact Hex].
    exfalso. exact (not_both _ Hl Hex).
  - reflexivity.
Qed.

(** Lines that do not open with [data: ] leave no trace. *)
Lemma for_lines_filter (lines : list string) :
  for_lines (filter (startsWith "data: ") lines) = for_lines lines.
Proof.
  induction lines as [|line lines IH]; [reflexivity|].
  cbn [filter for_lines].
  destruct (startsWith "data: " line) eqn:E; [|exact IH].
  cbn [for_lines]. rewrite E, IH. reflexivity.
Qed.

Lemma Forall_filter_incl {A : Type} (P : A -> Prop) (f : A -> bool)
      (l : list A) :
  Forall P l -> Forall P (filter f l).
Proof.
  induction 1 as [|x l Hx Hl IH]; cbn; [constructor|].
  destruct (f x); [now constructor | exact IH].
Qed.

End Frames.

Lemma streamChat_try_ending `{Platform} (net : fetch_result) :
  ending (streamChat_try net).
Proof.
  unfold streamChat_try. destruct net as [e|r].
  - apply thrown_inside. constructor.
  - destruct (negb (ok r)).
    + destruct (text r); apply thrown_inside; constructor.
    + destruct (body r) as [reads|].
      * apply read_loop_ending.
      * apply thrown_inside. constructor.
Qed.

(** X1.  Whatever the transport does, a frame that ends the stream (type
    [message_complete] or [error], the error frame of the [catch] clause
    included) can only be the last frame [streamChat] yields: every frame
    but the last is of another type. *)
Theorem one_terminal_frame_at_most `{Platform}
        (net : fetch_result) (now : string) :
  Forall (fun d => is_terminal d = false)
         (removelast (frames (fst (streamChat net now)))).
Proof.
  unfold streamChat.
  pose proof (streamChat_try_ending net) as Hend.
  destruct (streamChat_try net) as [out c].
  inversion Hend as [o Hall | o pre f E Hpre Hf | o e Hall]; subst; cbn [fst].
  - now apply Forall_removelast.
  - now rewrite E, removelast_snoc.
  - rewrite frames_app. cbn [frames flat_map app].
    now rewrite removelast_snoc.
Qed.

(** X2.  Once [streamChat] has yielded a frame that ends the stream, it
    reads nothing more: whatever the transport would deliver after the
    reads that led to that frame, further chunks or a failure, the frames,
    the warnings and the completion are the same. *)
Theorem nothing_is_read_after_the_last_frame `{Platform}
        (r : Response) (reads rest : list read_result) (now : string) :
  ok r = true ->
  Exists (fun d => is_terminal d = true)
         (frames (fst (streamChat (Resolved (with_body reads r)) now))) ->
  streamChat (Resolved (with_body (reads ++ rest) r)) now
  = streamChat (Resolved (with_body reads r)) now.
Proof.
  intros Hok Hex. unfold streamChat, streamChat_try, with_body in *.
  cbn [ok body] in *. rewrite Hok in *. cbn [negb] in *.
  rewrite read_loop_stops; [reflexivity|].
  destruct (read_loop decoder_start "" reads) as [out [|e]]; cbn [fst snd] in *.
  - now left.
  - right. now exists e.
Qed.

(** X2, for a stream that completes and a connection that breaks
    afterwards: no error frame is yielded. *)
Lemma nothing_is_read_after_the_last_frame_witness :
  @streamChat Sample.platform
    (Resolved
       (with_body
          ([Chunk (Sample.bytes
                     (Sample.data_line (Sample.stringify Sample.complete)))]
             ++ [ReadError (JsError "network error")])
          {| ok := true; status := 200; text := inr ""; body := None |}))
    "2026-01-01T00:00:00.000Z"
  = ([Yield Sample.complete], Normal).
Proof.
  rewrite (@nothing_is_read_after_the_last_frame Sample.platform).
  - reflexivity.
  - reflexivity.
  - constructor. reflexivity.
Defined.

Section Lines.
Context `{Platform}.
Import App.

Lemma pdf_for_lines_filter (pdfFile : PendingPDF) (lines : list string) :
  forall st : State,
    pdf_for_lines pdfFile (filter (startsWith "data: ") lines) st
    = pdf_for_lines pdfFile lines st.
Proof.
  induction lines as [|line lines IH]; intros st; [reflexivity|].
  cbn [filter]. destruct (startsWith "data: " line) eqn:E.
  - cbn [pdf_for_lines].
    destruct (pdf_line pdfFile line st) as [[st1 w1] [|c]]; [|reflexivity].
    now rewrite IH.
  - cbn [pdf_for_lines]. unfold pdf_line. rewrite E.
    rewrite IH. now destruct (pdf_for_lines pdfFile lines st) as [[st2 w2] n].
Qed.

(** [processPDF] on a stream of complete lines followed by a residual
    without line feed: the loop over the lines, then the final buffer. *)
Lemma processPDF_try_residual (pdfFile : PendingPDF) (lines : list string)
      (residual : string) (chunks : list (list byte)) (st : State) :
  Forall Stream.one_line lines ->
  Stream.one_line residual ->
  Stream.decoded chunks = (Stream.of_lines lines ++ residual)%string ->
  processPDF_try pdfFile (Stream.pdf_stream chunks) st
  = match pdf_for_lines pdfFile lines st with
    | (st', warned, App.Return c) => (st', warned, Returned c)
    | (st', warned, Go) =>
        let '(st'', warned', o) := final_buffer pdfFile residual st' in
        (st'', warned ++ warned', o)
    end.
Proof.
  intros Hlines Hres Hdec.
  unfold processPDF_try, Stream.pdf_stream, streaming.
  cbn [fileData response body].
  rewrite pdf_read_loop_concat by reflexivity.
  cbn [pdf_read_loop]. unfold Stream.decoded in Hdec.
  destruct (decode decoder_start (List.concat chunks)) as [d t].
  cbn [snd String.append] in *. subst t.
  rewrite (split_nl_of_lines Hlines Hres), removelast_last, last_last.
  destruct (pdf_for_lines pdfFile lines st) as [[st' w] [|c]]; [|reflexivity].
  destruct (final_buffer pdfFile residual st') as [[st'' w'] o].
  now rewrite app_nil_r.
Qed.

Lemma trim_data (buffer : string) :
  startsWith "data: " buffer = true -> nonempty (trim buffer) = true.
Proof.
  destruct buffer as [|c buffer]; [discriminate|].
  cbn [startsWith]. intros Hc. apply andb_prop in Hc. destruct Hc as [Hc _].
  apply Ascii.eqb_eq in Hc. subst c.
  unfold trim. cbn [trimStart is_space nat_of_ascii].
  change (is_space "d") with false. cbv iota.
  cbn [trimEnd]. destruct (trimEnd buffer); reflexivity.
Qed.

(** The final buffer is handled as a line is, but for the progress
    record and the warnings. *)
Lemma final_buffer_as_line (pdfFile : PendingPDF) (buffer : string)
      (st : State) :
  let '(st1, _, o) := final_buffer pdfFile buffer st in
  let '(st2, _, next) := pdf_line pdfFile buffer st in
  setPdfProcessing idle st1 = setPdfProcessing idle st2
  /\ o = match next with
         | Go => Returned None
         | App.Return c => Returned c
         end.
Proof.
  unfold final_buffer, pdf_line.
  destruct (startsWith "data: " buffer) eqn:E.
  - rewrite (trim_data _ E). cbn [andb].
    destruct (String.eqb (trim (slice 6 buffer)) "[DONE]"); [now split|].
    cbn [negb andb].
    destruct (nonempty (trim (slice 6 buffer))); [|now split].
    cbn [negb].
    destruct (JSON_parse (trim (slice 6 buffer))) as [parsed|]; [|now split].
    destruct parsed as [|b|q|s|items|fields]; try (now split).
    destruct (is_string (get "type" (JObj fields)) "progress") eqn:P;
      destruct (is_string (get "type" (JObj fields)) "result") eqn:R;
      try (now split).
    + exfalso. unfold is_string in P, R.
      destruct (get "type" (JObj fields)) as [[| | |s| |]|]; try discriminate.
      apply String.eqb_eq in P, R. congruence.
    + destruct (is_string _ "error"); now split.
  - rewrite andb_false_r. now split.
Qed.

End Lines.

(** X3.  Both stream readers look only at the lines that open with
    [data: ] (with the space): in a stream of complete lines, cut into
    chunks in any way, the blank lines that separate events, comment
    lines, lines of other fields and lines that open with [data:] without
    space can be left out, or put in, without changing what [streamChat]
    yields and warns about, or what [processPDF] does and returns. *)
Theorem only_data_lines_are_read `{Platform}
        (lines : list string) (chunks chunks' : list (list byte)) :
  Forall Stream.one_line lines ->
  Stream.decoded chunks = Stream.of_lines lines ->
  Stream.decoded chunks'
  = Stream.of_lines (filter (startsWith "data: ") lines) ->
  (forall now : string,
      streamChat (streaming chunks) now = streamChat (streaming chunks') now)
  /\ (forall (pdfFile : App.PendingPDF) (t : Z) (st : App.State),
         App.processPDF pdfFile (Stream.pdf_stream chunks) t st
         = App.processPDF pdfFile (Stream.pdf_stream chunks') t st).
Proof.
  intros Hlines Hdec Hdec'.
  pose proof (Forall_filter_incl (startsWith "data: ") Hlines) as Hlines'.
  split.
  - intros now.
    rewrite (@streamChat_of_lines _ lines chunks now) by assumption.
    rewrite (@streamChat_of_lines _ (filter (startsWith "data: ") lines)
                                  chunks' now) by assumption.
    now rewrite for_lines_filter.
  - intros pdfFile t st. unfold App.processPDF.
    rewrite (@processPDF_try_of_lines _ pdfFile lines chunks) by assumption.
    rewrite (@processPDF_try_of_lines
               _ pdfFile (filter (startsWith "data: ") lines) chunks')
      by assumption.
    now rewrite pdf_for_lines_filter.
Qed.

(** X3, for a stream with a comment line and the blank lines of the
    event-stream format. *)
Lemma only_data_lines_are_read_witness :
  @streamChat Sample.platform
    (streaming
       [Sample.bytes
          (Stream.of_lines
             [": connected"; "";
              ("data: " ++ Sample.stringify (Sample.delta "Hel"))%string; "";
              "event: message";
              ("data: " ++ Sample.stringify Sample.complete)%string; ""])])
    "2026-01-01T00:00:00.000Z"
  = @streamChat Sample.platform
      (streaming
         [Sample.bytes
            (Stream.of_lines
               [("data: " ++ Sample.stringify (Sample.delta "Hel"))%string;
                ("data: " ++ Sample.stringify Sample.complete)%string])])
      "2026-01-01T00:00:00.000Z".
Proof.
  refine (proj1 (@only_data_lines_are_read Sample.platform
                   [": connected"; "";
                    ("data: " ++ Sample.stringify (Sample.delta "Hel"))%string; "";
                    "event: message";
                    ("data: " ++ Sample.stringify Sample.complete)%string; ""]
                   _ _ _ _ _) _).
  - repeat constructor.
  - reflexivity.
  - reflexivity.
Defined.

(** X4.  However the bytes of the document stream are cut into chunks,
    [processPDF] ends in the same state, with the same warnings and the
    same result, as when the whole stream arrives as one chunk; so does
    the upload handler that calls it. *)
Theorem processPDF_chunking_invariant `{Platform}
        (chunks : list (list byte)) (st : App.State) :
  (forall (pdfFile : App.PendingPDF) (t : Z),
      App.processPDF pdfFile (Stream.pdf_stream chunks) t st
      = App.processPDF pdfFile (Stream.pdf_stream [List.concat chunks]) t st)
  /\ (forall (file : App.File) (clock : App.UploadClock),
         App.handleUploadPDFNew file (Stream.pdf_stream chunks) clock st
         = App.handleUploadPDFNew file
             (Stream.pdf_stream [List.concat chunks]) clock st).
Proof.
  assert (E : forall (pdfFile : App.PendingPDF) (t : Z) (st0 : App.State),
             App.processPDF pdfFile (Stream.pdf_stream chunks) t st0
             = App.processPDF pdfFile
                 (Stream.pdf_stream [List.concat chunks]) t st0).
  { intros pdfFile t st0.
    unfold App.processPDF, App.processPDF_try, Stream.pdf_stream, streaming.
    cbn [App.fileData App.response body].
    now rewrite pdf_read_loop_concat. }
  split; [intros; apply E|].
  intros file clock. unfold App.handleUploadPDFNew. now rewrite E.
Qed.

(** X5.  Unlike [streamChat], [processPDF] reads the line the stream ends
    with when no line feed follows it: the state it ends in and the
    result it returns are those of the same stream with the line feed. *)
Theorem processPDF_reads_the_unterminated_line `{Platform}
        (lines : list string) (residual : string)
        (chunks chunks' : list (list byte))
        (pdfFile : App.PendingPDF) (t : Z) (st : App.State) :
  Forall Stream.one_line lines ->
  Stream.one_line residual ->
  Stream.decoded chunks = (Stream.of_lines lines ++ residual)%string ->
  Stream.decoded chunks' = Stream.of_lines (lines ++ [residual]) ->
  let '(st1, _, o1) := App.processPDF pdfFile (Stream.pdf_stream chunks) t st in
  let '(st2, _, o2) := App.processPDF pdfFile (Stream.pdf_stream chunks') t st in
  st1 = st2 /\ o1 = o2.
Proof.
  intros Hlines Hres Hdec Hdec'. unfold App.processPDF.
  rewrite (@processPDF_try_residual _ pdfFile lines residual chunks)
    by assumption.
  rewrite (@processPDF_try_of_lines _ pdfFile (lines ++ [residual]) chunks');
    [|apply Forall_app; split; [assumption | now constructor] | assumption].
  rewrite pdf_for_lines_app.
  destruct (App.pdf_for_lines pdfFile lines _) as [[st' w] [|c]];
    [|now split].
  cbn [App.pdf_for_lines].
  pose proof (final_buffer_as_line pdfFile residual st') as Hsame.
  destruct (App.final_buffer pdfFile residual st') as [[sa wa] oa].
  destruct (App.pdf_line pdfFile residual st') as [[sb wb] [|c]];
    destruct Hsame as [Hst ->]; now split.
Qed.

(** X5, for a progress event followed by a result event without line
    feed. *)
Lemma processPDF_reads_the_unterminated_line_witness :
  let '(st1, _, o1) :=
    @App.processPDF Sample.platform Sample.pending_report
      (Stream.pdf_stream
         [Sample.bytes
            (Sample.data_line (Sample.stringify Sample.progress_load)
               ++ "data: " ++ Sample.stringify Sample.result_one_chunk)])
      1700000000950
      (App.setPendingPDFs (fun _ => [Sample.pending_report]) App.initial) in
  let '(st2, _, o2) :=
    @App.processPDF Sample.platform Sample.pending_report
      (Stream.pdf_stream
         [Sample.bytes
            (Sample.data_line (Sample.stringify Sample.progress_load)
               ++ Sample.data_line (Sample.stringify Sample.result_one_chunk))])
      1700000000950
      (App.setPendingPDFs (fun _ => [Sample.pending_report]) App.initial) in
  st1 = st2 /\ o1 = o2.
Proof.
  apply (@processPDF_reads_the_unterminated_line Sample.platform
           [("data: " ++ Sample.stringify Sample.progress_load)%string]
           ("data: " ++ Sample.stringify Sample.result_one_chunk)%string).
  - repeat constructor.
  - reflexivity.
  - reflexivity.
  - reflexivity.
Defined.

End ReaderFacts.

(* ===================================================================== *)
(** * The footprint of document processing *)
(* ===================================================================== *)

Module DocumentFacts.
Import JS App StringFacts ChatAPIFacts Reading Processing.

(** X6.  [processPDF] leaves a footprint that its result determines.  It
    never touches the messages, the input, the streaming flag or the
    staged images and audios, and the progress record is idle when it
    ends.  When it throws, the toast is the failure toast that names the
    file and the error, and the staged documents are as before.  When it
    returns, the toast is as before, and either the staged documents are
    as before, or those with the id of the file have been marked as
    processed with the chunks that are returned. *)
Theorem processPDF_footprint `{Platform}
        (pdfFile : PendingPDF) (net : pdf_transport) (now : Z) (st : State) :
  let '(st', _, o) := processPDF pdfFile net now st in
  inputValue st' = inputValue st
  /\ messages st' = messages st
  /\ isStreaming st' = isStreaming st
  /\ pendingImages st' = pendingImages st
  /\ pendingAudios st' = pendingAudios st
  /\ pdfProcessing st' = idle
  /\ match o with
     | Threw e =>
         toast st' = Some (failure_toast pdfFile e now)
         /\ pendingPDFs st' = pendingPDFs st
     | Returned c =>
         toast st' = toast st
         /\ (pendingPDFs st' = pendingPDFs st
             \/ pendingPDFs st'
                = mark_processed (pdf_id pdfFile) c (pendingPDFs st))
     end.
Proof.
  pose proof (processPDF_effect pdfFile net now st) as Heff.
  destruct (processPDF pdfFile net now st) as [[st' w] o].
  destruct Heff as [Hidle Heff].
  destruct o as [c|e].
  - destruct Heff as [Hq | Hm]; unfold quiet, marked in *; intuition.
  - unfold quiet in Heff. cbn in Heff. intuition.
Qed.

Section Results.
Context `{Platform}.

Lemma mark_processed_fresh (id : string) (c : option json)
      (prev : list PendingPDF) :
  ~ In id (map pdf_id prev) -> mark_processed id c prev = prev.
Proof.
  unfold mark_processed. induction prev as [|p prev IH]; intros Hfresh;
    [reflexivity|].
  cbn [map] in *. rewrite IH by (intros Hin; apply Hfresh; now right).
  destruct (String.eqb (pdf_id p) id) eqn:E; [|reflexivity].
  apply String.eqb_eq in E. exfalso. apply Hfresh. now left.
Qed.

Lemma remove_pdf_fresh (id : string) (prev : list PendingPDF) :
  ~ In id (map pdf_id prev) -> remove_pdf id prev = prev.
Proof.
  unfold remove_pdf. induction prev as [|p prev IH]; intros Hfresh;
    [reflexivity|].
  cbn [map filter] in *.
  destruct (String.eqb (pdf_id p) id) eqn:E.
  - apply String.eqb_eq in E. exfalso. apply Hfresh. now left.
  - cbn [negb]. rewrite IH; [reflexivity|].
    intros Hin. apply Hfresh. now right.
Qed.

End Results.

(** X7.  In a stream of complete lines, the first line that carries a
    [result] event decides: [processPDF] returns its chunks (whatever
    they are, also none), marks the staged documents with the id of the
    file as processed with them, raises no toast, and does not look at
    what follows the line. *)
Theorem first_result_event_decides `{Platform}
        (before after : list string) (line : string) (c : option json)
        (chunks : list (list byte))
        (pdfFile : PendingPDF) (t : Z) (st : State) :
  Forall Stream.one_line (before ++ line :: after) ->
  Stream.decoded chunks = Stream.of_lines (before ++ line :: after) ->
  Forall (fun l => forall k, ~ result_line l k) before ->
  result_line line c ->
  let '(st', _, o) := processPDF pdfFile (Stream.pdf_stream chunks) t st in
  o = Returned c
  /\ pendingPDFs st' = mark_processed (pdf_id pdfFile) c (pendingPDFs st)
  /\ toast st' = toast st
  /\ pdfProcessing st' = idle.
Proof.
  intros Hlines Hdec Hbefore Hline. unfold processPDF.
  rewrite (@processPDF_try_of_lines _ pdfFile (before ++ line :: after) chunks)
    by assumption.
  rewrite pdf_for_lines_app.
  match goal with
  | |- context [pdf_for_lines pdfFile before ?s] =>
      destruct (pdf_for_lines_go pdfFile s Hbefore) as (st1 & w1 & E1 & Hq)
  end.
  rewrite E1. cbn [pdf_for_lines]. rewrite (pdf_line_result pdfFile st1 Hline).
  unfold quiet in Hq. cbn in Hq. cbn. intuition congruence.
Qed.

(** X7, for a progress event, then a result event, then an error
    event. *)
Lemma first_result_event_decides_witness :
  let '(st', _, o) :=
    @processPDF Sample.platform Sample.pending_report
      (Stream.pdf_stream
         [Sample.bytes
            (Stream.of_lines
               [("data: " ++ Sample.stringify Sample.progress_load)%string;
                ("data: " ++ Sample.stringify Sample.result_one_chunk)%string;
                ("data: " ++ Sample.stringify (Sample.failure "OCR failed"))%string])])
      1700000000950
      (setPendingPDFs (fun _ => [Sample.pending_report]) initial) in
  o = Returned (get "chunks" Sample.result_one_chunk)
  /\ pendingPDFs st' = [Sample.staged_report]
  /\ toast st' = None
  /\ pdfProcessing st' = idle.
Proof.
  apply (@first_result_event_decides Sample.platform
           [("data: " ++ Sample.stringify Sample.progress_load)%string]
           [("data: " ++ Sample.stringify (Sample.failure "OCR failed"))%string]
           ("data: " ++ Sample.stringify Sample.result_one_chunk)%string).
  - repeat constructor.
  - reflexivity.
  - constructor; [|constructor].
    intros k (_ & _ & _ & parsed & Hparse & Htype & _).
    vm_compute in Hparse. injection Hparse as <-. discriminate.
  - repeat split; try discriminate.
    exists Sample.result_one_chunk. now repeat split.
Defined.

(** X8.  What an upload of a document comes to, when it is let in (no
    answer is streaming, no document is being processed, the file is not
    over the limit) and its id is not the id of a document staged before:
    it either stages exactly one document, processed, at the end of the
    list, with the success toast, or leaves the list as it was, with the
    failure toast of [processPDF] when that has thrown and with no more
    than the toast of the start of the processing otherwise.  The
    messages, the input, the staged images and audios are as before and
    the progress record is idle. *)
Theorem upload_stages_one_document_or_none `{Platform}
        (file : File) (net : pdf_transport) (clock : UploadClock) (st : State) :
  isStreaming st = false ->
  isProcessing (pdfProcessing st) = false ->
  size file <= maxSize ->
  ~ In (toString (id_now clock)) (map pdf_id (pendingPDFs st)) ->
  let st' := handleUploadPDFNew file net clock st in
  inputValue st' = inputValue st
  /\ messages st' = messages st
  /\ isStreaming st' = false
  /\ pendingImages st' = pendingImages st
  /\ pendingAudios st' = pendingAudios st
  /\ pdfProcessing st' = idle
  /\ match snd (processPDF (staged file clock) net (late_now clock)
                           (uploading file clock st)) with
     | Returned (Some c) =>
         if truthy (Some c) && length_gt_zero c
         then pendingPDFs st'
              = pendingPDFs st ++ [with_result (Some c) (staged file clock)]
              /\ toast st' = Some (completed_toast file c clock)
         else pendingPDFs st' = pendingPDFs st
              /\ toast st' = Some (started_toast file clock)
     | Returned None =>
         pendingPDFs st' = pendingPDFs st
         /\ toast st' = Some (started_toast file clock)
     | Threw e =>
         pendingPDFs st' = pendingPDFs st
         /\ toast st'
            = Some (failure_toast (staged file clock) e (late_now clock))
     end.
Proof.
  intros Hstreaming Hprocessing Hsize Hfresh.
  unfold handleUploadPDFNew. rewrite Hstreaming, Hprocessing. cbn [orb].
  replace (size file >? maxSize) with false
    by (symmetry; rewrite Z.gtb_ltb; apply Z.ltb_ge, Hsize).
  fold (staged file clock). fold (started_toast file clock).
  fold (uploading file clock st).
  pose proof (processPDF_effect (staged file clock) net (late_now clock)
                                (uploading file clock st)) as Heff.
  destruct (processPDF (staged file clock) net (late_now clock)
                       (uploading file clock st)) as [[st2 warned] o].
  cbn [snd]. destruct Heff as [Hidle Heff].
  assert (Hremove : forall x : PendingPDF,
             pdf_id x = toString (id_now clock) ->
             remove_pdf (toString (id_now clock)) (pendingPDFs st ++ [x])
             = pendingPDFs st).
  { intros x Hx. unfold remove_pdf. rewrite filter_app.
    fold (remove_pdf (toString (id_now clock)) (pendingPDFs st)).
    rewrite (remove_pdf_fresh _ _ Hfresh). cbn [filter].
    rewrite Hx, String.eqb_refl. cbn [negb]. apply app_nil_r. }
  assert (Hmark : forall (k : option json) (x : PendingPDF),
             pdf_id x = toString (id_now clock) ->
             mark_processed (toString (id_now clock)) k (pendingPDFs st ++ [x])
             = pendingPDFs st ++ [with_result k x]).
  { intros k x Hx. unfold mark_processed. rewrite map_app.
    fold (mark_processed (toString (id_now clock)) k (pendingPDFs st)).
    rewrite (mark_processed_fresh _ k _ Hfresh). cbn [map].
    now rewrite Hx, String.eqb_refl. }
  assert (Hup : pendingPDFs (uploading file clock st)
                = pendingPDFs st ++ [staged file clock]) by reflexivity.
  change (pdf_id (staged file clock)) with (toString (id_now clock)) in *.
  assert (Hgoal :
            forall k : option json,
              (pendingPDFs st2 = pendingPDFs (uploading file clock st)
               \/ pendingPDFs st2
                  = mark_processed (toString (id_now clock)) k
                                   (pendingPDFs (uploading file clock st))) ->
              remove_pdf (toString (id_now clock)) (pendingPDFs st2)
              = pendingPDFs st
              /\ forall c : option json,
                  mark_processed (toString (id_now clock)) c (pendingPDFs st2)
                  = pendingPDFs st ++ [with_result c (staged file clock)]).
  { intros k [E | E]; rewrite E, Hup.
    - split; [now apply Hremove | intros c; now apply Hmark].
    - rewrite Hmark by reflexivity.
      split; [now apply Hremove|].
      intros c. rewrite Hmark by reflexivity. reflexivity. }
  destruct o as [[c|]|e].
  - assert (Hfields : inputValue st2 = inputValue st
                      /\ messages st2 = messages st
                      /\ isStreaming st2 = isStreaming st
                      /\ pendingImages st2 = pendingImages st
                      /\ pendingAudios st2 = pendingAudios st
                      /\ toast st2 = Some (started_toast file clock)
                      /\ (pendingPDFs st2 = pendingPDFs (uploading file clock st)
                          \/ pendingPDFs st2
                             = mark_processed (toString (id_now clock)) (Some c)
                                 (pendingPDFs (uploading file clock st)))).
    { destruct Heff as [Hq | Hm].
      - unfold quiet in Hq. repeat split; try apply Hq. left. apply Hq.
      - unfold marked in Hm. repeat split; try apply Hm. right. apply Hm. }
    destruct Hfields as (Hi & Hmsg & Hs & Himg & Haud & Ht & Hpdf).
    destruct (Hgoal _ Hpdf) as [Hrm Hmk].
    destruct (truthy (Some c) && length_gt_zero c); cbn;
      rewrite ?Hrm, ?Hmk; repeat split; congruence.
  - assert (Hfields : inputValue st2 = inputValue st
                      /\ messages st2 = messages st
                      /\ isStreaming st2 = isStreaming st
                      /\ pendingImages st2 = pendingImages st
                      /\ pendingAudios st2 = pendingAudios st
                      /\ toast st2 = Some (started_toast file clock)
                      /\ (pendingPDFs st2 = pendingPDFs (uploading file clock st)
                          \/ pendingPDFs st2
                             = mark_processed (toString (id_now clock)) None
                                 (pendingPDFs (uploading file clock st)))).
    { destruct Heff as [Hq | Hm].
      - unfold quiet in Hq. repeat split; try apply Hq. left. apply Hq.
      - unfold marked in Hm. repeat split; try apply Hm. right. apply Hm. }
    destruct Hfields as (Hi & Hmsg & Hs & Himg & Haud & Ht & Hpdf).
    destruct (Hgoal _ Hpdf) as [Hrm Hmk].
    cbn. rewrite Hrm. repeat split; congruence.
  - unfold quiet in Heff.
    destruct Heff as (Hi & Hmsg & Hs & Himg & Hpdf & Haud & Ht).
    assert (Hpdf' : pendingPDFs st2 = pendingPDFs (uploading file clock st))
      by exact Hpdf.
    destruct (Hgoal None (or_introl Hpdf')) as [Hrm Hmk].
    cbn. rewrite Hrm.
    repeat split; first [ exact Hi | exact Hmsg | exact Himg | exact Haud
                        | exact Ht | exact Hidle
                        | rewrite Hs; exact Hstreaming ].
Qed.

(** X8, for a small file whose processing stream carries one result
    event, uploaded into the initial state. *)
Lemma upload_stages_one_document_or_none_witness :
  pendingPDFs
    (@handleUploadPDFNew Sample.platform Sample.report
       (Stream.pdf_stream
          [Sample.bytes
             (Sample.data_line (Sample.stringify Sample.result_one_chunk))])
       Sample.upload_clock initial)
  = [Sample.staged_report]
  /\ toast
       (@handleUploadPDFNew Sample.platform Sample.report
          (Stream.pdf_stream
             [Sample.bytes
                (Sample.data_line (Sample.stringify Sample.result_one_chunk))])
          Sample.upload_clock initial)
     = Some {| toast_id := "1700000000950"; toast_type := success;
               title := "PDF Processing Complete";
               description :=
                 Some "report.pdf parsed, 1 document chunks. Please enter your question and send."
            |}.
Proof.
  assert (Hsize : size Sample.report <= maxSize) by discriminate.
  assert (Hfresh : ~ In (toString (id_now Sample.upload_clock))
                        (map pdf_id (pendingPDFs initial)))
    by (intros []).
  pose proof (@upload_stages_one_document_or_none Sample.platform
                Sample.report
                (Stream.pdf_stream
                   [Sample.bytes
                      (Sample.data_line
                         (Sample.stringify Sample.result_one_chunk))])
                Sample.upload_clock initial eq_refl eq_refl Hsize Hfresh) as W.
  cbv zeta in W. destruct W as (_ & _ & _ & _ & _ & _ & W).
  exact W.
Defined.

End DocumentFacts.

(* ===================================================================== *)
(** * A send from the gate to the last frame *)
(* ===================================================================== *)

Module ExchangeFacts.
Import JS MessageBubble App Conversation StringFacts Exchange Send Sending.
Import RequestFacts.

(** The state once the loop has cleared the streaming flag and what was
    staged. *)
Lemma settled_after (l : list Message) (st1 : State) :
  inputValue st1 = "" ->
  pendingImages st1 = [] ->
  clearPendingAudios
    (clearPendingPDFs (setIsStreaming false (setMessages (fun _ => l) st1)))
  = settled l st1.
Proof.
  intros Hinput Himages. unfold settled. destruct st1; cbn in *. now subst.
Qed.

Lemma run_deltas_exact (clock : SendClock) (pre post : list Message)
      (st st1 : State) (chunks : list StreamingResponse) :
  Forall (fun m => id m <> toString (assistant_now clock + 1)) pre ->
  Forall (fun m => id m <> toString (assistant_now clock + 1)) post ->
  Forall is_delta chunks ->
  forall c : string,
    run (Some (session clock st c),
         setMessages
           (fun _ => pre ++ assistant_message clock c [] true :: post) st1)
        (map Frame chunks)
    = (Some (session clock st (c ++ deltas chunks)),
       setMessages
         (fun _ => pre ++ assistant_message clock (c ++ deltas chunks) [] true
                        :: post) st1).
Proof.
  intros Hpre Hpost Hdeltas.
  induction Hdeltas as [|chunk chunks Hchunk _ IH]; intros c.
  - cbn [map run fold_left deltas]. now rewrite append_nil_r.
  - cbn [map deltas]. unfold run in *. cbn [fold_left on_event].
    unfold on_chunk. unfold is_delta in Hchunk. rewrite Hchunk.
    cbn [String.eqb Ascii.eqb Bool.eqb andb].
    unfold delta_text.
    destruct (chunk_content chunk) as [d|].
    + destruct (nonempty d) eqn:Hd.
      * cbn [fullContent session assistantMessageId].
        unfold setMessages at 1. cbn [messages setMessages].
        rewrite (@update_one _ _ pre post (assistant_message clock c [] true)
                          Hpre Hpost eq_refl).
        rewrite <- append_assoc. exact (IH (c ++ d)%string).
      * unfold nonempty in Hd. apply negb_false_iff, String.eqb_eq in Hd.
        subst d. cbn [String.append]. exact (IH c).
    + cbn [String.append]. exact (IH c).
Qed.

(** The pass of the loop for the frame that completes the message, and
    for an error frame. *)
Lemma complete_frame_step (clock : SendClock) (pre post : list Message)
      (st st1 : State) (c : string) (final : StreamingResponse) :
  Forall (fun m => id m <> toString (assistant_now clock + 1)) pre ->
  Forall (fun m => id m <> toString (assistant_now clock + 1)) post ->
  inputValue st1 = "" ->
  pendingImages st1 = [] ->
  chunk_type final = "message_complete" ->
  on_event (Some (session clock st c),
            setMessages
              (fun _ => pre ++ assistant_message clock c [] true :: post) st1)
           (Frame final)
  = (None,
     settled (pre ++ assistant_message clock c (references_of final) false
                  :: post) st1).
Proof.
  intros Hpre Hpost Hinput Himages Hfinal. cbn [on_event]. unfold on_chunk.
  rewrite Hfinal. cbn [String.eqb Ascii.eqb Bool.eqb andb].
  cbn [assistantMessageId session].
  unfold setMessages at 1. cbn [messages setMessages].
  rewrite (@update_one _ _ pre post (assistant_message clock c [] true)
                          Hpre Hpost eq_refl).
  rewrite <- (@settled_after _ st1 Hinput Himages). reflexivity.
Qed.

Lemma error_frame_step (clock : SendClock) (pre post : list Message)
      (st st1 : State) (c : string) (final : StreamingResponse) :
  Forall (fun m => id m <> toString (assistant_now clock + 1)) pre ->
  Forall (fun m => id m <> toString (assistant_now clock + 1)) post ->
  inputValue st1 = "" ->
  pendingImages st1 = [] ->
  chunk_type final = "error" ->
  on_event (Some (session clock st c),
            setMessages
              (fun _ => pre ++ assistant_message clock c [] true :: post) st1)
           (Frame final)
  = (None,
     settled (pre ++ assistant_message clock (apology final) [] false :: post)
             st1).
Proof.
  intros Hpre Hpost Hinput Himages Hfinal. cbn [on_event]. unfold on_chunk.
  rewrite Hfinal. cbn [String.eqb Ascii.eqb Bool.eqb andb].
  cbn [assistantMessageId session].
  unfold setMessages at 1. cbn [messages setMessages].
  rewrite (@update_one _ _ pre post (assistant_message clock c [] true)
                          Hpre Hpost eq_refl).
  rewrite <- (@settled_after _ st1 Hinput Himages). reflexivity.
Qed.

Lemma run_ended (st : State) (more : list StreamingResponse) :
  run (None, st) (map Frame more) = (None, st).
Proof.
  unfold run. induction more as [|chunk more IH]; [reflexivity | exact IH].
Qed.

(** A send that has reached the call of [streamChat], then the deltas:
    where the loop stands, when the id of the assistant message is the id
    of no other message. *)
Lemma send_deltas `{Platform} `{Engine}
      (settings : Settings) (env : nat -> Retry) (clock : SendClock)
      (catch_now : Z) (st st1 : State) (s : Session) (request : ChatRequest)
      (chunks : list StreamingResponse) :
  handleSend_request settings env clock catch_now st
  = (st1, Some (s, request)) ->
  Forall is_delta chunks ->
  user_now clock <> assistant_now clock + 1 ->
  Forall (fun m => id m <> toString (assistant_now clock + 1)) (messages st) ->
  (forall i : nat, error_now (env i) <> assistant_now clock + 1) ->
  exists reports : list Message,
    messages st1
    = messages st ++ [user_message clock st;
                      assistant_message clock "" [] true] ++ reports
    /\ reported env st reports
    /\ inputValue st1 = ""
    /\ pendingImages st1 = []
    /\ Forall (fun m => id m <> toString (assistant_now clock + 1))
              (messages st ++ [user_message clock st])
    /\ Forall (fun m => id m <> toString (assistant_now clock + 1)) reports
    /\ run (Some s, st1) (map Frame chunks)
       = (Some (session clock st (deltas chunks)),
          setMessages
            (fun _ => (messages st ++ [user_message clock st])
                        ++ assistant_message clock (deltas chunks) [] true
                        :: reports) st1).
Proof.
  intros Hrequest Hdeltas Hclock Hfresh Herrors.
  destruct (request_shape _ _ _ _ _ Hrequest)
    as (Hgate & -> & Hinput & _ & Himages & _ & reports & Hmsg & Hreports).
  exists reports.
  assert (Hpre : Forall (fun m => id m <> toString (assistant_now clock + 1))
                        (messages st ++ [user_message clock st])).
  { apply Forall_app. split; [exact Hfresh|]. constructor; [|constructor].
    cbn. intros E. apply StagingFacts.toString_inj in E. contradiction. }
  assert (Hpost : Forall (fun m => id m <> toString (assistant_now clock + 1))
                         reports).
  { apply (Forall_impl _ (P := fun m => exists document e i,
                                  nth_error (pendingPDFs st) i = Some document
                                  /\ preprocessed document = false
                                  /\ m = failure_message document e (env i)));
      [|exact Hreports].
    intros m (document & e & i & _ & _ & ->). cbn.
    intros E. apply StagingFacts.toString_inj in E. exact (Herrors i E). }
  repeat split; try assumption.
  assert (Hst1 : st1
                 = setMessages
                     (fun _ => (messages st ++ [user_message clock st])
                                 ++ assistant_message clock "" [] true
                                 :: reports) st1).
  { destruct st1; cbn in *. rewrite Hmsg. now rewrite <- app_assoc. }
  rewrite Hst1 at 1.
  exact (@run_deltas_exact clock _ reports st st1 _ Hpre Hpost Hdeltas "").
Qed.

(** X9.  A send that has reached its call of [streamChat], followed by
    content deltas and by the frame that completes the message.  The
    history is the one before the send followed by the user message, by
    one assistant message whose only block holds the deltas in order,
    with the references of the last frame and the streaming flag cleared,
    and by the reports of the staged documents that could not be
    processed on the way (none when every document was processed); nothing
    is staged or typed any more and the component is not streaming; the
    loop has ended, so that frames that come later change nothing.  The
    id of the assistant message must be the id of no other message. *)
Theorem exchange_completes `{Platform} `{Engine}
        (settings : Settings) (env : nat -> Retry) (clock : SendClock)
        (catch_now : Z) (st st1 : State) (s : Session) (request : ChatRequest)
        (chunks : list StreamingResponse) (final : StreamingResponse) :
  handleSend_request settings env clock catch_now st
  = (st1, Some (s, request)) ->
  Forall is_delta chunks ->
  chunk_type final = "message_complete" ->
  user_now clock <> assistant_now clock + 1 ->
  Forall (fun m => id m <> toString (assistant_now clock + 1)) (messages st) ->
  (forall i : nat, error_now (env i) <> assistant_now clock + 1) ->
  exists reports : list Message,
    messages st1
    = messages st ++ [user_message clock st;
                      assistant_message clock "" [] true] ++ reports
    /\ reported env st reports
    /\ (Forall (fun document => preprocessed document = true)
               (pendingPDFs st) -> reports = [])
    /\ run (Some s, st1) (map Frame chunks ++ [Frame final])
       = (None,
          settled (messages st
                     ++ [user_message clock st;
                         assistant_message clock (deltas chunks)
                                           (references_of final) false]
                     ++ reports)
                  st1)
    /\ forall more : list StreamingResponse,
        run (run (Some s, st1) (map Frame chunks ++ [Frame final]))
            (map Frame more)
        = run (Some s, st1) (map Frame chunks ++ [Frame final]).
Proof.
  intros Hrequest Hdeltas Hfinal Hclock Hfresh Herrors.
  destruct (send_deltas _ _ _ _ _ Hrequest Hdeltas Hclock Hfresh Herrors)
    as (reports & Hmsg & Hreports & Hinput & Himages & Hpre & Hpost & Hrun).
  exists reports. split; [exact Hmsg|]. split; [exact Hreports|].
  split; [intros Hready; exact (reported_none Hready Hreports)|].
  assert (Hend : run (Some s, st1) (map Frame chunks ++ [Frame final])
                 = (None,
                    settled (messages st
                               ++ [user_message clock st;
                                   assistant_message clock (deltas chunks)
                                     (references_of final) false]
                               ++ reports)
                            st1)).
  { unfold run in *. rewrite fold_left_app, Hrun. cbn [fold_left].
    rewrite (@complete_frame_step clock _ reports st st1 _ final
               Hpre Hpost Hinput Himages Hfinal).
    now rewrite <- app_assoc. }
  split; [exact Hend|].
  intros more. rewrite Hend. apply run_ended.
Qed.

(** X9, for the question [What is RAG?] sent with a staged document that
    cannot be processed, and answered by two deltas and a completion that
    brings one reference. *)
Lemma exchange_completes_witness :
  map (fun m => (role m, map content (contentBlocks m)))
      (messages
         (snd (run (Some (session Sample.send_clock Scenario.unprocessed ""),
                    fst (@handleSend_request Sample.platform Scenario.engine
                           defaults Scenario.retry Sample.send_clock
                           1700000000002 Scenario.unprocessed))
                   (map Frame [Sample.delta_frame "Hel";
                               Sample.delta_frame "lo"]
                        ++ [Frame {| chunk_type := "message_complete";
                                     chunk_content := None;
                                     chunk_error := None;
                                     chunk_references :=
                                       Some [Sample.handbook] |}]))))
  = [(user, ["What is RAG?"; "report.pdf"]);
     (assistant, ["Hello"]);
     (assistant,
      [("Error processing PDF document " ++ quote ++ "report.pdf" ++ quote
          ++ ": Failed to fetch")%string])].
Proof.
  assert (Hclock : user_now Sample.send_clock
                   <> assistant_now Sample.send_clock + 1) by discriminate.
  assert (Hdeltas : Forall is_delta
                           [Sample.delta_frame "Hel"; Sample.delta_frame "lo"])
    by (repeat constructor).
  assert (Herrors : forall i : nat,
             error_now (Scenario.retry i)
             <> assistant_now Sample.send_clock + 1)
    by (intros i; discriminate).
  assert (Hrequest :
            @handleSend_request Sample.platform Scenario.engine
              defaults Scenario.retry Sample.send_clock 1700000000002
              Scenario.unprocessed
            = (fst (@handleSend_request Sample.platform Scenario.engine
                      defaults Scenario.retry Sample.send_clock 1700000000002
                      Scenario.unprocessed),
               Some (session Sample.send_clock Scenario.unprocessed "",
                     request_of defaults Scenario.unprocessed [])))
    by reflexivity.
  destruct (@exchange_completes Sample.platform Scenario.engine
              _ _ _ _ _ _ _ _
              [Sample.delta_frame "Hel"; Sample.delta_frame "lo"]
              {| chunk_type := "message_complete";
                 chunk_content := None; chunk_error := None;
                 chunk_references := Some [Sample.handbook] |}
              Hrequest Hdeltas eq_refl Hclock (Forall_nil _) Herrors)
    as (reports & Hmsg & _ & _ & Hrun & _).
  rewrite Hrun. cbn [snd settled messages].
  assert (Hreports : reports
                     = [failure_message Sample.pending_report
                                        (JsError "Failed to fetch")
                                        (Scenario.retry 0)]).
  { cbn in Hmsg. now injection Hmsg as <-. }
  rewrite Hreports. reflexivity.
Defined.

(** X10.  A send that has reached its call of [streamChat], followed by
    content deltas and by an error frame: the text that has streamed so
    far is replaced, not followed, by the notice that carries the error
    of the frame; the assistant message keeps its empty list of
    references and its streaming flag is cleared; the reports of the
    documents that could not be processed stay after it; nothing is
    staged or typed any more, the component is not streaming, and the
    loop has ended.  The id of the assistant message must be the id of no
    other message. *)
Theorem exchange_fails `{Platform} `{Engine}
        (settings : Settings) (env : nat -> Retry) (clock : SendClock)
        (catch_now : Z) (st st1 : State) (s : Session) (request : ChatRequest)
        (chunks : list StreamingResponse) (final : StreamingResponse) :
  handleSend_request settings env clock catch_now st
  = (st1, Some (s, request)) ->
  Forall is_delta chunks ->
  chunk_type final = "error" ->
  user_now clock <> assistant_now clock + 1 ->
  Forall (fun m => id m <> toString (assistant_now clock + 1)) (messages st) ->
  (forall i : nat, error_now (env i) <> assistant_now clock + 1) ->
  exists reports : list Message,
    messages st1
    = messages st ++ [user_message clock st;
                      assistant_message clock "" [] true] ++ reports
    /\ reported env st reports
    /\ (Forall (fun document => preprocessed document = true)
               (pendingPDFs st) -> reports = [])
    /\ run (Some s, st1) (map Frame chunks ++ [Frame final])
       = (None,
          settled (messages st
                     ++ [user_message clock st;
                         assistant_message clock (apology final) [] false]
                     ++ reports)
                  st1)
    /\ forall more : list StreamingResponse,
        run (run (Some s, st1) (map Frame chunks ++ [Frame final]))
            (map Frame more)
        = run (Some s, st1) (map Frame chunks ++ [Frame final]).
Proof.
  intros Hrequest Hdeltas Hfinal Hclock Hfresh Herrors.
  destruct (send_deltas _ _ _ _ _ Hrequest Hdeltas Hclock Hfresh Herrors)
    as (reports & Hmsg & Hreports & Hinput & Himages & Hpre & Hpost & Hrun).
  exists reports. split; [exact Hmsg|]. split; [exact Hreports|].
  split; [intros Hready; exact (reported_none Hready Hreports)|].
  assert (Hend : run (Some s, st1) (map Frame chunks ++ [Frame final])
                 = (None,
                    settled (messages st
                               ++ [user_message clock st;
                                   assistant_message clock (apology final)
                                                     [] false]
                               ++ reports)
                            st1)).
  { unfold run in *. rewrite fold_left_app, Hrun. cbn [fold_left].
    rewrite (@error_frame_step clock _ reports st st1 _ final
               Hpre Hpost Hinput Himages Hfinal).
    now rewrite <- app_assoc. }
  split; [exact Hend|].
  intros more. rewrite Hend. apply run_ended.
Qed.

(** X10, for the question sent from a fresh component and answered by a
    delta followed by an error frame. *)
Lemma exchange_fails_witness :
  map (fun m => (role m, map content (contentBlocks m)))
      (messages
         (snd (run (Some (session Sample.send_clock Sample.question ""),
                    fst (@handleSend_request Sample.platform Scenario.engine
                           defaults Scenario.retry Sample.send_clock
                           1700000000002 Sample.question))
                   (map Frame [Sample.delta_frame "Hel"]
                        ++ [Frame {| chunk_type := "error";
                                     chunk_content := None;
                                     chunk_error := Some "Failed to fetch";
                                     chunk_references := None |}]))))
  = [(user, ["What is RAG?"]);
     (assistant, ["Sorry, an error occurred: Failed to fetch"])].
Proof.
  assert (Hclock : user_now Sample.send_clock
                   <> assistant_now Sample.send_clock + 1) by discriminate.
  assert (Hdeltas : Forall is_delta [Sample.delta_frame "Hel"])
    by (repeat constructor).
  assert (Herrors : forall i : nat,
             error_now (Scenario.retry i)
             <> assistant_now Sample.send_clock + 1)
    by (intros i; discriminate).
  assert (Hrequest :
            @handleSend_request Sample.platform Scenario.engine
              defaults Scenario.retry Sample.send_clock 1700000000002
              Sample.question
            = (fst (@handleSend_request Sample.platform Scenario.engine
                      defaults Scenario.retry Sample.send_clock 1700000000002
                      Sample.question),
               Some (session Sample.send_clock Sample.question "",
                     request_of defaults Sample.question [])))
    by reflexivity.
  destruct (@exchange_fails Sample.platform Scenario.engine
              _ _ _ _ _ _ _ _
              [Sample.delta_frame "Hel"]
              {| chunk_type := "error";
                 chunk_content := None;
                 chunk_error := Some "Failed to fetch";
                 chunk_references := None |}
              Hrequest Hdeltas eq_refl Hclock (Forall_nil _) Herrors)
    as (reports & Hmsg & _ & Hnone & Hrun & _).
  rewrite Hrun. cbn [snd settled messages].
  rewrite (Hnone (Forall_nil _)). reflexivity.
Defined.

(** X11.  Of the three upload handlers only the one for audio has no
    guard on the streaming flag.  While an answer streams, an upload of an
    image or of a document changes nothing, but an audio is transcribed
    and staged; the frame that ends the stream then empties the staged
    audios (and documents), so that this audio is dropped without having
    been sent. *)
Theorem audio_staged_while_streaming_is_dropped `{Platform}
        (file : File) (result : AudioResult) (clock : UploadClock)
        (s : Session) (st : State) (final : StreamingResponse) :
  isStreaming st = true ->
  chunk_type final = "message_complete" \/ chunk_type final = "error" ->
  (forall (f : File) (data : option string) (c : UploadClock),
      handleUploadImage f data c st = st)
  /\ (forall (f : File) (net : pdf_transport) (c : UploadClock),
         handleUploadPDFNew f net c st = st)
  /\ pendingAudios (handleUploadAudio file (AudioOk result) clock st)
     = pendingAudios st
         ++ [{| audio_id := toString (id_now clock); audio_file := file;
                audio_filename := result_filename result;
                duration := result_duration result;
                audio_transcription := Some (result_transcription result);
                audio_processed := Some true |}]
  /\ pendingAudios
       (snd (on_event (Some s, handleUploadAudio file (AudioOk result) clock st)
                      (Frame final)))
     = []
  /\ pendingPDFs
       (snd (on_event (Some s, handleUploadAudio file (AudioOk result) clock st)
                      (Frame final)))
     = [].
Proof.
  intros Hstreaming Hfinal.
  split; [|split; [|split; [|split]]].
  - intros f data c. unfold handleUploadImage. now rewrite Hstreaming.
  - intros f net c. unfold handleUploadPDFNew. now rewrite Hstreaming.
  - reflexivity.
  - cbn [on_event]. unfold on_chunk.
    destruct Hfinal as [-> | ->]; reflexivity.
  - cbn [on_event]. unfold on_chunk.
    destruct Hfinal as [-> | ->]; reflexivity.
Qed.

(** X11, for a voice memo uploaded while the answer to the question
    streams. *)
Lemma audio_staged_while_streaming_is_dropped_witness :
  List.length
    (pendingAudios
       (handleUploadAudio
          {| name := "memo.mp3"; size := 9000 |}
          (AudioOk {| result_filename := "memo.mp3"; result_duration := 3;
                      result_transcription := "hello" |})
          Sample.upload_clock (snd Sample.asked)))
  = 1%nat
  /\ pendingAudios
       (snd (on_event
               (Some (session Sample.send_clock Sample.question ""),
                handleUploadAudio
                  {| name := "memo.mp3"; size := 9000 |}
                  (AudioOk {| result_filename := "memo.mp3";
                              result_duration := 3;
                              result_transcription := "hello" |})
                  Sample.upload_clock (snd Sample.asked))
               (Frame {| chunk_type := "message_complete";
                         chunk_content := None; chunk_error := None;
                         chunk_references := None |})))
     = [].
Proof.
  destruct (@audio_staged_while_streaming_is_dropped Sample.platform
              {| name := "memo.mp3"; size := 9000 |}
              {| result_filename := "memo.mp3"; result_duration := 3;
                 result_transcription := "hello" |}
              Sample.upload_clock
              (session Sample.send_clock Sample.question "")
              (snd Sample.asked)
              {| chunk_type := "message_complete";
                 chunk_content := None; chunk_error := None;
                 chunk_references := None |}
              eq_refl (or_introl eq_refl))
    as (_ & _ & Hstaged & Hdropped & _).
  split; [now rewrite Hstaged | exact Hdropped].
Defined.

Lemma length_zero {A : Type} (l : list A) :
  (List.length l =? 0)%nat = true <-> l = [].
Proof. destruct l; cbn; split; intros; congruence. Qed.

Lemma length_positive {A : Type} (l : list A) :
  (0 <? List.length l)%nat = true <-> l <> [].
Proof. destruct l; cbn; split; intros; congruence. Qed.

Lemma nonempty_true (t : string) : nonempty t = true <-> t <> "".
Proof.
  unfold nonempty. rewrite negb_true_iff. apply String.eqb_neq.
Qed.

(** X12.  The gate of the input bar and the gate of [handleSend].  The
    Enter key calls [onSend] exactly when the key is Enter without Shift,
    no answer streams, and there is a text that is not blank or something
    staged; the send button is enabled exactly when there is such a text
    or something staged.  Whenever [handleSend] goes on, the input bar has
    let the send through; what the input bar lets through and
    [handleSend] drops at its first line are exactly the sends with
    nothing but documents staged. *)
Theorem gates_agree_except_for_documents (st : State) :
  (forall e : Keyboard.KeyboardEvent,
      In Keyboard.onSend (Keyboard.handleKeyDown (InputBar.props_of st) e)
      <-> Keyboard.key e = "Enter" /\ Keyboard.shiftKey e = false
          /\ isStreaming st = false
          /\ (trim (inputValue st) <> "" \/ pendingImages st <> []
              \/ pendingPDFs st <> [] \/ pendingAudios st <> []))
  /\ (InputBar.send_disabled (InputBar.props_of st) = false
      <-> trim (inputValue st) <> "" \/ pendingImages st <> []
          \/ pendingPDFs st <> [] \/ pendingAudios st <> [])
  /\ (InputBar.handleKeyDown_sends (InputBar.props_of st) = true
      <-> handleSend_returns st = false
          \/ (isStreaming st = false /\ only_documents st)).
Proof.
  assert (Hkey : InputBar.handleKeyDown_sends (InputBar.props_of st) = true
                 <-> isStreaming st = false
                     /\ (trim (inputValue st) <> "" \/ pendingImages st <> []
                         \/ pendingPDFs st <> [] \/ pendingAudios st <> [])).
  { unfold InputBar.handleKeyDown_sends, InputBar.props_of.
    cbn [InputBar.value InputBar.isStreaming InputBar.pendingImages
         InputBar.pendingPDFs InputBar.pendingAudios].
    rewrite andb_true_iff, !orb_true_iff, negb_true_iff,
      nonempty_true, !length_positive. tauto. }
  split; [|split].
  - intros e. unfold Keyboard.handleKeyDown. rewrite in_app_iff.
    split.
    + intros [Hin | Hin].
      * destruct (String.eqb (Keyboard.key e) "Enter") eqn:Hk;
          [|contradiction].
        destruct (Keyboard.shiftKey e) eqn:Hs; [contradiction|].
        cbn [negb andb] in Hin.
        destruct (InputBar.handleKeyDown_sends (InputBar.props_of st)) eqn:Hg.
        -- apply String.eqb_eq in Hk. pose proof (proj1 Hkey eq_refl). tauto.
        -- destruct Hin as [Hin | []]. discriminate.
      * exfalso.
        destruct (Keyboard.ctrlKey e || Keyboard.metaKey e);
          [|contradiction].
        repeat match type of Hin with
               | In _ (if ?c then _ else _) => destruct c
               end; cbn in Hin; intuition discriminate.
    + intros (Hk & Hs & Hgate). left.
      rewrite Hk, Hs. cbn [String.eqb Ascii.eqb Bool.eqb negb andb].
      replace (InputBar.handleKeyDown_sends (InputBar.props_of st)) with true
        by (symmetry; now apply Hkey).
      right. now left.
  - unfold InputBar.send_disabled, InputBar.props_of.
    cbn [InputBar.value InputBar.disabled InputBar.pendingImages
         InputBar.pendingPDFs InputBar.pendingAudios].
    rewrite orb_false_r.
    destruct (nonempty (trim (inputValue st))) eqn:Hn;
      [apply nonempty_true in Hn
      |apply not_true_iff_false in Hn; rewrite nonempty_true in Hn];
      destruct (pendingImages st); destruct (pendingPDFs st);
      destruct (pendingAudios st); cbn; intuition congruence.
  - rewrite Hkey, AppFacts.handleSend_gate. unfold only_documents.
    destruct (string_dec (trim (inputValue st)) "") as [Ht | Ht];
      destruct (pendingImages st); destruct (pendingAudios st);
      destruct (pendingPDFs st); intuition congruence.
Qed.

End ExchangeFacts.

(* ===================================================================== *)
(** * More on the citation resolver *)
(* ===================================================================== *)

Module RenderingFacts.
Import JS MessageBubble Citations StringFacts MessageBubbleFacts Rendering.
Local Open Scope string_scope.

Lemma source_text_segment (refs : option (list Reference)) (i : nat)
      (seg : segment) :
  source_text (element_of refs i seg) = part_of seg.
Proof.
  destruct seg as [t|digits]; cbn [element_of part_of].
  - now destruct (nonempty t).
  - now destruct (resolve refs digits).
Qed.

Lemma key_of_segment (refs : option (list Reference)) (i : nat)
      (seg : segment) :
  key_of (element_of refs i seg) = i.
Proof.
  destruct seg as [t|digits]; cbn [element_of].
  - now destruct (nonempty t).
  - now destruct (resolve refs digits).
Qed.

Lemma text_of_segments (refs : option (list Reference)) (segs : list segment) :
  forall i : nat, text_of (mapi (element_of refs) i segs) = flatten segs.
Proof.
  induction segs as [|seg segs IH]; intros i; [reflexivity|].
  cbn [mapi text_of flatten]. now rewrite source_text_segment, IH.
Qed.

Lemma keys_of_segments (refs : option (list Reference)) (segs : list segment) :
  forall i : nat,
    map key_of (mapi (element_of refs) i segs) = seq i (List.length segs).
Proof.
  induction segs as [|seg segs IH]; intros i; [reflexivity|].
  cbn [mapi map List.length seq]. now rewrite key_of_segment, IH.
Qed.

Lemma length_mapi {A B : Type} (f : nat -> A -> B) (l : list A) :
  forall i : nat, List.length (mapi f i l) = List.length l.
Proof.
  induction l as [|x l IH]; intros i; [reflexivity|].
  cbn [mapi List.length]. now rewrite IH.
Qed.

(** The elements of a text, read off a decomposition of it. *)
Lemma processContent_segments (message : Message) (block : ContentBlock) :
  exists segs : list segment,
    content block = flatten segs
    /\ processContent message block
       = mapi (element_of (references message)) 0 segs.
Proof.
  destruct (decompose (content block) (le_n _))
    as (first & rest & Hwf & Hcontent).
  exists (Literal first :: segments rest). split; [exact Hcontent|].
  unfold processContent, split_markers. rewrite Hcontent.
  rewrite (@split_segments rest first "" Hwf). cbn [String.append].
  change (first :: map part_of (segments rest))
    with (map part_of (Literal first :: segments rest)).
  apply mapi_segments. constructor; [apply Hwf|].
  apply segments_well_formed, Hwf.
Qed.

(** X13.  Rendering loses nothing of a text block and adds nothing: the
    elements [processContent] returns, read in order with each citation
    as its number in brackets, spell the content of the block; and the
    elements are keyed by their positions, 0, 1, 2, ... *)
Theorem rendering_keeps_the_text (message : Message) (block : ContentBlock) :
  text_of (processContent message block) = content block
  /\ map key_of (processContent message block)
     = seq 0 (List.length (processContent message block)).
Proof.
  destruct (processContent_segments message block) as (segs & Hc & Hp).
  rewrite Hp, Hc. split.
  - apply text_of_segments.
  - rewrite length_mapi. apply keys_of_segments.
Qed.

Lemma Forall_mapi {A B : Type} (P : B -> Prop) (f : nat -> A -> B)
      (l : list A) :
  (forall i x, P (f i x)) -> forall i, Forall P (mapi f i l).
Proof.
  intros Hf. induction l as [|x l IH]; intros i; cbn [mapi];
    constructor; auto.
Qed.

End RenderingFacts.

(* ===================================================================== *)
(** * The answer on display *)
(* ===================================================================== *)

Module ViewFacts.
Import JS MessageBubble App Conversation Exchange Rendering Send Sending.
Import ExchangeFacts RenderingFacts.

(** Without references, a part is rendered as text or as a dimmed
    citation. *)
Lemma render_part_dimmed (refs : option (list Reference)) (i : nat)
      (part : string) :
  refs = None \/ refs = Some [] -> dimmed (render_part refs i part).
Proof.
  intros Hrefs. unfold render_part.
  destruct (match_marker part) as [digits|].
  - destruct Hrefs as [-> | ->]; now split.
  - now destruct (nonempty part).
Qed.

Lemma last_message_snoc (st : State) (pre : list Message) (msg : Message) :
  messages st = pre ++ [msg] -> last_message st = Some msg.
Proof.
  intros E. unfold last_message. rewrite E, length_app. cbn [List.length].
  replace (List.length pre + 1 - 1)%nat with (List.length pre) by lia.
  rewrite nth_error_app2 by lia. now rewrite Nat.sub_diag.
Qed.

(** X14.  While the answer of a send streams, its citations are all
    dimmed.  When [handleSend] has reached its call of [streamChat], after
    any number of content deltas the message right after the user message
    (the last message, when every staged document was processed) is the
    assistant message with the text so far, the streaming flag set and an
    empty list of references, and every element [processContent] makes of
    a block of that message is text or a dimmed citation whose click only
    logs: no citation opens a reference before the completing frame has
    brought the references. *)
Theorem citations_are_dimmed_while_the_answer_streams `{Platform} `{Engine}
        (settings : Settings) (env : nat -> Retry) (clock : SendClock)
        (catch_now : Z) (st st1 : State) (s : Session) (request : ChatRequest)
        (chunks : list StreamingResponse) :
  handleSend_request settings env clock catch_now st
  = (st1, Some (s, request)) ->
  Forall is_delta chunks ->
  exists (s' : Session) (st' : State),
    run (Some s, st1) (map Frame chunks) = (Some s', st')
    /\ nth_error (messages st') (List.length (messages st) + 1)
       = Some (assistant_message clock (deltas chunks) [] true)
    /\ (Forall (fun document => preprocessed document = true)
               (pendingPDFs st) ->
        last_message st'
        = Some (assistant_message clock (deltas chunks) [] true))
    /\ forall block : ContentBlock,
        Forall dimmed
               (processContent
                  (assistant_message clock (deltas chunks) [] true) block).
Proof.
  intros Hrequest Hdeltas.
  destruct (AppFacts.send_then_deltas _ _ _ _ _ Hrequest Hdeltas)
    as (s' & st' & Hrun & Hi & _ & _ & _ & Hlast).
  exists s', st'. split; [exact Hrun|]. split; [exact Hi|].
  split; [exact Hlast|].
  intros block. unfold processContent. apply Forall_mapi.
  intros i part. apply render_part_dimmed. now right.
Qed.

(** X14, for an answer that cites a source in its first delta. *)
Lemma citations_are_dimmed_while_the_answer_streams_witness :
  exists msg : Message,
    last_message
      (snd (run (Some (session Sample.send_clock Sample.question ""),
                 fst (@handleSend_request Sample.platform Scenario.engine
                        defaults Scenario.retry Sample.send_clock
                        1700000000002 Sample.question))
                (map Frame [Sample.delta_frame "See [1]"])))
    = Some msg
    /\ processContent msg (text_block "See [1]")
       = [ReactMarkdown 0 "See ";
          ReferenceSuperscript 1 "1" LogInvalid
                               (Some "opacity-50 cursor-not-allowed");
          span 2 ""].
Proof.
  assert (Hdeltas : Forall is_delta [Sample.delta_frame "See [1]"])
    by (repeat constructor).
  assert (Hrequest :
            @handleSend_request Sample.platform Scenario.engine
              defaults Scenario.retry Sample.send_clock 1700000000002
              Sample.question
            = (fst (@handleSend_request Sample.platform Scenario.engine
                      defaults Scenario.retry Sample.send_clock 1700000000002
                      Sample.question),
               Some (session Sample.send_clock Sample.question "",
                     request_of defaults Sample.question [])))
    by reflexivity.
  destruct (@citations_are_dimmed_while_the_answer_streams
              Sample.platform Scenario.engine _ _ _ _ _ _ _ _
              [Sample.delta_frame "See [1]"] Hrequest Hdeltas)
    as (s' & st' & Hrun & _ & Hlast & _).
  exists (assistant_message Sample.send_clock "See [1]" [] true).
  rewrite Hrun. cbn [snd]. split; [exact (Hlast (Forall_nil _)) | reflexivity].
Defined.

End ViewFacts.

(* ===================================================================== *)
(** * The panels and the conversation list *)
(* ===================================================================== *)

Module ShellFacts.
Import JS MessageBubble App Component Shell Display Citations StringFacts.

Lemma substring_all (n : nat) :
  forall t : string, (String.length t <= n)%nat -> substring 0 n t = t.
Proof.
  induction n as [|n IH]; intros [|c t] Hlen; cbn in *; try reflexivity;
    try lia.
  now rewrite IH by lia.
Qed.

Lemma length_substring (n : nat) :
  forall t : string,
    String.length (substring 0 n t) = Nat.min n (String.length t).
Proof.
  induction n as [|n IH]; intros [|c t]; cbn; try reflexivity.
  now rewrite IH.
Qed.

Lemma preview_short (n : nat) (t : string) :
  (String.length t <= n)%nat -> preview n t = t.
Proof.
  intros Hlen. unfold preview. rewrite (substring_all _ Hlen).
  replace (n <? String.length t)%nat with false
    by (symmetry; apply Nat.ltb_ge, Hlen).
  apply append_nil_r.
Qed.

Lemma preview_long (n : nat) (t : string) :
  (n < String.length t)%nat ->
  preview n t = (substring 0 n t ++ "...")%string
  /\ String.length (preview n t) = (n + 3)%nat.
Proof.
  intros Hlen. unfold preview.
  replace (n <? String.length t)%nat with true
    by (symmetry; apply Nat.ltb_lt, Hlen).
  split; [reflexivity|].
  rewrite length_append, length_substring. cbn [String.length]. lia.
Qed.

Lemma preview_bound (n : nat) (t : string) :
  (String.length (preview n t) <= n + 3)%nat.
Proof.
  destruct (Nat.le_gt_cases (String.length t) n) as [Hlen | Hlen].
  - rewrite (preview_short _ Hlen). lia.
  - destruct (preview_long _ Hlen) as [_ ->]. lia.
Qed.

(** X15.  A click on a citation that resolves opens the reference drawer
    on that reference alone.  For a message with the references [l] and a
    number [k] between 1 and their count, the citation [processContent]
    makes of the marker opens [l[k-1]]; its click lists that reference in
    the drawer as the only one, selects it, opens the drawer, and raises
    an info toast titled with the source of the reference whose
    description is the text of the reference when that has at most 100
    characters and its first 100 characters followed by three dots
    otherwise.  A click on a dimmed citation changes nothing. *)
Theorem click_opens_the_cited_reference
        (message : Message) (l : list Reference) (digits : string)
        (i : nat) (now : Z) (ui : UI) :
  references message = Some l ->
  is_number digits ->
  1 <= parseInt digits <= Z.of_nat (List.length l) ->
  exists ref : Reference,
    nth_error l (Z.to_nat (parseInt digits - 1)) = Some ref
    /\ render_part (references message) i (part_of (Marker digits))
       = ReferenceSuperscript i digits (OpenReference ref) None
    /\ panels (onClick (OpenReference ref) now ui)
       = setReferenceDrawerOpen true
           (setSelectedReference (Some ref)
              (setSelectedReferences [ref] (panels ui)))
    /\ app (onClick (OpenReference ref) now ui)
       = showToast
           {| toast_id := toString now; toast_type := info;
              title := "Reference Source: " ++ source_info ref;
              description := Some (preview 100 (ref_text ref)) |} (app ui)
    /\ (String.length (preview 100 (ref_text ref)) <= 103)%nat
    /\ ((String.length (ref_text ref) <= 100)%nat ->
        preview 100 (ref_text ref) = ref_text ref)
    /\ ((100 < String.length (ref_text ref))%nat ->
        preview 100 (ref_text ref)
        = (substring 0 100 (ref_text ref) ++ "...")%string)
    /\ onClick LogInvalid now ui = ui.
Proof.
  intros Hrefs Hnumber Hrange.
  assert (Hnth : exists ref, nth_error l (Z.to_nat (parseInt digits - 1))
                             = Some ref).
  { destruct (nth_error l (Z.to_nat (parseInt digits - 1))) as [ref|] eqn:E;
      [now exists ref|].
    apply nth_error_None in E. lia. }
  destruct Hnth as [ref Hnth]. exists ref.
  split; [exact Hnth|].
  split.
  { rewrite (@MessageBubbleFacts.render_segment
               (references message) i (Marker digits) Hnumber).
    cbn [element_of]. unfold resolve. rewrite Hrefs.
    replace (1 <=? parseInt digits) with true
      by (symmetry; apply Z.leb_le; lia).
    replace (parseInt digits <=? Z.of_nat (List.length l)) with true
      by (symmetry; apply Z.leb_le; lia).
    cbn [andb]. now rewrite Hnth. }
  split; [reflexivity|]. split; [reflexivity|].
  split; [apply (preview_bound 100)|].
  split; [apply preview_short|].
  split; [apply preview_long | reflexivity].
Qed.

(** X15, for the citation [1] of the sample message. *)
Lemma click_opens_the_cited_reference_witness :
  selectedReferences
    (panels (onClick (OpenReference Sample.handbook) 1700000002000
                     {| app := initial; panels := mounted 0 0 0 |}))
  = [Sample.handbook]
  /\ option_map title
       (toast (app (onClick (OpenReference Sample.handbook) 1700000002000
                            {| app := initial; panels := mounted 0 0 0 |})))
     = Some "Reference Source: handbook.pdf - Page 3".
Proof.
  assert (Hnumber : is_number "1") by (split; [discriminate | reflexivity]).
  assert (Hrange : 1 <= parseInt "1"
                   <= Z.of_nat (List.length [Sample.handbook]))
    by (split; discriminate).
  destruct (@click_opens_the_cited_reference
              Sample.cited [Sample.handbook] "1" 1%nat 1700000002000
              {| app := initial; panels := mounted 0 0 0 |}
              eq_refl Hnumber Hrange)
    as (ref & Hnth & _ & Hpanels & Happ & _).
  injection Hnth as <-. rewrite Hpanels, Happ. split; reflexivity.
Defined.

Section Invariants.
Context `{Platform}.

Lemma act_panels_pipeline (l : option Session) (ui : UI) (a : action) :
  panels (snd (act (l, ui) (Pipeline a))) = panels ui.
Proof.
  cbn [act]. destruct (perform (l, app ui) a) as [l' st']. reflexivity.
Qed.

Lemma act_drawer (w : screen) (g : gesture) :
  drawer_shows_selection (panels (snd w)) ->
  drawer_shows_selection (panels (snd (act w g))).
Proof.
  destruct w as [l ui]. cbn [snd]. intros Hinv.
  destruct g as [a|c now|key|i| | |now date|i| |open|open].
  - now rewrite act_panels_pipeline.
  - cbn [act snd]. destruct c as [ref|]; [|exact Hinv].
    right. exists ref. now split.
  - cbn [act snd with_panels panels]. unfold handleKeyDown.
    destruct (String.eqb key "Escape"); [|exact Hinv].
    destruct Hinv as [(Hl & Hs & Ho) | (ref & Hl & Hs)].
    + left. now repeat split.
    + right. exists ref. now split.
  - cbn [act]. destruct Hinv as [(Hl & Hs & Ho) | (ref & Hl & Hs)].
    + rewrite Hl. destruct i; cbn [nth_error snd]; left; now repeat split.
    + rewrite Hl. destruct i as [|i]; cbn [nth_error snd].
      * right. exists ref. now split.
      * destruct i; cbn [nth_error snd]; right; exists ref; now split.
  - cbn [act snd with_panels panels].
    destruct Hinv as [(Hl & Hs & Ho) | (ref & Hl & Hs)].
    + left. now repeat split.
    + right. exists ref. now split.
  - exact Hinv.
  - exact Hinv.
  - cbn [act]. destruct (nth_error (conversations (panels ui)) i);
      exact Hinv.
  - exact Hinv.
  - exact Hinv.
  - exact Hinv.
Qed.

Lemma act_active (w : screen) (g : gesture) :
  active_is_listed (panels (snd w)) ->
  active_is_listed (panels (snd (act w g))).
Proof.
  destruct w as [l ui]. cbn [snd]. unfold active_is_listed. intros Hinv.
  destruct g as [a|c now|key|i| | |now date|i| |open|open];
    try exact Hinv.
  - now rewrite act_panels_pipeline.
  - cbn [act snd]. now destruct c.
  - cbn [act snd with_panels panels]. unfold handleKeyDown.
    now destruct (String.eqb key "Escape").
  - cbn [act]. now destruct (nth_error (selectedReferences (panels ui)) i).
  - cbn. now left.
  - cbn [act]. destruct (nth_error (conversations (panels ui)) i) as [c|] eqn:E;
      [|exact Hinv].
    cbn. apply in_map. eapply nth_error_In. exact E.
Qed.

Lemma act_grown (now1 now2 now3 : Z) (w : screen) (g : gesture) :
  only_grown now1 now2 now3 (panels (snd w)) ->
  only_grown now1 now2 now3 (panels (snd (act w g))).
Proof.
  destruct w as [l ui]. cbn [snd]. unfold only_grown. intros Hinv.
  destruct g as [a|c now|key|i| | |now date|i| |open|open];
    try exact Hinv.
  - now rewrite act_panels_pipeline.
  - cbn [act snd]. now destruct c.
  - cbn [act snd with_panels panels]. unfold handleKeyDown.
    now destruct (String.eqb key "Escape").
  - cbn [act]. now destruct (nth_error (selectedReferences (panels ui)) i).
  - destruct Hinv as (added & Hc & Hadded).
    exists ({| conversation_id := toString now;
               conversation_title := "New Conversation";
               conversation_timestamp := date; messageCount := 0 |} :: added).
    split; [cbn; now rewrite Hc|].
    constructor; [now split | exact Hadded].
  - cbn [act]. now destruct (nth_error (conversations (panels ui)) i).
Qed.

End Invariants.

(** X16.  Whatever the user and the network do from the moment the
    component mounts, the reference drawer never lists more than one
    reference: either it has nothing to show and is closed, or it lists
    one reference and that reference is the selected one; the pane of the
    drawer for the case that nothing is selected is never on display. *)
Theorem drawer_lists_the_selected_reference `{Platform}
        (now1 now2 now3 : Z) (gestures : list gesture) :
  drawer_shows_selection
    (panels (snd (act_all (start now1 now2 now3) gestures))).
Proof.
  unfold act_all.
  assert (Hstart : drawer_shows_selection
                     (panels (snd (start now1 now2 now3))))
    by (left; now repeat split).
  revert Hstart. generalize (start now1 now2 now3).
  induction gestures as [|g gestures IH]; intros w Hw; [exact Hw|].
  cbn [fold_left]. apply IH. now apply act_drawer.
Qed.

(** X17.  Whatever the user and the network do from the moment the
    component mounts, the active conversation is one of the list, and the
    list is the one the component mounted with, preceded by the
    conversations started since, each still titled [New Conversation]
    with a message count of 0: no conversation is ever removed, renamed
    or counted. *)
Theorem conversations_only_grow `{Platform}
        (now1 now2 now3 : Z) (gestures : list gesture) :
  active_is_listed (panels (snd (act_all (start now1 now2 now3) gestures)))
  /\ only_grown now1 now2 now3
                (panels (snd (act_all (start now1 now2 now3) gestures))).
Proof.
  unfold act_all.
  assert (Hstart : active_is_listed (panels (snd (start now1 now2 now3)))
                   /\ only_grown now1 now2 now3
                                 (panels (snd (start now1 now2 now3)))).
  { split; [now left|]. exists []. split; [reflexivity | constructor]. }
  revert Hstart. generalize (start now1 now2 now3).
  induction gestures as [|g gestures IH]; intros w Hw; [exact Hw|].
  cbn [fold_left]. apply IH. destruct Hw as [Ha Hg].
  split; [now apply act_active | now apply act_grown].
Qed.

Lemma on_event_length (w : world) (ev : event) :
  List.length (messages (snd (on_event w ev)))
  = List.length (messages (snd w)).
Proof.
  destruct w as [[s|] st], ev as [chunk|]; cbn [on_event snd];
    try reflexivity.
  - unfold on_chunk.
    repeat match goal with
           | |- context [if ?c then _ else _] => destruct c
           end; cbn [snd]; unfold update_message; cbn;
      now rewrite ?length_map.
  - unfold handleStop. cbn. now rewrite length_map.
  - unfold handleStop. cbn. now rewrite length_map.
Qed.

Lemma act_stream `{Platform} (l : option Session) (ui : UI) (ev : event) :
  act (l, ui) (Pipeline (Stream ev))
  = (fst (on_event (l, app ui) ev),
     {| app := snd (on_event (l, app ui) ev); panels := panels ui |}).
Proof.
  cbn [act perform]. now destruct (on_event (l, app ui) ev).
Qed.

Lemma streamed_length `{Platform} (events : list event) :
  forall w : screen,
    List.length (messages (app (snd (act_all w (streamed events)))))
    = List.length (messages (app (snd w))).
Proof.
  unfold act_all, streamed.
  induction events as [|ev events IH]; intros [l ui]; [reflexivity|].
  cbn [map fold_left]. rewrite IH, act_stream. cbn [snd app].
  apply (on_event_length (l, app ui)).
Qed.

(** X18.  The frames of a stream and the stop button never add or remove
    a message.  So when the user starts a conversation, or clicks one of
    the list, while an answer streams, the history is emptied and stays
    empty whatever frames follow: the answer is lost.  The switch itself
    leaves the streaming flag, the input and the staged attachments as
    they are. *)
Theorem switching_conversation_loses_the_streaming_answer `{Platform}
        (l : option Session) (ui : UI) (events : list event) :
  List.length (messages (app (snd (act_all (l, ui) (streamed events)))))
  = List.length (messages (app ui))
  /\ forall g : gesture,
      (exists now date, g = NewConversation now date)
      \/ (exists i c, g = SelectConversation i
                      /\ nth_error (conversations (panels ui)) i = Some c) ->
      messages (app (snd (act_all (act (l, ui) g) (streamed events)))) = []
      /\ fst (act (l, ui) g) = l
      /\ app (snd (act (l, ui) g)) = setMessages (fun _ => []) (app ui).
Proof.
  split; [apply (streamed_length events (l, ui))|].
  intros g Hg.
  assert (Hswitch : fst (act (l, ui) g) = l
                    /\ app (snd (act (l, ui) g))
                       = setMessages (fun _ => []) (app ui)).
  { destruct Hg as [(now & date & ->) | (i & c & -> & Hc)]; cbn [act].
    - now split.
    - rewrite Hc. now split. }
  split; [|exact Hswitch].
  apply length_zero_iff_nil. rewrite streamed_length.
  destruct Hswitch as [_ ->]. reflexivity.
Qed.

(** X18, for a conversation started after the first delta of the answer
    to the question. *)
Lemma switching_conversation_loses_the_streaming_answer_witness :
  messages
    (app (snd (@act_all Sample.platform
                 (@act Sample.platform
                    (fst (run Sample.asked [Frame (Sample.delta_frame "Hel")]),
                     {| app := snd (run Sample.asked
                                        [Frame (Sample.delta_frame "Hel")]);
                        panels := mounted 0 0 0 |})
                    (NewConversation 1700000003000 1700000003000))
                 (streamed [Frame (Sample.delta_frame "lo")]))))
  = [].
Proof.
  refine (proj1 (proj2 (@switching_conversation_loses_the_streaming_answer
                          Sample.platform _ _ _) _ _)).
  left. now exists 1700000003000, 1700000003000.
Defined.

End ShellFacts.

(* ===================================================================== *)
(** * The request of a send *)
(* ===================================================================== *)

Module SendFacts.
Import JS MessageBubble App Conversation Exchange Send Sending Processing.
Import StringFacts ChatAPIFacts RequestFacts ExchangeFacts DocumentFacts.
Import ViewFacts.

Section Requests.
Context `{Platform} `{Engine}.

Lemma on_event_toast (w : world) (ev : event) :
  toast (snd (on_event w ev)) = toast (snd w).
Proof.
  destruct w as [[s|] st], ev as [chunk|]; cbn [on_event snd];
    try reflexivity.
  unfold on_chunk.
  repeat match goal with
         | |- context [if ?c then _ else _] => destruct c
         end; reflexivity.
Qed.

Lemma run_toast (events : list event) :
  forall w : world, toast (snd (run w events)) = toast (snd w).
Proof.
  unfold run. induction events as [|ev events IH]; intros w; [reflexivity|].
  cbn [fold_left]. now rewrite IH, on_event_toast.
Qed.

End Requests.

(** X19.  The request of a send.  When the send passes the gate, every
    staged document is processed with a list of chunks that is not empty
    and holds no [null], and the first two chunks have a content that is
    a string, [null] or absent, then [handleSend] calls [streamChat]
    without having touched the state again, and the request carries: as
    [content] the input as typed, not trimmed; as [content_blocks] the
    staged images, then the staged audios, and neither the text nor the
    documents; as [pdf_chunks] the chunks of the documents in the order of
    the documents; as [history] one entry for each message that was in
    the history before the send, not the message being sent; and the
    model and the knowledge base that are selected. *)
Theorem request_of_a_send `{Platform} `{Engine}
        (settings : Settings) (env : nat -> Retry) (clock : SendClock)
        (catch_now : Z) (st : State) (itemss : list (list json)) :
  handleSend_returns st = false ->
  Forall2 ready (pendingPDFs st) itemss ->
  previews (firstn 2 (List.concat itemss)) = None ->
  exists (s : Session) (st1 : State),
    handleSend clock st = (st1, Some s)
    /\ handleSend_request settings env clock catch_now st
       = (st1, Some (s, request_of settings st (List.concat itemss))).
Proof.
  intros Hgate Hready Hpreview.
  exists (session clock st ""),
         (streaming_state clock (messages st ++ [user_message clock st]) "" st).
  split; [now apply handleSend_passes|].
  unfold handleSend_request. rewrite (@handleSend_passes clock st Hgate).
  rewrite (@prepare_ready _ _ settings env clock st itemss Hready), Hpreview.
  reflexivity.
Qed.

(** X19, for a question sent with a photo and a processed document. *)
Lemma request_of_a_send_witness :
  option_map snd
    (snd (@handleSend_request Sample.platform Scenario.engine
            defaults Scenario.retry Sample.send_clock 1700000000002
            Scenario.illustrated))
  = Some {| request_content := "What is RAG?";
            content_blocks := [image_block Scenario.staged_photo];
            pdf_chunks := [JObj [("id", JStr "c0"); ("content", JStr "Intro")]];
            history := [];
            request_model := "gpt-4o";
            knowledge_base := "default" |}.
Proof.
  assert (Hready : Forall2 ready (pendingPDFs Scenario.illustrated)
                           [[JObj [("id", JStr "c0");
                                   ("content", JStr "Intro")]]]).
  { repeat constructor; discriminate. }
  destruct (@request_of_a_send Sample.platform Scenario.engine
              defaults Scenario.retry Sample.send_clock 1700000000002
              Scenario.illustrated _ eq_refl Hready eq_refl)
    as (s & st1 & _ & Hrequest).
  rewrite Hrequest. reflexivity.
Defined.

(** X20.  The toast [Connection Failed] is out of reach of a send
    without staged documents.  Such a send that passes the gate always
    gets as far as the call of [streamChat]; and from there on, whatever
    frames the stream yields and whenever the user stops it, the toast
    stays the one it was before the send. *)
Theorem no_connection_toast_without_documents `{Platform} `{Engine}
        (settings : Settings) (env : nat -> Retry) (clock : SendClock)
        (catch_now : Z) (st : State) (events : list event) :
  handleSend_returns st = false ->
  pendingPDFs st = [] ->
  exists (s : Session) (st1 : State),
    handleSend_request settings env clock catch_now st
    = (st1, Some (s, request_of settings st []))
    /\ toast st1 = toast st
    /\ toast (snd (run (Some s, st1) events)) = toast st.
Proof.
  intros Hgate Hnone.
  assert (Hready : Forall2 ready (pendingPDFs st) [])
    by (rewrite Hnone; constructor).
  destruct (@request_of_a_send _ _ settings env clock catch_now st []
              Hgate Hready eq_refl) as (s & st1 & Hsend & Hrequest).
  exists s, st1. split; [exact Hrequest|].
  assert (Htoast : toast st1 = toast st).
  { rewrite (@handleSend_passes clock st Hgate) in Hsend.
    injection Hsend as <- _. reflexivity. }
  split; [exact Htoast|].
  now rewrite run_toast.
Qed.

(** X20, for the question sent from a fresh component and answered by an
    error frame. *)
Lemma no_connection_toast_without_documents_witness :
  exists (s : Session) (st1 : State),
    @handleSend_request Sample.platform Scenario.engine
      defaults Scenario.retry Sample.send_clock 1700000000002 Sample.question
    = (st1, Some (s, request_of defaults Sample.question []))
    /\ toast st1 = None
    /\ toast (snd (run (Some s, st1)
                       [Frame {| chunk_type := "error"; chunk_content := None;
                                 chunk_error := Some "Failed to fetch";
                                 chunk_references := None |}]))
       = None.
Proof.
  exact (@no_connection_toast_without_documents
           Sample.platform Scenario.engine
           defaults Scenario.retry Sample.send_clock 1700000000002
           Sample.question
           [Frame {| chunk_type := "error"; chunk_content := None;
                     chunk_error := Some "Failed to fetch";
                     chunk_references := None |}]
           eq_refl eq_refl).
Defined.

Section Chunks.
Context `{Platform} `{Engine}.

Lemma preprocessed_listed (document : PendingPDF) (items : list json) :
  listed document items -> preprocessed document = true.
Proof.
  intros (Hp & Hc & Hne). unfold preprocessed. rewrite Hp, Hc.
  cbn [truthy andb]. unfold length_gt_zero. cbn [length_of].
  destruct items; [contradiction | reflexivity].
Qed.

(** The loop over documents that are all processed with lists of chunks:
    the state is not touched; the loop throws at the first [null] chunk,
    and collects the chunks in order when there is none. *)
Lemma collect_listed (env : nat -> Retry) (pdfs : list PendingPDF)
      (itemss : list (list json)) :
  Forall2 listed pdfs itemss ->
  forall (i : nat) (all : list json) (st : State),
    collect env i pdfs all st
    = (st, if has_null (List.concat itemss)
           then inl (JsError content_of_null)
           else inr (all ++ List.concat itemss)).
Proof.
  induction 1 as [|document items pdfs itemss Hlisted _ IH];
    intros i all st; cbn [collect List.concat].
  - cbn. now rewrite app_nil_r.
  - rewrite (preprocessed_listed Hlisted).
    destruct Hlisted as (_ & Hc & _). rewrite Hc.
    unfold chunk_contents, has_null. rewrite existsb_app.
    fold (has_null items). fold (has_null (List.concat itemss)).
    destruct (has_null items); [reflexivity|].
    cbn [concat_chunks orb]. rewrite IH. now rewrite app_assoc.
Qed.

Lemma has_null_In (items : list json) :
  has_null items = true <-> In JNull items.
Proof.
  unfold has_null. rewrite existsb_exists. split.
  - intros (chunk & Hin & Hnull). now destruct chunk.
  - intros Hin. now exists JNull.
Qed.

(** Without a [null] chunk, the debug preview throws only for a content
    it cannot cut. *)
Lemma previews_substring (first : list json) (e : thrown) :
  has_null first = false ->
  previews first = Some e ->
  e = JsError substring_is_not_a_function.
Proof.
  induction first as [|c first IH]; [discriminate|].
  cbn [has_null existsb previews]. intros Hnull.
  apply orb_false_iff in Hnull. destruct Hnull as [Hc Hrest].
  unfold preview_throws.
  destruct c; try discriminate;
    repeat match goal with
           | |- context [match get "content" ?v with _ => _ end] =>
               destruct (get "content" v) as [[]|]
           end;
    first [ now intros [= <-] | now apply IH ].
Qed.

Lemma has_null_firstn (n : nat) (items : list json) :
  has_null items = false -> has_null (firstn n items) = false.
Proof.
  revert n. induction items as [|c items IH]; intros [|n]; cbn; auto.
  intros Hnull. apply orb_false_iff in Hnull. destruct Hnull as [-> Hrest].
  now apply IH.
Qed.

End Chunks.

(** X21.  Chunks of an odd shape make a send give up.  When the staged
    documents are all processed with lists of chunks, and one of the
    chunks is [null], the collection of the chunks throws where it reads
    the content of the chunk; when none is [null] but one of the first two
    has a content that is neither a string nor [null] nor absent, the
    debug preview throws where it cuts the content.  Either way
    [handleSend] leaves through its [catch] clause before [streamChat] is
    called: no request is made, the toast reads [Connection Failed], the
    component is not streaming, the staged documents and audios are
    dropped, and the assistant message created for the answer stays the
    last message, empty and with its streaming flag set. *)
Theorem odd_chunks_abort_the_send `{Platform} `{Engine}
        (settings : Settings) (env : nat -> Retry) (clock : SendClock)
        (catch_now : Z) (st : State) (itemss : list (list json)) :
  handleSend_returns st = false ->
  Forall2 listed (pendingPDFs st) itemss ->
  In JNull (List.concat itemss)
  \/ previews (firstn 2 (List.concat itemss)) <> None ->
  let st' := fst (handleSend_request settings env clock catch_now st) in
  snd (prepare settings env st (session clock st "")
               (fst (handleSend clock st)))
  = inl (JsError (if has_null (List.concat itemss)
                  then content_of_null
                  else substring_is_not_a_function))
  /\ snd (handleSend_request settings env clock catch_now st) = None
  /\ toast st' = Some (connection_failed catch_now)
  /\ isStreaming st' = false
  /\ pendingPDFs st' = []
  /\ pendingAudios st' = []
  /\ messages st'
     = messages st ++ [user_message clock st;
                       assistant_message clock "" [] true]
  /\ last_message st' = Some (assistant_message clock "" [] true).
Proof.
  intros Hgate Hlisted Hodd. cbv zeta.
  unfold handleSend_request. rewrite (@handleSend_passes clock st Hgate).
  cbn [fst].
  set (st1 := streaming_state clock
                (messages st ++ [user_message clock st]) "" st).
  assert (Hprepare :
            prepare settings env st (session clock st "") st1
            = (st1, inl (JsError (if has_null (List.concat itemss)
                                  then content_of_null
                                  else substring_is_not_a_function)))).
  { unfold prepare. cbn [pdfDocuments session].
    destruct (pendingPDFs st) as [|p l] eqn:E.
    - inversion Hlisted; subst. cbn in Hodd. destruct Hodd as [[] | Hodd].
      now contradiction Hodd.
    - rewrite (collect_listed env Hlisted). cbn [app].
      destruct (has_null (List.concat itemss)) eqn:Hnull; [reflexivity|].
      destruct Hodd as [Hin | Hpreview].
      + apply has_null_In in Hin. congruence.
      + destruct (previews (firstn 2 (List.concat itemss))) as [e|] eqn:Ep;
          [|now contradiction Hpreview].
        now rewrite (previews_substring _ (has_null_firstn 2 _ Hnull) Ep). }
  rewrite Hprepare. cbn [fst snd].
  assert (Hmessages :
            messages (handleSend_catch catch_now st1)
            = messages st ++ [user_message clock st;
                              assistant_message clock "" [] true]).
  { cbn. now rewrite <- app_assoc. }
  repeat split; try reflexivity; try exact Hmessages.
  now apply (@last_message_snoc _ (messages st ++ [user_message clock st])).
Qed.

(** X21, for a document whose only chunk has the number 7 as content,
    and for a document whose second chunk is [null]. *)
Lemma odd_chunks_abort_the_send_witness :
  (option_map title
     (toast (fst (@handleSend_request Sample.platform Scenario.engine
                    defaults Scenario.retry Sample.send_clock 1700000000002
                    Scenario.odd)))
   = Some "Connection Failed"
   /\ snd (@handleSend_request Sample.platform Scenario.engine
             defaults Scenario.retry Sample.send_clock 1700000000002
             Scenario.odd)
      = None
   /\ snd (@prepare Sample.platform Scenario.engine defaults Scenario.retry
             Scenario.odd (session Sample.send_clock Scenario.odd "")
             (fst (handleSend Sample.send_clock Scenario.odd)))
      = inl (JsError "c.content?.substring is not a function"))
  /\ (snd (@handleSend_request Sample.platform Scenario.engine
             defaults Scenario.retry Sample.send_clock 1700000000002
             Scenario.torn)
      = None
      /\ snd (@prepare Sample.platform Scenario.engine defaults Scenario.retry
                Scenario.torn (session Sample.send_clock Scenario.torn "")
                (fst (handleSend Sample.send_clock Scenario.torn)))
         = inl (JsError "Cannot read properties of null (reading 'content')")).
Proof.
  split.
  - assert (Hlisted : Forall2 listed (pendingPDFs Scenario.odd)
                              [[JObj [("id", JStr "c0"); ("content", JNum 7)]]]).
    { repeat constructor; discriminate. }
    destruct (@odd_chunks_abort_the_send Sample.platform Scenario.engine
                defaults Scenario.retry Sample.send_clock 1700000000002
                Scenario.odd _ eq_refl Hlisted)
      as (Hthrown & Hnone & Htoast & _).
    + right. discriminate.
    + split; [now rewrite Htoast|]. split; [exact Hnone | exact Hthrown].
  - assert (Hlisted : Forall2 listed (pendingPDFs Scenario.torn)
                              [[JObj [("id", JStr "c0");
                                      ("content", JStr "Intro")];
                                JNull]]).
    { repeat constructor; discriminate. }
    destruct (@odd_chunks_abort_the_send Sample.platform Scenario.engine
                defaults Scenario.retry Sample.send_clock 1700000000002
                Scenario.torn _ eq_refl Hlisted)
      as (Hthrown & Hnone & _).
    + left. cbn. tauto.
    + split; [exact Hnone | exact Hthrown].
Defined.

(** X22.  A staged document that is not processed when the message is
    sent is processed then; when that throws, the document is dropped and
    the send goes on without it.  The chunks of the other documents, which
    are processed, are collected in order and the request is made; the
    staged documents are those before the send without the documents that
    have the id of the failed one; after the assistant message created for
    the answer the history has one more assistant message, which names
    the file and the error; the toast is the failure toast of
    [processPDF]; and the component is streaming. *)
Theorem document_that_fails_at_send_is_reported `{Platform} `{Engine}
        (settings : Settings) (env : nat -> Retry) (clock : SendClock)
        (catch_now : Z) (st : State)
        (before after : list PendingPDF) (document : PendingPDF)
        (itemsb itemsa : list (list json)) (e : thrown) :
  handleSend_returns st = false ->
  pendingPDFs st = before ++ document :: after ->
  Forall2 ready before itemsb ->
  Forall2 ready after itemsa ->
  preprocessed document = false ->
  snd (processPDF document (retry_net (env (List.length before)))
                  (retry_now (env (List.length before)))
                  (fst (handleSend clock st)))
  = Threw e ->
  previews (firstn 2 (List.concat itemsb ++ List.concat itemsa)) = None ->
  let st' := fst (handleSend_request settings env clock catch_now st) in
  (exists s : Session,
      snd (handleSend_request settings env clock catch_now st)
      = Some (s, request_of settings st
                            (List.concat itemsb ++ List.concat itemsa)))
  /\ messages st'
     = messages st
         ++ [user_message clock st; assistant_message clock "" [] true;
             failure_message document e (env (List.length before))]
  /\ pendingPDFs st' = remove_pdf (pdf_id document) (pendingPDFs st)
  /\ toast st'
     = Some (failure_toast document e (retry_now (env (List.length before))))
  /\ isStreaming st' = true
  /\ pdfProcessing st' = idle.
Proof.
  intros Hgate Hpdfs Hbefore Hafter Hraw Hthrown Hpreview. cbv zeta.
  rewrite (@handleSend_passes clock st Hgate) in Hthrown. cbn [fst] in Hthrown.
  unfold handleSend_request. rewrite (@handleSend_passes clock st Hgate).
  set (st1 := streaming_state clock
                (messages st ++ [user_message clock st]) "" st) in *.
  unfold prepare. cbn [pdfDocuments session].
  assert (Hdocs : match pendingPDFs st with
                  | [] => None
                  | p :: l => Some (p :: l)
                  end = Some (before ++ document :: after)).
  { rewrite Hpdfs. now destruct before. }
  rewrite Hdocs, collect_app, (collect_ready env Hbefore).
  cbn [app collect Nat.add]. rewrite Hraw.
  pose proof (processPDF_effect document
                (retry_net (env (List.length before)))
                (retry_now (env (List.length before))) st1) as Heff.
  destruct (processPDF document _ _ st1) as [[st2 warned] o].
  cbn [snd] in Hthrown. subst o. destruct Heff as [Hidle Hq].
  rewrite (collect_ready env Hafter), Hpreview. cbn [fst snd].
  unfold quiet in Hq.
  destruct Hq as (Hi & Hmsg & Hs & Himg & Hpdf & Haud & Ht).
  rewrite report_failure_message. cbn.
  rewrite Hmsg, Hpdf, Ht, Hs, Hidle. cbn. rewrite <- !app_assoc.
  repeat split. now eexists.
Qed.

(** X22, for a document staged but not processed, sent while the
    processing endpoint is out of reach. *)
Lemma document_that_fails_at_send_is_reported_witness :
  Sample.answer
    (None,
     fst (@handleSend_request Sample.platform Scenario.engine
            defaults Scenario.retry Sample.send_clock 1700000000002
            Scenario.unprocessed))
  = Some [("Error processing PDF document " ++ quote ++ "report.pdf" ++ quote
             ++ ": Failed to fetch")%string]
  /\ pendingPDFs
       (fst (@handleSend_request Sample.platform Scenario.engine
               defaults Scenario.retry Sample.send_clock 1700000000002
               Scenario.unprocessed))
     = [].
Proof.
  destruct (@document_that_fails_at_send_is_reported
              Sample.platform Scenario.engine
              defaults Scenario.retry Sample.send_clock 1700000000002
              Scenario.unprocessed [] [] Sample.pending_report [] []
              (JsError "Failed to fetch")
              eq_refl eq_refl (Forall2_nil _) (Forall2_nil _)
              eq_refl eq_refl eq_refl)
    as (_ & Hmessages & Hpdfs & _).
  split.
  - unfold Sample.answer, last_message. cbn [snd]. rewrite Hmessages.
    reflexivity.
  - rewrite Hpdfs. reflexivity.
Defined.

Lemma as_error_frame `{Platform} (e : thrown) (now : string) :
  as_StreamingResponse (ChatAPI.error_frame e now)
  = Some {| chunk_type := "error"; chunk_content := None;
            chunk_error := Some (error_message e);
            chunk_references := None |}.
Proof. reflexivity. Qed.

(** X23.  A transport failure ends as an apology in the chat.  When the
    [try] block of [streamChat] throws before any frame (the connection
    is refused, the status is not a success, the response has no body),
    the generator yields one frame; that frame has the declared type of a
    frame; and the loop of a send that has reached its call of
    [streamChat] and reads that frame replaces the empty text of the
    assistant message by the notice that ends with the message of the
    error, clears the streaming flags, drops what is staged, and ends.
    The reports of the documents that could not be processed on the way
    stay after the assistant message.  The id of the assistant message
    must be the id of no other message. *)
Theorem transport_failure_becomes_an_apology `{Platform} `{Engine}
        (net : ChatAPI.fetch_result) (now : string) (e : thrown)
        (settings : Settings) (env : nat -> Retry) (clock : SendClock)
        (catch_now : Z) (st st1 : State) (s : Session)
        (request : ChatRequest) :
  ChatAPI.streamChat_try net = ([], Throws e) ->
  handleSend_request settings env clock catch_now st
  = (st1, Some (s, request)) ->
  user_now clock <> assistant_now clock + 1 ->
  Forall (fun m => id m <> toString (assistant_now clock + 1)) (messages st) ->
  (forall i : nat, error_now (env i) <> assistant_now clock + 1) ->
  exists (chunks : list StreamingResponse) (reports : list Message),
    as_StreamingResponses (ChatAPI.frames (fst (ChatAPI.streamChat net now)))
    = Some chunks
    /\ messages st1
       = messages st ++ [user_message clock st;
                         assistant_message clock "" [] true] ++ reports
    /\ reported env st reports
    /\ (Forall (fun document => preprocessed document = true)
               (pendingPDFs st) -> reports = [])
    /\ run (Some s, st1) (map Frame chunks)
       = (None,
          settled (messages st
                     ++ [user_message clock st;
                         assistant_message
                           clock
                           ("Sorry, an error occurred: " ++ error_message e)
                           [] false]
                     ++ reports)
                  st1).
Proof.
  intros Hthrown Hrequest Hclock Hfresh Herrors.
  set (chunk := {| chunk_type := "error"; chunk_content := None;
                   chunk_error := Some (error_message e);
                   chunk_references := None |}).
  destruct (@send_deltas _ _ settings env clock catch_now st st1 s request []
                         Hrequest (Forall_nil _) Hclock Hfresh Herrors)
    as (reports & Hmsg & Hreports & Hinput & Himages & Hpre & Hpost & Hrun).
  exists [chunk], reports.
  split.
  { unfold ChatAPI.streamChat. rewrite Hthrown. reflexivity. }
  split; [exact Hmsg|]. split; [exact Hreports|].
  split; [intros Hready; exact (reported_none Hready Hreports)|].
  cbn [map deltas run fold_left] in Hrun. injection Hrun as -> Hst1.
  cbn [map run fold_left]. rewrite Hst1.
  rewrite (@error_frame_step clock _ reports st st1 _ chunk
             Hpre Hpost Hinput Himages eq_refl).
  now rewrite <- app_assoc.
Qed.

(** X23, for a connection that is refused. *)
Lemma transport_failure_becomes_an_apology_witness :
  exists chunks : list StreamingResponse,
    @as_StreamingResponses Sample.platform
      (ChatAPI.frames
         (fst (@ChatAPI.streamChat Sample.platform
                 (ChatAPI.Rejected (JsError "Failed to fetch"))
                 "2026-01-01T00:00:00.000Z")))
    = Some chunks
    /\ map (fun m => (role m, map content (contentBlocks m)))
           (messages
              (snd (run (Some (session Sample.send_clock Sample.question ""),
                         fst (@handleSend_request Sample.platform
                                Scenario.engine defaults Scenario.retry
                                Sample.send_clock 1700000000002
                                Sample.question))
                        (map Frame chunks))))
       = [(user, ["What is RAG?"]);
          (assistant, ["Sorry, an error occurred: Failed to fetch"])].
Proof.
  assert (Hclock : user_now Sample.send_clock
                   <> assistant_now Sample.send_clock + 1) by discriminate.
  assert (Herrors : forall i : nat,
             error_now (Scenario.retry i)
             <> assistant_now Sample.send_clock + 1)
    by (intros i; discriminate).
  assert (Hrequest :
            @handleSend_request Sample.platform Scenario.engine
              defaults Scenario.retry Sample.send_clock 1700000000002
              Sample.question
            = (fst (@handleSend_request Sample.platform Scenario.engine
                      defaults Scenario.retry Sample.send_clock 1700000000002
                      Sample.question),
               Some (session Sample.send_clock Sample.question "",
                     request_of defaults Sample.question [])))
    by reflexivity.
  destruct (@transport_failure_becomes_an_apology
              Sample.platform Scenario.engine
              (ChatAPI.Rejected (JsError "Failed to fetch"))
              "2026-01-01T00:00:00.000Z" (JsError "Failed to fetch")
              _ _ _ _ _ _ _ _
              eq_refl Hrequest Hclock (Forall_nil _) Herrors)
    as (chunks & reports & Hframes & _ & _ & Hnone & Hrun).
  exists chunks. split; [exact Hframes|].
  rewrite Hrun. cbn [snd settled messages].
  rewrite (Hnone (Forall_nil _)). reflexivity.
Defined.

Section Wire.
Context `{Platform}.

(** The type the loop compares is the [type] of the frame when that is a
    string, and no type the loop knows otherwise. *)
Lemma as_type (f : json) (chunk : StreamingResponse) :
  as_StreamingResponse f = Some chunk ->
  chunk_type chunk = match get "type" f with
                     | Some (JStr t) => t
                     | _ => ""
                     end.
Proof.
  unfold as_StreamingResponse.
  destruct f; try discriminate;
    repeat match goal with
           | |- context [match ?x with _ => _ end] =>
               lazymatch x with
               | get "type" _ => fail
               | _ => destruct x
               end
           end;
    try discriminate; now intros [= <-].
Qed.

Lemma as_terminal (f : json) (chunk : StreamingResponse) :
  as_StreamingResponse f = Some chunk ->
  ChatAPI.is_terminal f
  = String.eqb (chunk_type chunk) "message_complete"
    || String.eqb (chunk_type chunk) "error".
Proof.
  intros Has. rewrite (as_type _ Has). unfold ChatAPI.is_terminal, is_string.
  now destruct (get "type" f) as [[| | |t| |]|].
Qed.

Lemma as_delta (f : json) (chunk : StreamingResponse) :
  as_StreamingResponse f = Some chunk ->
  is_delta chunk ->
  ChatAPI.is_terminal f = false.
Proof.
  intros Has Hdelta. rewrite (as_terminal _ Has).
  unfold is_delta in Hdelta. now rewrite Hdelta.
Qed.

Lemma as_StreamingResponses_app (fs gs : list json)
      (chunks more : list StreamingResponse) :
  as_StreamingResponses fs = Some chunks ->
  as_StreamingResponses gs = Some more ->
  as_StreamingResponses (fs ++ gs) = Some (chunks ++ more).
Proof.
  revert chunks. induction fs as [|f fs IH]; intros chunks Hfs Hgs.
  - injection Hfs as <-. exact Hgs.
  - cbn [app as_StreamingResponses] in *.
    destruct (as_StreamingResponse f) as [c|]; [|discriminate].
    destruct (as_StreamingResponses fs) as [cs|]; [|discriminate].
    injection Hfs as <-. now rewrite (IH cs eq_refl Hgs).
Qed.

(** The loop over lines that carry frames of which only the last ends
    the stream. *)
Lemma for_lines_carried (lines : list string) (fs : list json) :
  Forall2 Reading.frame_line lines fs ->
  Forall (fun f => ChatAPI.is_terminal f = false) fs ->
  forall (line : string) (last : json),
    Reading.frame_line line last ->
    ChatAPI.is_terminal last = true ->
    ChatAPI.for_lines (lines ++ [line])
    = (map ChatAPI.Yield (fs ++ [last]), ChatAPI.Return).
Proof.
  induction 1 as [|l f lines fs [Hdata Hparse] _ IH];
    intros Hopen line last [Hd Hp] Hlast.
  - cbn [app ChatAPI.for_lines map]. now rewrite Hd, Hp, Hlast.
  - inversion Hopen as [|x y Hf Hrest]; subst.
    cbn [app ChatAPI.for_lines map]. rewrite Hdata, Hparse, Hf.
    now rewrite (IH Hrest line last (conj Hd Hp) Hlast).
Qed.

Lemma frames_yields (fs : list json) :
  ChatAPI.frames (map ChatAPI.Yield fs) = fs.
Proof.
  induction fs as [|f fs IH]; [reflexivity|].
  cbn [map]. rewrite ReaderFacts.frames_yield. now rewrite IH.
Qed.

End Wire.

(** X24.  From the bytes of the stream to the answer on display.  For a
    stream of complete lines, cut into chunks in any way, whose lines
    carry frames of the declared type, content deltas first and then the
    frame that completes the message: the frames [streamChat] yields are
    those frames; and the loop of a send that has reached its call of
    [streamChat] and reads them leaves, right after the user message, one
    assistant message whose only block holds the contents of the deltas
    in order, with the references of the last frame and the streaming
    flag cleared, followed by the reports of the documents that could not
    be processed on the way; nothing is staged any more and the component
    is not streaming.  The id of the assistant message must be the id of
    no other message. *)
Theorem answer_of_a_stream `{Platform} `{Engine}
        (lines : list string) (line : string)
        (fs : list json) (last : json)
        (chunks : list StreamingResponse) (final : StreamingResponse)
        (bytes : list (list byte)) (now : string)
        (settings : Settings) (env : nat -> Retry) (clock : SendClock)
        (catch_now : Z) (st st1 : State) (s : Session)
        (request : ChatRequest) :
  Forall Stream.one_line (lines ++ [line]) ->
  Stream.decoded bytes = Stream.of_lines (lines ++ [line]) ->
  Forall2 Reading.frame_line lines fs ->
  Reading.frame_line line last ->
  as_StreamingResponses fs = Some chunks ->
  Forall is_delta chunks ->
  as_StreamingResponse last = Some final ->
  chunk_type final = "message_complete" ->
  handleSend_request settings env clock catch_now st
  = (st1, Some (s, request)) ->
  user_now clock <> assistant_now clock + 1 ->
  Forall (fun m => id m <> toString (assistant_now clock + 1)) (messages st) ->
  (forall i : nat, error_now (env i) <> assistant_now clock + 1) ->
  ChatAPI.streamChat (ChatAPI.streaming bytes) now
  = (map ChatAPI.Yield (fs ++ [last]), Normal)
  /\ as_StreamingResponses
       (ChatAPI.frames (fst (ChatAPI.streamChat (ChatAPI.streaming bytes) now)))
     = Some (chunks ++ [final])
  /\ exists reports : list Message,
      messages st1
      = messages st ++ [user_message clock st;
                        assistant_message clock "" [] true] ++ reports
      /\ reported env st reports
      /\ (Forall (fun document => preprocessed document = true)
                 (pendingPDFs st) -> reports = [])
      /\ run (Some s, st1) (map Frame (chunks ++ [final]))
         = (None,
            settled (messages st
                       ++ [user_message clock st;
                           assistant_message clock (deltas chunks)
                                             (references_of final) false]
                       ++ reports)
                    st1).
Proof.
  intros Hlines Hdec Hcarried Hline Hfs Hdeltas Hlast Hfinal
         Hrequest Hclock Hfresh Herrors.
  assert (Hopen : Forall (fun f => ChatAPI.is_terminal f = false) fs).
  { clear - Hfs Hdeltas. revert chunks Hfs Hdeltas.
    induction fs as [|f fs IH]; intros chunks Hfs Hdeltas; [constructor|].
    cbn [as_StreamingResponses] in Hfs.
    destruct (as_StreamingResponse f) as [c|] eqn:Ef; [|discriminate].
    destruct (as_StreamingResponses fs) as [cs|]; [|discriminate].
    injection Hfs as <-. inversion Hdeltas; subst.
    constructor; [now apply (as_delta _ Ef) | now apply (IH cs)]. }
  assert (Hterminal : ChatAPI.is_terminal last = true).
  { rewrite (as_terminal _ Hlast), Hfinal. reflexivity. }
  assert (Hstream : ChatAPI.streamChat (ChatAPI.streaming bytes) now
                    = (map ChatAPI.Yield (fs ++ [last]), Normal)).
  { rewrite (@ChatAPIFacts.streamChat_of_lines _ (lines ++ [line]) bytes now)
      by assumption.
    now rewrite (for_lines_carried Hcarried Hopen Hline Hterminal). }
  split; [exact Hstream|].
  split.
  { rewrite Hstream. cbn [fst]. rewrite frames_yields.
    apply as_StreamingResponses_app; [exact Hfs|].
    cbn [as_StreamingResponses]. now rewrite Hlast. }
  destruct (send_deltas _ _ _ _ _ Hrequest Hdeltas Hclock Hfresh Herrors)
    as (reports & Hmsg & Hreports & Hinput & Himages & Hpre & Hpost & Hrun).
  exists reports. split; [exact Hmsg|]. split; [exact Hreports|].
  split; [intros Hready; exact (reported_none Hready Hreports)|].
  rewrite map_app. unfold run in *. rewrite fold_left_app, Hrun.
  cbn [map fold_left].
  rewrite (@complete_frame_step clock _ reports st st1 _ final
             Hpre Hpost Hinput Himages Hfinal).
  now rewrite <- app_assoc.
Qed.

(** X24, for an answer in two deltas and a completion, with the bytes
    cut in the middle of the second line. *)
Lemma answer_of_a_stream_witness :
  exists typed : list StreamingResponse,
    @as_StreamingResponses Sample.platform
      (ChatAPI.frames
         (fst (@ChatAPI.streamChat Sample.platform
                 (ChatAPI.streaming
                    [Sample.bytes
                       (Sample.data_line (Sample.stringify (Sample.delta "Hel"))
                          ++ "da");
                     Sample.bytes
                       ("ta: " ++ Sample.stringify (Sample.delta "lo")
                          ++ Stream.nl
                          ++ Sample.data_line
                               (Sample.stringify Sample.complete))])
                 "2026-01-01T00:00:00.000Z")))
    = Some typed
    /\ map (fun m => (role m, map content (contentBlocks m)))
           (messages
              (snd (run (Some (session Sample.send_clock Sample.question ""),
                         fst (@handleSend_request Sample.platform
                                Scenario.engine defaults Scenario.retry
                                Sample.send_clock 1700000000002
                                Sample.question))
                        (map Frame typed))))
       = [(user, ["What is RAG?"]); (assistant, ["Hello"])].
Proof.
  assert (Hclock : user_now Sample.send_clock
                   <> assistant_now Sample.send_clock + 1) by discriminate.
  assert (Herrors : forall i : nat,
             error_now (Scenario.retry i)
             <> assistant_now Sample.send_clock + 1)
    by (intros i; discriminate).
  assert (Hdeltas : Forall is_delta
                           [Sample.delta_frame "Hel"; Sample.delta_frame "lo"])
    by (repeat constructor).
  assert (Hlines : Forall2 (@Reading.frame_line Sample.platform)
                     [("data: " ++ Sample.stringify (Sample.delta "Hel"))%string;
                      ("data: " ++ Sample.stringify (Sample.delta "lo"))%string]
                     [Sample.delta "Hel"; Sample.delta "lo"])
    by (repeat constructor).
  assert (Hrequest :
            @handleSend_request Sample.platform Scenario.engine
              defaults Scenario.retry Sample.send_clock 1700000000002
              Sample.question
            = (fst (@handleSend_request Sample.platform Scenario.engine
                      defaults Scenario.retry Sample.send_clock 1700000000002
                      Sample.question),
               Some (session Sample.send_clock Sample.question "",
                     request_of defaults Sample.question [])))
    by reflexivity.
  destruct (@answer_of_a_stream Sample.platform Scenario.engine
              [("data: " ++ Sample.stringify (Sample.delta "Hel"))%string;
               ("data: " ++ Sample.stringify (Sample.delta "lo"))%string]
              ("data: " ++ Sample.stringify Sample.complete)%string
              [Sample.delta "Hel"; Sample.delta "lo"] Sample.complete
              [Sample.delta_frame "Hel"; Sample.delta_frame "lo"]
              {| chunk_type := "message_complete"; chunk_content := None;
                 chunk_error := None; chunk_references := Some [] |}
              [Sample.bytes
                 (Sample.data_line (Sample.stringify (Sample.delta "Hel"))
                    ++ "da");
               Sample.bytes
                 ("ta: " ++ Sample.stringify (Sample.delta "lo")
                    ++ Stream.nl
                    ++ Sample.data_line (Sample.stringify Sample.complete))]
              "2026-01-01T00:00:00.000Z"
              defaults Scenario.retry Sample.send_clock 1700000000002
              Sample.question
              (fst (@handleSend_request Sample.platform Scenario.engine
                      defaults Scenario.retry Sample.send_clock 1700000000002
                      Sample.question))
              (session Sample.send_clock Sample.question "")
              (request_of defaults Sample.question []))
    as (_ & Htyped & reports & _ & _ & Hnone & Hrun);
    try exact Hrequest; try exact Herrors;
    try reflexivity; try assumption.
  - repeat constructor.
  - split; reflexivity.
  - constructor.
  - eexists. split; [exact Htyped|].
    rewrite Hrun. cbn [snd settled messages].
    rewrite (Hnone (Forall_nil _)). reflexivity.
Defined.

Section History.

Lemma join_contents_app (a b : list ContentBlock) :
  join_contents (a ++ b) = (join_contents a ++ join_contents b)%string.
Proof.
  induction a as [|x a IH]; [reflexivity|].
  cbn [app join_contents]. now rewrite IH, append_assoc.
Qed.

Lemma join_contents_map {A : Type} (block : A -> ContentBlock)
      (text : A -> string) (l : list A) :
  (forall x, content (block x) = text x) ->
  join_contents (map block l) = String.concat "" (map text l).
Proof.
  intros Htext. induction l as [|x l IH]; [reflexivity|].
  cbn [map join_contents]. rewrite IH, Htext.
  destruct l as [|y l]; [apply append_nil_r | reflexivity].
Qed.

Lemma concat_empty {A : Type} (l : list A) :
  String.concat "" (map (fun _ : A => "") l) = "".
Proof.
  induction l as [|x l IH]; [reflexivity|].
  cbn [map]. destruct l as [|y l]; [reflexivity|].
  cbn [String.concat map] in *. exact IH.
Qed.

End History.

(** X25.  What the history of later requests holds for the messages of
    an exchange.  The plain content of the entry for a user message is
    its text as typed (nothing when it is blank), followed without any
    separator by the data URLs of its images and then by the file names
    of its documents; its audios add nothing to the content, their
    transcriptions are in the blocks.  The content of the entry for the
    assistant message is its text.  An entry has as many blocks as its
    message. *)
Theorem history_of_an_exchange
        (clock : SendClock) (st : State) (c : string)
        (refs : list Reference) (streaming : bool) :
  history_content (history_entry (user_message clock st))
  = ((if nonempty (trim (inputValue st)) then inputValue st else "")
       ++ String.concat "" (map dataUrl (pendingImages st))
       ++ String.concat "" (map pdf_filename (pendingPDFs st)))%string
  /\ map history_transcription
         (history_blocks (history_entry (user_message clock st)))
     = (if nonempty (trim (inputValue st)) then [None] else [])
         ++ map (fun _ => None) (pendingImages st)
         ++ map (fun a => Some match audio_transcription a with
                               | Some t => t
                               | None => ""
                               end) (pendingAudios st)
         ++ map (fun _ => None) (pendingPDFs st)
  /\ history_content (history_entry (assistant_message clock c refs streaming))
     = c
  /\ forall msg : Message,
      List.length (history_blocks (history_entry msg))
      = List.length (contentBlocks msg).
Proof.
  split; [|split; [|split]].
  - cbn [history_entry history_content user_message contentBlocks].
    unfold user_blocks. rewrite !join_contents_app.
    rewrite (join_contents_map image_block dataUrl) by reflexivity.
    rewrite (join_contents_map audio_block (fun _ => "")) by reflexivity.
    rewrite (join_contents_map pdf_block pdf_filename) by reflexivity.
    rewrite concat_empty. cbn [String.append].
    destruct (nonempty (trim (inputValue st)));
      cbn [join_contents content text_block]; rewrite ?append_nil_r;
      reflexivity.
  - cbn [history_entry history_blocks user_message contentBlocks].
    unfold user_blocks. rewrite !map_app, !map_map.
    now destruct (nonempty (trim (inputValue st))).
  - cbn. apply append_nil_r.
  - intros msg. cbn [history_entry history_blocks]. apply length_map.
Qed.

End SendFacts.
